(** * osmnx/core.py: element classification, path reduction, directionality
      and graph assembly

    A shallow embedding of the ingestion part of [osmnx/core.py]:
    [_convert_node], [_convert_path], [_parse_osm_nodes_paths], [_add_path],
    [_add_paths], [_create_graph] and the SAX handler [_OSMContentHandler].

    Python dicts with string keys are [gmap string value]; the two dicts
    whose iteration order the code depends on ([nodes] and [paths], iterated
    by [_create_graph] and [_add_paths]) are insertion-ordered association
    lists.  Exceptions are an explicit error monad.  The networkx
    [MultiDiGraph] is modelled by its node dict and its edges in insertion
    order, each with the parallel-edge key networkx hands out. *)

From Stdlib Require Import ZArith SpecFloat DecimalString.
From stdpp Require Import base option list gmap strings.

Open Scope Z_scope.

(** ** Python values and exceptions *)

(** The values that occur in Overpass elements and in node, path and edge
    attribute dicts.  Floats are IEEE doubles, which the code only copies. *)
Inductive value :=
| VInt (z : Z)
| VFloat (f : spec_float)
| VStr (s : string)
| VBool (b : bool)
| VNodes (l : list Z)
| VTags (t : gmap string string).

Abbreviation pydict := (gmap string value).

(** [Unmodelled] marks inputs whose shape lies outside the Overpass shape
    (an id that is not an int, a 'nodes' entry that is not a list of ints, a
    'tags' entry that is not a dict); nothing is claimed about them. *)
Inductive exn :=
| EmptyOverpassResponse
| KeyError (k : string)
| TypeError
| ValueError
| Unmodelled.

Inductive result (A : Type) :=
| Ok (a : A)
| Raise (e : exn).
Arguments Ok {A} a.
Arguments Raise {A} e.

#[export] Instance result_ret : MRet result := λ A a, Ok a.
#[export] Instance result_bind : MBind result := λ A B f m,
  match m with
  | Ok a => f a
  | Raise e => Raise e
  end.

(** [for x in l: acc = body(acc, x)] with exceptions. *)
Fixpoint for_each {A S : Type} (body : S → A → result S) (l : list A) (acc : S)
  : result S :=
  match l with
  | [] => Ok acc
  | x :: l' => acc' ← body acc x; for_each body l' acc'
  end.

(** [d[k]] *)
Definition getitem (d : pydict) (k : string) : result value :=
  match d !! k with
  | Some v => Ok v
  | None => Raise (KeyError k)
  end.

(** [v == s] for a string literal [s]: a value that is not a string never
    equals one. *)
Definition eq_str (v : value) (s : string) : bool :=
  match v with
  | VStr s' => bool_decide (s' = s)
  | _ => false
  end.

(** ** Insertion-ordered dicts keyed by OSM id *)

Abbreviation odict := (list (Z * pydict)).

(** [d[k] = v]: an existing key keeps its position, a new one goes last. *)
Fixpoint od_set (k : Z) (v : pydict) (d : odict) : odict :=
  match d with
  | [] => [(k, v)]
  | (k', v') :: d' =>
      if decide (k = k') then (k', v) :: d' else (k', v') :: od_set k v d'
  end.

Fixpoint od_get (k : Z) (d : odict) : option pydict :=
  match d with
  | [] => None
  | (k', v') :: d' => if decide (k = k') then Some v' else od_get k d'
  end.

(** [for key, value in src.items(): dst[key] = value] *)
Definition od_update (dst src : odict) : odict :=
  foldl (λ d kv, od_set kv.1 kv.2 d) dst src.

(** ** Settings *)

(** The fields of the [settings] module that the embedded functions read. *)
Record settings := {
  useful_tags_node : list string;
  useful_tags_path : list string;
  all_oneway : bool;
  default_crs : string
}.

(** ** Element classifier *)

(** [if 'tags' in element] followed by reads of [element['tags']]. *)
Definition element_tags (element : pydict) : result (option (gmap string string)) :=
  match element !! "tags" with
  | None => Ok None
  | Some (VTags t) => Ok (Some t)
  | Some _ => Raise Unmodelled
  end.

(** [for useful_tag in useful: if useful_tag in tags: d[useful_tag] = tags[useful_tag]] *)
Definition copy_useful_tags (useful : list string) (tags : gmap string string)
    (d : pydict) : pydict :=
  foldl (λ d useful_tag,
           match tags !! useful_tag with
           | Some v => <[useful_tag := VStr v]> d
           | None => d
           end) d useful.

Definition _convert_node (s : settings) (element : pydict) : result pydict :=
  let node : pydict := ∅ in
  lat ← getitem element "lat";
  let node := <["y" := lat]> node in
  lon ← getitem element "lon";
  let node := <["x" := lon]> node in
  id ← getitem element "id";
  let node := <["osmid" := id]> node in
  tags ← element_tags element;
  match tags with
  | Some tags => Ok (copy_useful_tags (useful_tags_node s) tags node)
  | None => Ok node
  end.

(** [itertools.groupby] without a key function, as its iterator runs: [k] is
    the key of the group being collected, [g] its members so far. *)
Fixpoint groupby_from (k : Z) (g : list Z) (l : list Z) : list (Z * list Z) :=
  match l with
  | [] => [(k, g)]
  | x :: l' =>
      if decide (x = k) then groupby_from k (g ++ [x]) l'
      else (k, g) :: groupby_from x [x] l'
  end.

Definition groupby (l : list Z) : list (Z * list Z) :=
  match l with
  | [] => []
  | x :: l' => groupby_from x [x] l'
  end.

(** [[group[0] for group in groupby(nodes)]] (lines 304-305 of
    [_convert_path]): the path reducer. *)
Definition reduce_nodes (l : list Z) : list Z := (groupby l).*1.

Definition _convert_path (s : settings) (element : pydict) : result pydict :=
  let path : pydict := ∅ in
  id ← getitem element "id";
  let path := <["osmid" := id]> path in
  nodes ← getitem element "nodes";
  match nodes with
  | VNodes l =>
      let path := <["nodes" := VNodes (reduce_nodes l)]> path in
      tags ← element_tags element;
      match tags with
      | Some tags => Ok (copy_useful_tags (useful_tags_path s) tags path)
      | None => Ok path
      end
  | _ => Raise Unmodelled
  end.

(** An Overpass response: the element list and the other top-level keys. *)
Record response := {
  resp_meta : gmap string string;
  resp_elements : list pydict
}.

Definition element_key (element : pydict) : result Z :=
  id ← getitem element "id";
  match id with
  | VInt k => Ok k
  | _ => Raise Unmodelled
  end.

(** One iteration of the loop of [_parse_osm_nodes_paths]. *)
Definition _parse_osm_nodes_paths_body (s : settings) (acc : odict * odict)
    (element : pydict) : result (odict * odict) :=
  let '(nodes, paths) := acc in
  ty ← getitem element "type";
  if eq_str ty "node" then
    key ← element_key element;
    node ← _convert_node s element;
    Ok (od_set key node nodes, paths)
  else if eq_str ty "way" then
    key ← element_key element;
    path ← _convert_path s element;
    Ok (nodes, od_set key path paths)
  else Ok (nodes, paths).

Definition _parse_osm_nodes_paths (s : settings) (osm_data : response)
  : result (odict * odict) :=
  for_each (_parse_osm_nodes_paths_body s) (resp_elements osm_data) ([], []).

(** ** networkx.MultiDiGraph *)

(** An edge [(u, v, key)] with its own attribute dict. *)
Record edge := {
  e_u : Z;
  e_v : Z;
  e_key : nat;
  e_attr : pydict
}.

(** Graph attributes, node dict, and the edges in the order they were added.
    Nothing here removes an edge, so the keys between [u] and [v] are
    [0 .. n-1] and [new_edge_key] is the number of edges already there. *)
Record MultiDiGraph := {
  graph : pydict;
  _node : gmap Z pydict;
  edges : list edge
}.

Definition between (u v : Z) (e : edge) : bool :=
  bool_decide (e_u e = u) && bool_decide (e_v e = v).

Definition new_edge_key (G : MultiDiGraph) (u v : Z) : nat :=
  length (filter (λ e, between u v e = true) (edges G)).

(** [G.add_node(n, **attr)]: a new node gets [attr], a known one is updated. *)
Definition add_node (G : MultiDiGraph) (n : Z) (attr : pydict) : MultiDiGraph :=
  {| graph := graph G;
     _node := match _node G !! n with
              | None => <[n := attr]> (_node G)
              | Some old => <[n := attr ∪ old]> (_node G)
              end;
     edges := edges G |}.

(** The endpoint of a new edge is added without attributes when missing. *)
Definition touch_node (n : Z) (nodes : gmap Z pydict) : gmap Z pydict :=
  match nodes !! n with
  | None => <[n := ∅]> nodes
  | Some _ => nodes
  end.

(** [G.add_edge(u, v, **attr)] *)
Definition add_edge (G : MultiDiGraph) (u v : Z) (attr : pydict) : MultiDiGraph :=
  {| graph := graph G;
     _node := touch_node v (touch_node u (_node G));
     edges := edges G ++
              [{| e_u := u; e_v := v; e_key := new_edge_key G u v; e_attr := attr |}] |}.

(** [G.add_edges_from(ebunch, **attr)] for a list of pairs: every edge gets
    its own copy of [attr]. *)
Definition add_edges_from (G : MultiDiGraph) (ebunch : list (Z * Z))
    (attr : pydict) : MultiDiGraph :=
  foldl (λ G uv, add_edge G uv.1 uv.2 attr) G ebunch.

(** ** Directionality: [_add_path] and [_add_paths] *)

(** [list(zip(path_nodes[:-1], path_nodes[1:]))] *)
Definition path_edges (path_nodes : list Z) : list (Z * Z) :=
  zip (removelast path_nodes) (tail path_nodes).

(** [[(v, u) for u, v in path_edges]] *)
Definition opposite_direction (es : list (Z * Z)) : list (Z * Z) :=
  (λ uv, (uv.2, uv.1)) <$> es.

(** [_add_path] mutates both [G] and [data]; both are returned. *)
Definition _add_path (s : settings) (G : MultiDiGraph) (data : pydict)
    (one_way : bool) : result (MultiDiGraph * pydict) :=
  path_nodes ← getitem data "nodes";
  let data := delete "nodes" data in
  let data := if negb (all_oneway s) then <["oneway" := VBool one_way]> data
              else data in
  match path_nodes with
  | VNodes path_nodes =>
      let G := add_edges_from G (path_edges path_nodes) data in
      let G := if negb one_way
               then add_edges_from G (opposite_direction (path_edges path_nodes)) data
               else G in
      Ok (G, data)
  | _ => Raise Unmodelled
  end.

Definition osm_oneway_values : list string :=
  ["yes"; "true"; "1"; "-1"; "T"; "F"].

(** ['oneway' in data and data['oneway'] in osm_oneway_values] *)
Definition tagged_oneway (data : pydict) : bool :=
  match data !! "oneway" with
  | Some v => existsb (eq_str v) osm_oneway_values
  | None => false
  end.

(** [data['oneway'] == '-1' or data['oneway'] == 'T'] *)
Definition tagged_reverse (data : pydict) : bool :=
  match data !! "oneway" with
  | Some v => eq_str v "-1" || eq_str v "T"
  | None => false
  end.

(** ['junction' in data and data['junction'] == 'roundabout'] *)
Definition tagged_roundabout (data : pydict) : bool :=
  match data !! "junction" with
  | Some v => eq_str v "roundabout"
  | None => false
  end.

(** [data['nodes'] = list(reversed(data['nodes']))] *)
Definition reverse_nodes (data : pydict) : result pydict :=
  nodes ← getitem data "nodes";
  match nodes with
  | VNodes l => Ok (<["nodes" := VNodes (reverse l)]> data)
  | _ => Raise Unmodelled
  end.

(** One iteration of the loop of [_add_paths]: the graph and the path's
    dict after it. *)
Definition _add_paths_body (s : settings) (bidirectional : bool)
    (G : MultiDiGraph) (data : pydict) : result (MultiDiGraph * pydict) :=
  if all_oneway s then _add_path s G data true
  else if tagged_oneway data && negb bidirectional then
    data ← (if tagged_reverse data then reverse_nodes data else Ok data);
    _add_path s G data true
  else if tagged_roundabout data && negb bidirectional then
    _add_path s G data true
  else _add_path s G data false.

Definition _add_paths (s : settings) (G : MultiDiGraph) (paths : odict)
    (bidirectional : bool) : result MultiDiGraph :=
  for_each (λ G data, r ← _add_paths_body s bidirectional G data; Ok r.1)
           paths.*2 G.

(** ** Graph assembly: [_create_graph] *)

Section create_graph.
(** Collaborators outside [core.py]: the clock behind [utils.ts()], the
    package version, and the two post-processing passes. *)
Variable ts : string.
Variable __version__ : string.
Variable get_largest_component : MultiDiGraph → MultiDiGraph.
Variable add_edge_lengths : MultiDiGraph → MultiDiGraph.

(** [elements.extend(response_json['elements'])] over all responses *)
Definition all_elements (response_jsons : list response) : list pydict :=
  concat (resp_elements <$> response_jsons).

Definition empty_graph (s : settings) : MultiDiGraph :=
  {| graph := <["crs" := VStr (default_crs s)]>
                (<["created_with" := VStr ("OSMnx " +:+ __version__)]>
                   (<["created_date" := VStr ts]> ∅));
     _node := ∅;
     edges := [] |}.

(** The merge loop of [_create_graph] (lines 473-480). *)
Definition merge_responses (s : settings) (response_jsons : list response)
  : result (odict * odict) :=
  for_each (λ (acc : odict * odict) osm_data,
              temp ← _parse_osm_nodes_paths s osm_data;
              Ok (od_update acc.1 temp.1, od_update acc.2 temp.2))
           response_jsons ([], []).

(** [for node, data in nodes.items(): G.add_node(node, **data)] *)
Definition add_nodes (G : MultiDiGraph) (nodes : odict) : MultiDiGraph :=
  foldl (λ G nd, add_node G nd.1 nd.2) G nodes.

(** The graph as [_create_graph] has it after [_add_paths], before the
    post-processing passes. *)
Definition assemble (s : settings) (response_jsons : list response)
    (bidirectional : bool) : result MultiDiGraph :=
  let G := empty_graph s in
  merged ← merge_responses s response_jsons;
  let G := add_nodes G merged.1 in
  _add_paths s G merged.2 bidirectional.

Definition _create_graph (s : settings) (response_jsons : list response)
    (retain_all bidirectional : bool) : result MultiDiGraph :=
  let elements := all_elements response_jsons in
  if (length elements <? 1)%nat then Raise EmptyOverpassResponse
  else
    G ← assemble s response_jsons bidirectional;
    let G := if negb retain_all then get_largest_component G else G in
    let G := if (0 <? length (edges G))%nat then add_edge_lengths G else G in
    Ok G.
End create_graph.

(** ** XML normalizer: [_OSMContentHandler] *)

(** The callbacks [xml.sax.parse] makes on the handler. *)
Inductive sax_event :=
| StartElement (name : string) (attrs : gmap string string)
| EndElement (name : string).

(** The handler object.  Element dicts live in [heap] and are named by their
    index: [self._element] and the entries of [self.object['elements']] are
    references, so an element that was appended is still reachable through
    [self._element]. *)
Record _OSMContentHandler := {
  _element : option nat;
  heap : list pydict;
  object_meta : gmap string string;
  object_elements : list (option nat)
}.

Definition __init__ : _OSMContentHandler :=
  {| _element := None; heap := []; object_meta := ∅; object_elements := [] |}.

Definition getattr (attrs : gmap string string) (k : string) : result string :=
  match attrs !! k with
  | Some v => Ok v
  | None => Raise (KeyError k)
  end.

(** An XML document as [xml.sax] walks it; character data is not reported
    to the handler and is left out. *)
#[local] Set Warnings "-register-all".
Inductive xml :=
| XElement (name : string) (attrs : gmap string string) (children : list xml).

Fixpoint sax_events (x : xml) : list sax_event :=
  match x with
  | XElement name attrs children =>
      StartElement name attrs :: flat_map sax_events children ++ [EndElement name]
  end.

Definition xml_name (x : xml) : string :=
  match x with XElement name _ _ => name end.

Definition xml_attrs (x : xml) : gmap string string :=
  match x with XElement _ attrs _ => attrs end.

Definition xml_children (x : xml) : list xml :=
  match x with XElement _ _ children => children end.

(** Documents on which the handler's single in-progress reference is used
    only inside the element it belongs to: the root is [osm]; below a [node]
    or [way] there are [tag], [nd] and other children, none of them [osm],
    [node] or [way]; everywhere else (in a [relation], in [bounds]) no
    element is named [osm], [node], [way], [tag] or [nd]. *)
Fixpoint inert (x : xml) : bool :=
  match x with
  | XElement name _ children =>
      negb (bool_decide (name ∈ ["osm"; "node"; "way"; "tag"; "nd"]))
      && forallb inert children
  end.

Definition child_of_element (c : xml) : bool :=
  negb (bool_decide (xml_name c ∈ ["osm"; "node"; "way"]))
  && forallb inert (xml_children c).

Definition plain_child (c : xml) : bool :=
  if bool_decide (xml_name c = "node") || bool_decide (xml_name c = "way")
  then forallb child_of_element (xml_children c)
  else inert c.

Definition plain_document (doc : xml) : bool :=
  bool_decide (xml_name doc = "osm") && forallb plain_child (xml_children doc).

Section sax.
(** The builtins [int] and [float] on strings; [None] is [ValueError]. *)
Variable py_int : string → option Z.
Variable py_float : string → option spec_float.

(** [el.update({k: conv(attrs[k]) for k in attrs.keys() if k in keys})] *)
Definition update_converted {A : Type} (conv : string → option A)
    (inj : A → value) (keys : list string) (attrs : gmap string string)
    (el : pydict) : result pydict :=
  for_each (λ (el : pydict) k,
              match attrs !! k with
              | None => Ok el
              | Some sv => match conv sv with
                           | Some a => Ok (<[k := inj a]> el)
                           | None => Raise ValueError
                           end
              end) keys el.

(** [dict(type=name, tags={}, nodes=[], **attrs)] and the two updates; a
    keyword given twice is a [TypeError]. *)
Definition new_element (name : string) (attrs : gmap string string)
  : result pydict :=
  if bool_decide (is_Some (attrs !! "type"))
     || bool_decide (is_Some (attrs !! "tags"))
     || bool_decide (is_Some (attrs !! "nodes"))
  then Raise TypeError
  else
    let el : pydict :=
      <["type" := VStr name]>
        (<["tags" := VTags ∅]> (<["nodes" := VNodes []]> (VStr <$> attrs))) in
    el ← update_converted py_float VFloat ["lat"; "lon"] attrs el;
    update_converted py_int VInt ["id"; "uid"; "version"; "changeset"] attrs el.

(** [self._element[field]]: [self._element] may still be [None]. *)
Definition current_field (h : _OSMContentHandler) (field : string)
  : result (nat * pydict * value) :=
  match _element h with
  | None => Raise TypeError
  | Some loc =>
      match heap h !! loc with
      | Some el => v ← getitem el field; Ok (loc, el, v)
      | None => Raise Unmodelled
      end
  end.

Definition store (h : _OSMContentHandler) (loc : nat) (el : pydict) : _OSMContentHandler :=
  {| _element := _element h;
     heap := <[loc := el]> (heap h);
     object_meta := object_meta h;
     object_elements := object_elements h |}.

Definition startElement (h : _OSMContentHandler) (name : string)
    (attrs : gmap string string) : result _OSMContentHandler :=
  if bool_decide (name = "osm") then
    Ok {| _element := _element h;
          heap := heap h;
          object_meta :=
            filter (λ kv, kv.1 = "version" ∨ kv.1 = "generator") attrs
            ∪ object_meta h;
          object_elements := object_elements h |}
  else if bool_decide (name = "node") || bool_decide (name = "way") then
    el ← new_element name attrs;
    Ok {| _element := Some (length (heap h));
          heap := heap h ++ [el];
          object_meta := object_meta h;
          object_elements := object_elements h |}
  else if bool_decide (name = "tag") then
    cur ← current_field h "tags";
    let '(loc, el, tags) := cur in
    k ← getattr attrs "k";
    v ← getattr attrs "v";
    match tags with
    | VTags t => Ok (store h loc (<["tags" := VTags (<[k := v]> t)]> el))
    | _ => Raise Unmodelled
    end
  else if bool_decide (name = "nd") then
    cur ← current_field h "nodes";
    let '(loc, el, nodes) := cur in
    ref ← getattr attrs "ref";
    match py_int ref, nodes with
    | None, _ => Raise ValueError
    | Some r, VNodes l => Ok (store h loc (<["nodes" := VNodes (l ++ [r])]> el))
    | Some _, _ => Raise Unmodelled
    end
  else Ok h.

Definition endElement (h : _OSMContentHandler) (name : string) : _OSMContentHandler :=
  if bool_decide (name = "node") || bool_decide (name = "way") then
    {| _element := _element h;
       heap := heap h;
       object_meta := object_meta h;
       object_elements := object_elements h ++ [_element h] |}
  else h.

Definition handle (h : _OSMContentHandler) (ev : sax_event) : result _OSMContentHandler :=
  match ev with
  | StartElement name attrs => startElement h name attrs
  | EndElement name => Ok (endElement h name)
  end.

(** [handler.object], with the references in the element list followed. *)
Definition handler_object (h : _OSMContentHandler) : result response :=
  match mapM (λ r : option nat, r ≫= (heap h !!.)) (object_elements h) with
  | Some els => Ok {| resp_meta := object_meta h; resp_elements := els |}
  | None => Raise Unmodelled
  end.

(** [_overpass_json_from_file] on the document [xml.sax.parse] reads from
    the file. *)
Definition _overpass_json_from_file (doc : xml) : result response :=
  h ← for_each handle (sax_events doc) __init__;
  handler_object h.

(** *** The JSON batch written by hand for the same document

    The elements a reader of the document would write down, following the
    description of the normalizer: one element per [node] or [way] child of
    the root, with its own attributes (converted alike), the tag map of its
    own [tag] children and the references of its own [nd] children;
    [relation] and anything else gives no element. *)
Definition own_tags_step (t : gmap string string) (c : xml)
  : result (gmap string string) :=
  if bool_decide (xml_name c = "tag") then
    k ← getattr (xml_attrs c) "k";
    v ← getattr (xml_attrs c) "v";
    Ok (<[k := v]> t)
  else Ok t.

Definition own_tags (children : list xml) : result (gmap string string) :=
  for_each own_tags_step children ∅.

Definition own_refs_step (l : list Z) (c : xml) : result (list Z) :=
  if bool_decide (xml_name c = "nd") then
    ref ← getattr (xml_attrs c) "ref";
    match py_int ref with
    | Some r => Ok (l ++ [r])
    | None => Raise ValueError
    end
  else Ok l.

Definition own_refs (children : list xml) : result (list Z) :=
  for_each own_refs_step children [].

Definition equivalent_element (x : xml) : result pydict :=
  el ← new_element (xml_name x) (xml_attrs x);
  tags ← own_tags (xml_children x);
  refs ← own_refs (xml_children x);
  Ok (<["nodes" := VNodes refs]> (<["tags" := VTags tags]> el)).

Definition equivalent_step (els : list pydict) (c : xml) : result (list pydict) :=
  if bool_decide (xml_name c = "node") || bool_decide (xml_name c = "way")
  then el ← equivalent_element c; Ok (els ++ [el])
  else Ok els.

Definition equivalent_json (doc : xml) : result response :=
  els ← for_each equivalent_step (xml_children doc) [];
  Ok {| resp_meta := ∅; resp_elements := els |}.
End sax.

(** [int] on the plain decimal strings OSM writes ids in. *)
Definition decimal_int (s : string) : option Z :=
  Z.of_int <$> NilZero.int_of_string s.

(** ** Vocabulary of the statements *)

Fixpoint no_adjacent_dups (l : list Z) : Prop :=
  match l with
  | x :: l' => match l' with
               | y :: _ => x ≠ y ∧ no_adjacent_dups l'
               | [] => True
               end
  | [] => True
  end.

(** [gs] cuts [l] into its maximal runs of equal adjacent elements: the
    groups concatenate to [l], each is a non-empty repetition of its key, and
    neighbouring groups have different keys. *)
Definition maximal_runs (gs : list (Z * list Z)) (l : list Z) : Prop :=
  concat gs.*2 = l
  ∧ Forall (λ kg, kg.2 ≠ [] ∧ Forall (eq kg.1) kg.2) gs
  ∧ no_adjacent_dups gs.*1.

(** The tags of a way element; none when it has no 'tags' entry. *)
Definition way_tags (element : pydict) : gmap string string :=
  match element !! "tags" with
  | Some (VTags t) => t
  | _ => ∅
  end.

(** An edge without its parallel-edge key, and a run of edges that all
    carry [attr]. *)
Definition edge_view (e : edge) : Z * Z * pydict := (e_u e, e_v e, e_attr e).

Definition run (pairs : list (Z * Z)) (attr : pydict) : list (Z * Z * pydict) :=
  (λ uv, (uv.1, uv.2, attr)) <$> pairs.

(** The path's 'nodes' entry is a list of node references. *)
Definition has_node_list (data : pydict) : Prop :=
  ∃ ns, data !! "nodes" = Some (VNodes ns).

(** ** Sample inputs *)

Definition settings_plain : settings :=
  {| useful_tags_node := ["highway"];
     useful_tags_path := ["name"; "highway"];
     all_oneway := false;
     default_crs := "epsg:4326" |}.

Definition settings_osm : settings :=
  {| useful_tags_node := ["highway"];
     useful_tags_path := ["name"; "highway"; "oneway"; "junction"];
     all_oneway := false;
     default_crs := "epsg:4326" |}.

Definition settings_all_oneway : settings :=
  {| useful_tags_node := ["highway"];
     useful_tags_path := ["name"; "highway"; "oneway"; "junction"];
     all_oneway := true;
     default_crs := "epsg:4326" |}.

Definition graph_nil : MultiDiGraph :=
  {| graph := ∅; _node := ∅; edges := [] |}.

(** A way element tagged [oneway=yes]. *)
Definition tags_7 : gmap string string :=
  <["oneway" := "yes"]> (<["highway" := "residential"]> ∅).

Definition way_7 : pydict :=
  <["tags" := VTags tags_7]>
    (<["nodes" := VNodes [1; 2]]> (<["id" := VInt 7]> (<["type" := VStr "way"]> ∅))).

(** Paths over the nodes [1,2,3]: untagged, and with a raw 'oneway' value. *)
Definition path_123 : pydict :=
  <["nodes" := VNodes [1; 2; 3]]> (<["osmid" := VInt 7]> ∅).

Definition path_123_oneway (raw : string) : pydict :=
  <["oneway" := VStr raw]> path_123.

(** Node 42 as two responses report it, with different tags. *)
Definition node_42 (highway : string) : pydict :=
  <["tags" := VTags (<["highway" := highway]> ∅)]>
    (<["lon" := VFloat (S754_finite false 1 1)]>
       (<["lat" := VFloat (S754_finite false 1 0)]>
          (<["id" := VInt 42]> (<["type" := VStr "node"]> ∅)))).

Definition record_42 (highway : string) : pydict :=
  <["highway" := VStr highway]>
    (<["osmid" := VInt 42]>
       (<["x" := VFloat (S754_finite false 1 1)]>
          (<["y" := VFloat (S754_finite false 1 0)]> ∅))).

Definition response_A : response :=
  {| resp_meta := ∅; resp_elements := [node_42 "crossing"] |}.

Definition response_B : response :=
  {| resp_meta := ∅; resp_elements := [node_42 "traffic_signals"] |}.

(** A document with one way and, after it, a relation that has a tag. *)
Definition doc_way_relation : xml :=
  XElement "osm" {["version" := "0.6"]}
    [XElement "way" {["id" := "1"]}
       [XElement "nd" {["ref" := "1"]} [];
        XElement "nd" {["ref" := "2"]} []];
     XElement "relation" {["id" := "9"]}
       [XElement "member" {["type" := "way"; "ref" := "1"]} [];
        XElement "tag" {["k" := "name"; "v" := "Bus 5"]} []]].

(** A document of the plain kind: the relation has members only. *)
Definition doc_plain : xml :=
  XElement "osm" {["version" := "0.6"]}
    [XElement "bounds" ∅ [];
     XElement "way" {["id" := "1"]}
       [XElement "nd" {["ref" := "1"]} [];
        XElement "nd" {["ref" := "1"]} [];
        XElement "nd" {["ref" := "2"]} [];
        XElement "tag" {["k" := "highway"; "v" := "residential"]} [];
        XElement "tag" {["k" := "oneway"; "v" := "yes"]} []];
     XElement "relation" {["id" := "9"]}
       [XElement "member" {["type" := "way"; "ref" := "1"]} []]].

(** ** Vocabulary for the shape of elements *)

(** [element['type'] == ty] *)
Definition is_kind (ty : string) (element : pydict) : bool :=
  match element !! "type" with
  | Some v => eq_str v ty
  | None => false
  end.

Definition has_int (element : pydict) (k : string) : bool :=
  match element !! k with
  | Some (VInt _) => true
  | _ => false
  end.

Definition has_node_refs (element : pydict) : bool :=
  match element !! "nodes" with
  | Some (VNodes _) => true
  | _ => false
  end.

Definition tags_ok (element : pydict) : bool :=
  match element !! "tags" with
  | None | Some (VTags _) => true
  | Some _ => false
  end.

(** An element of the Overpass shape: it has a 'type'; a node has an int
    'id', a 'lat' and a 'lon'; a way has an int 'id' and a list 'nodes'; the
    'tags' entry, when there is one, is a dict.  Elements of any other type
    are not looked into. *)
Definition well_shaped (element : pydict) : bool :=
  match element !! "type" with
  | None => false
  | Some _ =>
      if is_kind "node" element then
        has_int element "id"
        && bool_decide (is_Some (element !! "lat"))
        && bool_decide (is_Some (element !! "lon"))
        && tags_ok element
      else if is_kind "way" element then
        has_int element "id" && has_node_refs element && tags_ok element
      else true
  end.

(** The first key the classifier reads from the element and does not find,
    if there is one before anything else goes wrong. *)
Definition missing_key (element : pydict) : option string :=
  match element !! "type" with
  | None => Some "type"
  | Some _ =>
      if is_kind "node" element then
        match element !! "id" with
        | None => Some "id"
        | Some (VInt _) =>
            if bool_decide (element !! "lat" = None) then Some "lat"
            else if bool_decide (element !! "lon" = None) then Some "lon"
            else None
        | Some _ => None
        end
      else if is_kind "way" element then
        match element !! "id" with
        | None => Some "id"
        | Some (VInt _) =>
            if bool_decide (element !! "nodes" = None) then Some "nodes" else None
        | Some _ => None
        end
      else None
  end.

(** One response holding the elements of all [response_jsons], in order. *)
Definition joined (response_jsons : list response) : response :=
  {| resp_meta := ∅;
     resp_elements := concat (resp_elements <$> response_jsons) |}.

(** ** [graph_from_file] *)

Section graph_from_file.
Variable ts : string.
Variable __version__ : string.
Variable get_largest_component : MultiDiGraph → MultiDiGraph.
Variable add_edge_lengths : MultiDiGraph → MultiDiGraph.
Variable py_int : string → option Z.
Variable py_float : string → option spec_float.
(** [simplification.simplify_graph] *)
Variable simplify_graph : MultiDiGraph → MultiDiGraph.

(** [graph_from_file] on the document in the file. *)
Definition graph_from_file (s : settings) (filename : xml)
    (bidirectional simplify retain_all : bool) : result MultiDiGraph :=
  r ← _overpass_json_from_file py_int py_float filename;
  let response_jsons := [r] in
  G ← _create_graph ts __version__ get_largest_component add_edge_lengths
        s response_jsons retain_all bidirectional;
  let G := if simplify then simplify_graph G else G in
  Ok G.
End graph_from_file.

(** ** Vocabulary for graph invariants *)



(** A response with node 42 and the way 7 over the nodes 1 and 2, which no
    node element describes; and one with a relation only. *)
Definition response_42_7 : response :=
  {| resp_meta := ∅; resp_elements := [node_42 "crossing"; way_7] |}.

Definition response_relation : response :=
  {| resp_meta := ∅;
     resp_elements := [<["id" := VInt 9]> {["type" := VStr "relation"]}] |}.

(** ** [_osm_net_download] *)

(** What the download layer raises: [InsufficientNetworkQueryArguments],
    raised by [core.py] itself, or an exception of a collaborator (the
    filter table, the Overpass request). *)
Inductive download_exn (E : Type) :=
| InsufficientNetworkQueryArguments
| Collaborator (e : E).
Arguments InsufficientNetworkQueryArguments {E}.
Arguments Collaborator {E} e.

Inductive outcome (E A : Type) :=
| Done (a : A)
| Failed (e : download_exn E).
Arguments Done {E A} a.
Arguments Failed {E A} e.

#[export] Instance outcome_ret {E} : MRet (outcome E) := λ A a, Done a.
#[export] Instance outcome_bind {E} : MBind (outcome E) := λ A B f m,
  match m with
  | Done a => f a
  | Failed e => Failed e
  end.

(** The result of a collaborator: its own exception or a value. *)
Definition call {E A : Type} (x : E + A) : outcome E A :=
  match x with
  | inl e => Failed (Collaborator e)
  | inr a => Done a
  end.

(** [if x:] for an argument that is [None] or a string. *)
Definition truthy (x : option string) : bool :=
  match x with
  | Some EmptyString | None => false
  | Some _ => true
  end.

(** The double quote of the query text. *)
Definition dquote : string := String (Ascii.ascii_of_nat 34) EmptyString.

Section osm_net_download.
(** Collaborators: shapely geometries and what [projection] and [utils_geo]
    do with them, the filter table and the request of [downloader], the
    query-settings template of [settings], each of which returns or raises
    an exception of its own; the pieces of a multi-geometry and their
    bounds; the text the f-strings give for a float ([:.6f]) and for an
    int.  Logging is left out. *)
Variable geometry : Type.
Variable crs : Type.
Variable E : Type.
Variable Polygon : list (spec_float * spec_float) → geometry.
Variable project_geometry : geometry → E + geometry * crs.
Variable project_geometry_to_latlong : geometry → crs → E + geometry * crs.
Variable _consolidate_subdivide_geometry : geometry → spec_float → E + geometry.
Variable geoms : geometry → list geometry.
Variable bounds : geometry → spec_float * spec_float * spec_float * spec_float.
Variable _get_polygons_coordinates : geometry → E + list string.
Variable _get_osm_filter : string → E + string.
Variable overpass_request : string → Z → E + response.
Variable default_overpass_query_settings_format : Z → string → E + string.
Variable format_6f : spec_float → string.
Variable str_int : Z → string.

(** The loops of [_osm_net_download]: one request per query, the responses
    appended in order. *)
Fixpoint request_each (timeout : Z) (queries : list string)
    (response_jsons : list response) : outcome E (list response) :=
  match queries with
  | [] => Done response_jsons
  | query_str :: queries =>
      response_json ← call (overpass_request query_str timeout);
      request_each timeout queries (response_jsons ++ [response_json])
  end.

Definition bbox_query (overpass_settings infrastructure osm_filter : string)
    (poly : geometry) : string :=
  let '(west, south, east, north) := bounds poly in
  overpass_settings +:+ ";(" +:+ infrastructure +:+ osm_filter +:+ "("
    +:+ format_6f south +:+ "," +:+ format_6f west +:+ ","
    +:+ format_6f north +:+ "," +:+ format_6f east +:+ ");>;);out;".

Definition poly_query (overpass_settings infrastructure osm_filter : string)
    (polygon_coord_str : string) : string :=
  overpass_settings +:+ ";(" +:+ infrastructure +:+ osm_filter +:+ "(poly:"
    +:+ dquote +:+ polygon_coord_str +:+ dquote +:+ ");>;);out;".

Definition _osm_net_download (polygon : option geometry)
    (north south east west : option spec_float) (network_type : string)
    (timeout : Z) (memory : option Z) (max_query_area_size : spec_float)
    (infrastructure : string) (custom_filter custom_settings : option string)
  : outcome E (list response) :=
  let by_poly := bool_decide (is_Some polygon) in
  let by_bbox := negb (bool_decide (north = None) || bool_decide (south = None)
                       || bool_decide (east = None) || bool_decide (west = None)) in
  if negb (by_poly || by_bbox) then Failed InsufficientNetworkQueryArguments
  else
    osm_filter ← (if truthy custom_filter then Done (default EmptyString custom_filter)
                  else call (_get_osm_filter network_type));
    let maxsize := match memory with
                   | None => EmptyString
                   | Some memory => "[maxsize:" +:+ str_int memory +:+ "]"
                   end in
    overpass_settings ←
      (if truthy custom_settings then Done (default EmptyString custom_settings)
       else call (default_overpass_query_settings_format timeout maxsize));
    match north, south, east, west, polygon with
    | Some north, Some south, Some east, Some west, _ =>
        let polygon :=
          Polygon [(west, south); (east, south); (east, north); (west, north)] in
        '(geometry_proj, crs_proj) ← call (project_geometry polygon);
        gpcs ← call (_consolidate_subdivide_geometry geometry_proj
                       max_query_area_size);
        '(geometry, _) ← call (project_geometry_to_latlong gpcs crs_proj);
        request_each timeout
          (bbox_query overpass_settings infrastructure osm_filter <$> geoms geometry)
          []
    | _, _, _, _, Some polygon =>
        '(geometry_proj, crs_proj) ← call (project_geometry polygon);
        gpcs ← call (_consolidate_subdivide_geometry geometry_proj
                       max_query_area_size);
        '(geometry, _) ← call (project_geometry_to_latlong gpcs crs_proj);
        polygon_coord_strs ← call (_get_polygons_coordinates geometry);
        request_each timeout
          (poly_query overpass_settings infrastructure osm_filter
             <$> polygon_coord_strs) []
    | _, _, _, _, None => Done []
    end.
End osm_net_download.

(** A flat world for examples: a geometry is the list of the coordinate
    strings of its pieces, projecting and subdividing change nothing, and
    the filter table knows the network type [drive] only. *)
Definition flat_download (overpass_request : string → Z → string + response) :=
  _osm_net_download (list string) unit string
    (λ _, ["bbox"]) (λ g, inr (g, ())) (λ g _, inr (g, ())) (λ g _, inr g)
    (λ g, (λ c, [c]) <$> g)
    (λ _, (S754_zero false, S754_zero false, S754_zero false, S754_zero false))
    (λ g, inr g)
    (λ network_type,
       if String.eqb network_type "drive" then inr "[drive]"
       else inl "unknown network type")
    overpass_request
    (λ _ maxsize, inr ("[out:json]" +:+ maxsize))
    (λ _, "0.000000") (λ _, "0").

(** A server that answers every query but the one for the piece [b]. *)
Definition answers_but_b (query_str : string) (timeout : Z) : string + response :=
  if String.eqb query_str
       (poly_query "[out:json]" "way" "[drive]" "b")
  then inl "server error" else inr response_A.


(** ** The path reducer *)

Lemma groupby_from_head k g l :
  ∃ g' gs, groupby_from k g l = (k, g') :: gs.
Proof.
  revert k g. induction l as [|x l IH]; intros k g; simpl; [by eauto|].
  destruct (decide (x = k)); eauto.
Qed.

Lemma groupby_from_runs k g l :
  g ≠ [] → Forall (eq k) g →
  maximal_runs (groupby_from k g l) (g ++ l).
Proof.
  revert k g. induction l as [|x l IH]; intros k g Hne Hall; simpl.
  - split; [by simpl; rewrite !app_nil_r|].
    split; [by repeat constructor|done].
  - destruct (decide (x = k)) as [->|Hx].
    + replace (g ++ k :: l) with ((g ++ [k]) ++ l) by by rewrite <- app_assoc.
      apply IH; [by destruct g | apply Forall_app; by repeat constructor].
    + destruct (IH x [x]) as (Hcat & Hgs & Hadj); [done|by repeat constructor|].
      split; [|split].
      * simpl. f_equal. exact Hcat.
      * by constructor.
      * destruct (groupby_from_head x [x] l) as (g' & gs & Hhd).
        rewrite Hhd in Hadj |- *. split; [simpl; congruence|exact Hadj].
Qed.

Lemma groupby_runs l : maximal_runs (groupby l) l.
Proof.
  destruct l as [|x l]; [by repeat split; simpl; auto|].
  apply (groupby_from_runs x [x] l); [done|by repeat constructor].
Qed.

Lemma groupby_from_same k g g' l :
  Forall (eq k) g' → groupby_from k g (g' ++ l) = groupby_from k (g ++ g') l.
Proof.
  revert g. induction g' as [|x g' IH]; intros g Hall; simpl.
  - by rewrite app_nil_r.
  - inversion Hall as [|?? <- Hall']; subst.
    rewrite decide_True by done. rewrite IH by done.
    by rewrite <- app_assoc.
Qed.

Lemma maximal_runs_unique gs l : maximal_runs gs l → gs = groupby l.
Proof.
  intros (<- & Hgs & Hadj).
  induction gs as [|[k g] gs IH]; [done|].
  inversion Hgs as [|?? [Hne Hall] Hgs']; subst; simpl in *.
  destruct g as [|x g]; [done|].
  inversion Hall as [|?? <- Hall']; subst. simpl.
  rewrite groupby_from_same by done. simpl.
  destruct gs as [|[k2 g2] gs]; [done|].
  simpl in Hadj. destruct Hadj as [Hk Hadj].
  specialize (IH Hgs' Hadj).
  inversion Hgs' as [|?? [Hne2 Hall2] _]; subst; simpl in *.
  destruct g2 as [|y g2]; [done|].
  inversion Hall2 as [|?? <- _]; subst. simpl in *.
  rewrite decide_False by congruence. by rewrite <- IH.
Qed.

Lemma maximal_runs_sublist gs l : maximal_runs gs l → sublist gs.*1 l.
Proof.
  intros (<- & Hgs & _).
  induction gs as [|[k g] gs IH]; [constructor|].
  apply Forall_cons in Hgs as [[Hne Hall] Hgs].
  rewrite !fmap_cons. cbn [fst snd concat] in *.
  destruct g as [|x g]; [done|].
  apply Forall_cons in Hall as [<- _]. simpl.
  apply sublist_skip, sublist_inserts_l. by apply IH.
Qed.

(** C6.  The path reducer [reduce_nodes] keeps one representative per
    maximal run of equal adjacent references: [groupby] cuts the list into
    its maximal runs, it is the only such cut, and the reduced list is the
    list of the runs' keys; so it is the input with elements removed and
    none reordered, and has no two equal neighbours.  On the two inputs of
    the specification it gives [1,2,3] and [1,2,1,2]. *)
Theorem reduce_nodes_maximal_runs (l : list Z) :
  reduce_nodes l = (groupby l).*1
  ∧ maximal_runs (groupby l) l
  ∧ (∀ gs, maximal_runs gs l → gs.*1 = reduce_nodes l)
  ∧ sublist (reduce_nodes l) l
  ∧ no_adjacent_dups (reduce_nodes l)
  ∧ reduce_nodes [1; 1; 2; 2; 2; 3] = [1; 2; 3]
  ∧ reduce_nodes [1; 2; 1; 1; 2] = [1; 2; 1; 2].
Proof.
  split; [done|]. split; [apply groupby_runs|].
  split; [by intros gs ->%maximal_runs_unique|].
  split; [apply maximal_runs_sublist, groupby_runs|].
  split; [apply groupby_runs|]. done.
Qed.

(** ** The element classifier *)

Lemma copy_useful_tags_lookup useful tags (d : pydict) k :
  copy_useful_tags useful tags d !! k =
    if decide (k ∈ useful)
    then match tags !! k with Some v => Some (VStr v) | None => d !! k end
    else d !! k.
Proof.
  unfold copy_useful_tags. revert d.
  induction useful as [|u useful IH]; intros d; simpl.
  - done.
  - rewrite IH. destruct (decide (k = u)) as [->|Hne].
    + rewrite (decide_True (P := u ∈ u :: useful)) by apply list_elem_of_here.
      destruct (tags !! u) as [v|] eqn:Hu.
      * rewrite lookup_insert_eq. by destruct (decide (u ∈ useful)).
      * by destruct (decide (u ∈ useful)).
    + assert (Hd : (match tags !! u with
                    | Some v => <[u := VStr v]> d
                    | None => d
                    end) !! k = d !! k).
      { destruct (tags !! u); [by rewrite lookup_insert_ne|done]. }
      rewrite Hd. destruct (decide (k ∈ useful)) as [Hin|Hnin].
      * rewrite decide_True by by apply list_elem_of_further. done.
      * rewrite decide_False; [done|]. by intros [?|?]%elem_of_cons.
Qed.

(** C1 (as amended).  On the path [_convert_path] builds for a way element,
    the entry 'oneway' (and likewise 'junction') is the element's raw tag
    value exactly when the key is on the allow-list [useful_tags_path];
    when it is not, the path has no such entry. *)
Theorem convert_path_direction_tags s (element : pydict) id l ot k :
  element !! "id" = Some id →
  element !! "nodes" = Some (VNodes l) →
  element_tags element = Ok ot →
  k = "oneway" ∨ k = "junction" →
  ∃ path,
    _convert_path s element = Ok path
    ∧ path !! k = if decide (k ∈ useful_tags_path s)
                  then VStr <$> default ∅ ot !! k
                  else None.
Proof.
  intros Hid Hnodes Htags Hk. unfold _convert_path, getitem.
  rewrite Hid, Hnodes. simpl. rewrite Htags. simpl.
  assert (Hbase : (<["nodes" := VNodes (reduce_nodes l)]>
                     (<["osmid" := id]> (∅ : pydict))) !! k = None).
  { destruct Hk as [-> | ->]; by simplify_map_eq. }
  destruct ot as [tags|]; eexists; (split; [reflexivity|]); simpl.
  - rewrite copy_useful_tags_lookup, Hbase.
    destruct (decide (k ∈ useful_tags_path s)); [|done].
    by destruct (tags !! k).
  - rewrite Hbase, lookup_empty. by destruct (decide _).
Qed.

Lemma convert_path_direction_tags_witness :
  ∃ path,
    _convert_path settings_plain way_7 = Ok path
    ∧ path !! "oneway" =
        if decide ("oneway" ∈ useful_tags_path settings_plain)
        then VStr <$> default ∅ (Some tags_7) !! "oneway"
        else None.
Proof.
  apply (convert_path_direction_tags settings_plain way_7 (VInt 7) [1; 2]);
    [reflexivity | reflexivity | reflexivity | left; reflexivity].
Defined.

(** C1 as stated fails: with an allow-list that does not name 'oneway', the
    way [way_7], tagged [oneway=yes], becomes a path without 'oneway'. *)
Lemma convert_path_drops_oneway :
  way_tags way_7 !! "oneway" = Some "yes"
  ∧ _convert_path settings_plain way_7 =
      Ok (<["highway" := VStr "residential"]>
            (<["nodes" := VNodes [1; 2]]> (<["osmid" := VInt 7]> ∅)))
  ∧ ¬ (∀ s element path v,
          _convert_path s element = Ok path →
          way_tags element !! "oneway" = Some v →
          path !! "oneway" = Some (VStr v)).
Proof.
  split; [reflexivity|]. split; [reflexivity|].
  intros H.
  specialize (H settings_plain way_7 _ "yes" eq_refl eq_refl).
  vm_compute in H. discriminate H.
Qed.

(** ** Edge runs *)

Lemma add_edges_from_edges G es attr :
  ∃ new,
    edges (add_edges_from G es attr) = edges G ++ new
    ∧ edge_view <$> new = run es attr.
Proof.
  unfold add_edges_from, run. revert G.
  induction es as [|[u v] es IH]; intros G; simpl.
  - exists []. by rewrite app_nil_r.
  - destruct (IH (add_edge G u v attr)) as (new & -> & Hnew). simpl.
    eexists (_ :: new). rewrite <- app_assoc. split; [reflexivity|].
    rewrite !fmap_cons. by f_equal.
Qed.

Lemma add_edges_from_view G es attr :
  edge_view <$> edges (add_edges_from G es attr) =
    (edge_view <$> edges G) ++ run es attr.
Proof.
  destruct (add_edges_from_edges G es attr) as (new & -> & <-).
  by rewrite fmap_app.
Qed.

Lemma run_attr es attr new :
  edge_view <$> new = run es attr → Forall (λ e, e_attr e = attr) new.
Proof.
  unfold run. revert es. induction new as [|e new IH]; intros es H; [constructor|].
  destruct es as [|uv es]; [done|]. simpl in H.
  injection H as Hu Hv Ha Hrest. constructor; [done|]. by eapply IH.
Qed.

(** What [_add_path] does to a path with a node list: the edges it adds,
    and the dict they all carry. *)
Lemma _add_path_runs s G (data : pydict) ns one_way :
  data !! "nodes" = Some (VNodes ns) →
  ∃ G',
    let attr := if negb (all_oneway s)
                then <["oneway" := VBool one_way]> (delete "nodes" data)
                else delete "nodes" data in
    _add_path s G data one_way = Ok (G', attr)
    ∧ edge_view <$> edges G' =
        (edge_view <$> edges G) ++ run (path_edges ns) attr
        ++ (if one_way then []
            else run (opposite_direction (path_edges ns)) attr).
Proof.
  intros Hnodes. unfold _add_path, getitem. rewrite Hnodes. simpl.
  eexists. split; [reflexivity|].
  destruct one_way; simpl.
  - by rewrite add_edges_from_view, app_nil_r.
  - by rewrite !add_edges_from_view, <- app_assoc.
Qed.

Lemma existsb_eq_str ow (l : list string) :
  existsb (eq_str (VStr ow)) l = bool_decide (ow ∈ l).
Proof.
  induction l as [|x l IH]; simpl.
  - done.
  - rewrite IH. destruct (decide (ow = x)) as [->|Hne].
    + rewrite (bool_decide_eq_true_2 (x = x)) by done. simpl.
      symmetry. apply bool_decide_eq_true_2, list_elem_of_here.
    + rewrite (bool_decide_eq_false_2 (ow = x)) by done. simpl.
      apply bool_decide_ext. rewrite elem_of_cons.
      split; [by right | by intros [?|?]].
Qed.

Lemma tagged_oneway_recognized (data : pydict) ow :
  data !! "oneway" = Some (VStr ow) →
  tagged_oneway data = bool_decide (ow ∈ osm_oneway_values).
Proof.
  intros H. unfold tagged_oneway. rewrite H. apply existsb_eq_str.
Qed.

(** C2.  With [all_oneway] off and [bidirectional] false, a path whose raw
    'oneway' value is "-1" or "T" adds exactly one run of edges, over the
    reversed node list, every edge carrying [oneway = True]; for the nodes
    [1,2,3] these are the edges (3,2) and (2,1). *)
Theorem reverse_oneway_single_run s G (data : pydict) ow ns :
  all_oneway s = false →
  ow = "-1" ∨ ow = "T" →
  data !! "oneway" = Some (VStr ow) →
  data !! "nodes" = Some (VNodes ns) →
  ∃ G' attr,
    _add_paths_body s false G data = Ok (G', attr)
    ∧ edge_view <$> edges G' =
        (edge_view <$> edges G) ++ run (path_edges (reverse ns)) attr
    ∧ attr !! "oneway" = Some (VBool true)
    ∧ path_edges (reverse [1; 2; 3]) = [(3, 2); (2, 1)].
Proof.
  intros Hall How Hraw Hnodes. unfold _add_paths_body. rewrite Hall.
  rewrite (tagged_oneway_recognized data ow Hraw).
  assert (Hrec : bool_decide (ow ∈ osm_oneway_values) = true).
  { destruct How as [-> | ->]; reflexivity. }
  assert (Hrev : tagged_reverse data = true).
  { unfold tagged_reverse. rewrite Hraw. destruct How as [-> | ->]; reflexivity. }
  rewrite Hrec, Hrev. simpl.
  unfold reverse_nodes, getitem. rewrite Hnodes. simpl.
  destruct (_add_path_runs s G (<["nodes" := VNodes (reverse ns)]> data)
              (reverse ns) true) as (G' & Hrun & Hedges).
  { apply lookup_insert_eq. }
  rewrite Hall in Hrun, Hedges. simpl in Hrun, Hedges.
  rewrite app_nil_r in Hedges.
  exists G'. eexists. split; [exact Hrun|]. split; [exact Hedges|].
  split; [apply lookup_insert_eq | reflexivity].
Qed.

Lemma reverse_oneway_single_run_witness :
  ∃ G' attr,
    _add_paths_body settings_osm false graph_nil (path_123_oneway "-1") =
      Ok (G', attr)
    ∧ edge_view <$> edges G' = [(3, 2, attr); (2, 1, attr)]
    ∧ attr !! "oneway" = Some (VBool true)
    ∧ path_edges (reverse [1; 2; 3]) = [(3, 2); (2, 1)].
Proof.
  apply (reverse_oneway_single_run settings_osm graph_nil
           (path_123_oneway "-1") "-1" [1; 2; 3]);
    [reflexivity | left; reflexivity | reflexivity | reflexivity].
Defined.

(** The same example in full, with the parallel-edge keys and the nodes the
    edges bring along; and a second way over the same pair of nodes gets the
    next key. *)
Example reverse_oneway_example :
  _add_paths_body settings_osm false graph_nil (path_123_oneway "-1") =
    let attr : pydict := <["oneway" := VBool true]> (<["osmid" := VInt 7]> ∅) in
    Ok ({| graph := ∅;
           _node := <[1 := ∅]> (<[2 := ∅]> (<[3 := ∅]> ∅));
           edges := [{| e_u := 3; e_v := 2; e_key := 0; e_attr := attr |};
                     {| e_u := 2; e_v := 1; e_key := 0; e_attr := attr |}] |},
        attr).
Proof. reflexivity. Qed.

Example parallel_edge_keys :
  e_key <$> edges (add_edges_from (add_edges_from graph_nil [(1, 2)] ∅)
                     [(1, 2); (2, 1); (1, 2)] ∅) =
    [0; 1; 0; 2]%nat.
Proof. reflexivity. Qed.

(** C3 (as amended).  With [all_oneway] off, a path with no recognized
    'oneway' value and no roundabout junction, or any path when
    [bidirectional] is true, adds exactly two runs: the edges of consecutive
    nodes in stored order, then the swap of each of these edges, all
    carrying [oneway = False]; for the nodes [1,2,3] these are (1,2), (2,3),
    (2,1), (3,2). *)
Theorem bidirectional_two_runs s bidirectional G (data : pydict) ns :
  all_oneway s = false →
  (tagged_oneway data = false ∧ tagged_roundabout data = false)
    ∨ bidirectional = true →
  data !! "nodes" = Some (VNodes ns) →
  ∃ G' attr,
    _add_paths_body s bidirectional G data = Ok (G', attr)
    ∧ edge_view <$> edges G' =
        (edge_view <$> edges G) ++ run (path_edges ns) attr
        ++ run (opposite_direction (path_edges ns)) attr
    ∧ attr !! "oneway" = Some (VBool false)
    ∧ path_edges [1; 2; 3] = [(1, 2); (2, 3)]
    ∧ opposite_direction (path_edges [1; 2; 3]) = [(2, 1); (3, 2)].
Proof.
  intros Hall Hcase Hnodes. unfold _add_paths_body. rewrite Hall.
  assert (Hbr : tagged_oneway data && negb bidirectional = false
                ∧ tagged_roundabout data && negb bidirectional = false).
  { destruct Hcase as [[-> ->] | ->]; [done|]. by rewrite !andb_false_r. }
  destruct Hbr as [-> ->].
  destruct (_add_path_runs s G data ns false Hnodes) as (G' & Hrun & Hedges).
  rewrite Hall in Hrun, Hedges. simpl in Hrun, Hedges.
  exists G'. eexists. split; [exact Hrun|]. split; [exact Hedges|].
  split; [apply lookup_insert_eq|]. split; reflexivity.
Qed.

Lemma bidirectional_two_runs_witness :
  ∃ G' attr,
    _add_paths_body settings_osm false graph_nil path_123 = Ok (G', attr)
    ∧ edge_view <$> edges G' =
        [(1, 2, attr); (2, 3, attr); (2, 1, attr); (3, 2, attr)]
    ∧ attr !! "oneway" = Some (VBool false)
    ∧ path_edges [1; 2; 3] = [(1, 2); (2, 3)]
    ∧ opposite_direction (path_edges [1; 2; 3]) = [(2, 1); (3, 2)].
Proof.
  apply (bidirectional_two_runs settings_osm false graph_nil path_123 [1; 2; 3]);
    [reflexivity | left; split; reflexivity | reflexivity].
Defined.

(** C3 as stated fails when [all_oneway] is on: the untagged path over
    [1,2,3] then adds the forward run only, without an 'oneway' entry. *)
Lemma all_oneway_overrides_two_runs :
  tagged_oneway path_123 = false
  ∧ tagged_roundabout path_123 = false
  ∧ (∃ G', _add_paths_body settings_all_oneway false graph_nil path_123 =
             Ok (G', delete "nodes" path_123)
           ∧ edge_view <$> edges G' =
               [(1, 2, delete "nodes" path_123); (2, 3, delete "nodes" path_123)])
  ∧ ¬ (∀ s bidirectional G (data : pydict) ns,
          (tagged_oneway data = false ∧ tagged_roundabout data = false)
            ∨ bidirectional = true →
          data !! "nodes" = Some (VNodes ns) →
          ∃ G' attr,
            _add_paths_body s bidirectional G data = Ok (G', attr)
            ∧ edge_view <$> edges G' =
                (edge_view <$> edges G) ++ run (path_edges ns) attr
                ++ run (opposite_direction (path_edges ns)) attr
            ∧ attr !! "oneway" = Some (VBool false)).
Proof.
  split; [reflexivity|]. split; [reflexivity|].
  split; [eexists; split; reflexivity|].
  intros H.
  destruct (H settings_all_oneway false graph_nil path_123 [1; 2; 3])
    as (G' & attr & Hbody & _ & Hattr); [by left | reflexivity |].
  assert (Hattr' : attr = delete "nodes" path_123).
  { change (_add_paths_body settings_all_oneway false graph_nil path_123)
      with (_add_path settings_all_oneway graph_nil path_123 true) in Hbody.
    destruct (_add_path_runs settings_all_oneway graph_nil path_123 [1; 2; 3] true)
      as (G'' & Hrun & _); [reflexivity|].
    simpl in Hrun. congruence. }
  subst attr. discriminate Hattr.
Qed.

(** C4 (as amended).  With [all_oneway] on, every path, whatever its tags,
    adds exactly one run in stored node order, and [_add_path] writes no
    'oneway' entry: the edges carry the path's dict without 'nodes', so a raw
    'oneway' value the path had stays on them as it was. *)
Theorem all_oneway_single_forward_run s bidirectional G (data : pydict) ns :
  all_oneway s = true →
  data !! "nodes" = Some (VNodes ns) →
  ∃ G',
    _add_paths_body s bidirectional G data = Ok (G', delete "nodes" data)
    ∧ edge_view <$> edges G' =
        (edge_view <$> edges G) ++ run (path_edges ns) (delete "nodes" data)
    ∧ delete "nodes" data !! "oneway" = data !! "oneway".
Proof.
  intros Hall Hnodes. unfold _add_paths_body. rewrite Hall.
  destruct (_add_path_runs s G data ns true Hnodes) as (G' & Hrun & Hedges).
  rewrite Hall in Hrun, Hedges. simpl in Hrun, Hedges.
  rewrite app_nil_r in Hedges.
  exists G'. split; [exact Hrun|]. split; [exact Hedges|].
  by rewrite lookup_delete_ne.
Qed.

Lemma all_oneway_single_forward_run_witness :
  ∃ G',
    _add_paths_body settings_all_oneway false graph_nil (path_123_oneway "-1") =
      Ok (G', delete "nodes" (path_123_oneway "-1"))
    ∧ edge_view <$> edges G' =
        [(1, 2, delete "nodes" (path_123_oneway "-1"));
         (2, 3, delete "nodes" (path_123_oneway "-1"))]
    ∧ delete "nodes" (path_123_oneway "-1") !! "oneway" =
        path_123_oneway "-1" !! "oneway".
Proof.
  apply (all_oneway_single_forward_run settings_all_oneway false graph_nil
           (path_123_oneway "-1") [1; 2; 3]); reflexivity.
Defined.

(** C4 as stated fails for a path that has a raw 'oneway' value: with
    [all_oneway] on, its edges carry that value under 'oneway'. *)
Lemma all_oneway_keeps_raw_oneway :
  (∃ G' attr,
      _add_paths_body settings_all_oneway false graph_nil (path_123_oneway "yes") =
        Ok (G', attr)
      ∧ edge_view <$> edges G' = [(1, 2, attr); (2, 3, attr)]
      ∧ attr !! "oneway" = Some (VStr "yes"))
  ∧ ¬ (∀ s bidirectional G (data : pydict) ns,
          all_oneway s = true →
          data !! "nodes" = Some (VNodes ns) →
          ∃ G' attr,
            _add_paths_body s bidirectional G data = Ok (G', attr)
            ∧ edge_view <$> edges G' =
                (edge_view <$> edges G) ++ run (path_edges ns) attr
            ∧ attr !! "oneway" = None).
Proof.
  split; [do 2 eexists; split; [reflexivity|split; reflexivity]|].
  intros H.
  destruct (H settings_all_oneway false graph_nil (path_123_oneway "yes") [1; 2; 3])
    as (G' & attr & Hbody & _ & Hattr); [reflexivity | reflexivity |].
  change (_add_paths_body settings_all_oneway false graph_nil
            (path_123_oneway "yes"))
    with (_add_path settings_all_oneway graph_nil (path_123_oneway "yes") true)
    in Hbody.
  destruct (_add_path_runs settings_all_oneway graph_nil (path_123_oneway "yes")
              [1; 2; 3] true) as (G'' & Hrun & _); [reflexivity|].
  simpl in Hrun.
  assert (attr = delete "nodes" (path_123_oneway "yes")) as -> by congruence.
  discriminate Hattr.
Qed.

Lemma _add_path_ignores_oneway s G (data : pydict) one_way :
  all_oneway s = false →
  _add_path s G (delete "oneway" data) one_way = _add_path s G data one_way.
Proof.
  intros Hall. unfold _add_path, getitem. rewrite Hall. simpl.
  rewrite lookup_delete_ne by done.
  rewrite (delete_delete data "nodes" "oneway"), insert_delete_eq.
  done.
Qed.

(** C5.  With [all_oneway] off and no roundabout junction, a path whose raw
    'oneway' value is a string outside [osm_oneway_values] is handled exactly
    as the same path without an 'oneway' entry: the same graph and the same
    edge dict result, namely two runs carrying [oneway = False]. *)
Theorem unrecognized_oneway_as_untagged s bidirectional G (data : pydict) ow ns :
  all_oneway s = false →
  data !! "oneway" = Some (VStr ow) →
  ow ∉ osm_oneway_values →
  tagged_roundabout data = false →
  data !! "nodes" = Some (VNodes ns) →
  _add_paths_body s bidirectional G data =
    _add_paths_body s bidirectional G (delete "oneway" data)
  ∧ ∃ G' attr,
      _add_paths_body s bidirectional G data = Ok (G', attr)
      ∧ edge_view <$> edges G' =
          (edge_view <$> edges G) ++ run (path_edges ns) attr
          ++ run (opposite_direction (path_edges ns)) attr
      ∧ attr !! "oneway" = Some (VBool false).
Proof.
  intros Hall Hraw Hout Hjunction Hnodes.
  assert (Htag : tagged_oneway data = false).
  { rewrite (tagged_oneway_recognized data ow Hraw).
    by apply bool_decide_eq_false_2. }
  assert (Htag' : tagged_oneway (delete "oneway" data) = false).
  { unfold tagged_oneway. by rewrite lookup_delete_eq. }
  assert (Hjunction' : tagged_roundabout (delete "oneway" data) = false).
  { unfold tagged_roundabout in *. by rewrite lookup_delete_ne. }
  split.
  - unfold _add_paths_body.
    rewrite Hall, Htag, Htag', Hjunction, Hjunction'. simpl.
    by rewrite _add_path_ignores_oneway.
  - unfold _add_paths_body. rewrite Hall, Htag, Hjunction. simpl.
    destruct (_add_path_runs s G data ns false Hnodes) as (G' & Hrun & Hedges).
    rewrite Hall in Hrun, Hedges. simpl in Hrun, Hedges.
    exists G'. eexists. split; [exact Hrun|]. split; [exact Hedges|].
    apply lookup_insert_eq.
Qed.

Lemma unrecognized_oneway_as_untagged_witness :
  _add_paths_body settings_osm false graph_nil (path_123_oneway "reversible") =
    _add_paths_body settings_osm false graph_nil
      (delete "oneway" (path_123_oneway "reversible"))
  ∧ ∃ G' attr,
      _add_paths_body settings_osm false graph_nil (path_123_oneway "reversible") =
        Ok (G', attr)
      ∧ edge_view <$> edges G' =
          [(1, 2, attr); (2, 3, attr); (2, 1, attr); (3, 2, attr)]
      ∧ attr !! "oneway" = Some (VBool false).
Proof.
  apply (unrecognized_oneway_as_untagged settings_osm false graph_nil
           (path_123_oneway "reversible") "reversible" [1; 2; 3]);
    [reflexivity | reflexivity | | reflexivity | reflexivity].
  vm_compute. intros H. repeat (inversion H as [|??? H']; clear H; rename H' into H).
Defined.

(** C10 (as amended).  For a path added by [_add_path], one-way or not, the
    dict carried by every new edge is the path's dict after 'nodes' was
    deleted from it: it has no 'nodes' entry, it has the path's 'osmid' and
    every other entry of the path unchanged, except 'oneway', which is the
    Boolean [one_way] when [all_oneway] is off (and the path's own entry
    when it is on). *)
Theorem edge_attributes_of_path s G (data : pydict) ns one_way :
  data !! "nodes" = Some (VNodes ns) →
  ∃ G' attr new,
    _add_path s G data one_way = Ok (G', attr)
    ∧ edges G' = edges G ++ new
    ∧ Forall (λ e, e_attr e = attr) new
    ∧ attr !! "nodes" = None
    ∧ attr !! "osmid" = data !! "osmid"
    ∧ (∀ k, k ≠ "nodes" → k ≠ "oneway" → attr !! k = data !! k)
    ∧ attr !! "oneway" =
        if all_oneway s then data !! "oneway" else Some (VBool one_way).
Proof.
  intros Hnodes. unfold _add_path, getitem. rewrite Hnodes. simpl.
  set (attr := if negb (all_oneway s)
               then <["oneway" := VBool one_way]> (delete "nodes" data)
               else delete "nodes" data).
  assert (Hother : ∀ k, k ≠ "nodes" → k ≠ "oneway" → attr !! k = data !! k).
  { intros k Hk1 Hk2. unfold attr. destruct (all_oneway s); simpl.
    - by rewrite lookup_delete_ne.
    - by rewrite lookup_insert_ne, lookup_delete_ne. }
  destruct (add_edges_from_edges G (path_edges ns) attr) as (new1 & Hnew1 & Hv1).
  destruct (add_edges_from_edges (add_edges_from G (path_edges ns) attr)
              (opposite_direction (path_edges ns)) attr) as (new2 & Hnew2 & Hv2).
  exists (if negb one_way
          then add_edges_from (add_edges_from G (path_edges ns) attr)
                 (opposite_direction (path_edges ns)) attr
          else add_edges_from G (path_edges ns) attr),
    attr, (if negb one_way then new1 ++ new2 else new1).
  split; [reflexivity|]. split; [|split].
  - destruct one_way; simpl; [done|]. by rewrite Hnew2, Hnew1, <- app_assoc.
  - apply run_attr in Hv1, Hv2. destruct one_way; simpl; [done|].
    by apply Forall_app.
  - split; [|split; [by apply Hother|split; [exact Hother|]]].
    + unfold attr. destruct (all_oneway s); simpl.
      * apply lookup_delete_eq.
      * rewrite lookup_insert_ne by done. apply lookup_delete_eq.
    + unfold attr. destruct (all_oneway s); simpl.
      * by rewrite lookup_delete_ne.
      * apply lookup_insert_eq.
Qed.

Lemma edge_attributes_of_path_witness :
  ∃ G' attr new,
    _add_path settings_osm graph_nil (path_123_oneway "yes") true = Ok (G', attr)
    ∧ edges G' = edges graph_nil ++ new
    ∧ Forall (λ e, e_attr e = attr) new
    ∧ attr !! "nodes" = None
    ∧ attr !! "osmid" = path_123_oneway "yes" !! "osmid"
    ∧ (∀ k, k ≠ "nodes" → k ≠ "oneway" → attr !! k = path_123_oneway "yes" !! k)
    ∧ attr !! "oneway" =
        if all_oneway settings_osm then path_123_oneway "yes" !! "oneway"
        else Some (VBool true).
Proof.
  apply (edge_attributes_of_path settings_osm graph_nil (path_123_oneway "yes")
           [1; 2; 3] true).
  reflexivity.
Defined.

(** C10 as stated fails for the 'oneway' entry: with [all_oneway] off, a path
    with the allow-listed tag [oneway=yes] gives edges whose 'oneway' is
    [True], not the tag's value. *)
Lemma edge_oneway_replaces_tag :
  (∃ G' attr,
      _add_path settings_osm graph_nil (path_123_oneway "yes") true = Ok (G', attr)
      ∧ edge_view <$> edges G' = [(1, 2, attr); (2, 3, attr)]
      ∧ path_123_oneway "yes" !! "oneway" = Some (VStr "yes")
      ∧ attr !! "oneway" = Some (VBool true))
  ∧ ¬ (∀ s G (data : pydict) ns one_way G' attr,
          data !! "nodes" = Some (VNodes ns) →
          _add_path s G data one_way = Ok (G', attr) →
          ∀ e, e ∈ drop (length (edges G)) (edges G') →
               e_attr e !! "nodes" = None
               ∧ ∀ k v, k ≠ "nodes" → data !! k = Some v → e_attr e !! k = Some v).
Proof.
  split.
  { do 2 eexists. split; [reflexivity|]. repeat split. }
  intros H.
  destruct (H settings_osm graph_nil (path_123_oneway "yes") [1; 2; 3] true
              _ _ eq_refl eq_refl
              {| e_u := 1; e_v := 2; e_key := 0%nat;
                 e_attr := <["oneway" := VBool true]>
                             (delete "nodes" (path_123_oneway "yes")) |})
    as [_ Hkeep].
  { apply list_elem_of_here. }
  specialize (Hkeep "oneway" (VStr "yes")). 
  assert (Hbad : Some (VBool true) = Some (VStr "yes")).
  { apply Hkeep; [done|reflexivity]. }
  discriminate Hbad.
Qed.

(** ** Loops, exceptions and ordered dicts *)

Lemma bind_Ok {A B} (m : result A) (f : A → result B) b :
  m ≫= f = Ok b ↔ ∃ a, m = Ok a ∧ f a = Ok b.
Proof.
  destruct m as [a|e]; simpl; split.
  - eauto.
  - by intros (a' & [= <-] & H).
  - done.
  - by intros (a' & ? & _).
Qed.

Lemma bind_Raise {A B} (m : result A) (f : A → result B) e :
  m ≫= f = Raise e ↔ m = Raise e ∨ ∃ a, m = Ok a ∧ f a = Raise e.
Proof.
  destruct m as [a|e']; simpl; split.
  - eauto.
  - by intros [?|(a' & [= <-] & H)].
  - intros [= ->]. by left.
  - by intros [[= ->]|(a' & ? & _)].
Qed.

Lemma for_each_app {A S} (body : S → A → result S) l1 l2 acc :
  for_each body (l1 ++ l2) acc =
    for_each body l1 acc ≫= for_each body l2.
Proof.
  revert acc. induction l1 as [|x l1 IH]; intros acc; simpl; [done|].
  destruct (body acc x) as [acc'|e]; simpl; [apply IH|done].
Qed.

Lemma for_each_invariant {A S} (P : S → Prop) (body : S → A → result S) l acc r :
  (∀ acc x acc', x ∈ l → P acc → body acc x = Ok acc' → P acc') →
  P acc → for_each body l acc = Ok r → P r.
Proof.
  revert acc. induction l as [|x l IH]; intros acc Hstep Hacc Hrun; simpl in *.
  - by injection Hrun as <-.
  - apply bind_Ok in Hrun as (acc' & Hx & Hrun).
    eapply IH; [|by eapply Hstep; [apply list_elem_of_here|..]|done].
    intros ???? ; apply Hstep. by apply list_elem_of_further.
Qed.

Lemma for_each_succeeds {A S} (P : S → Prop) (body : S → A → result S) l acc :
  (∀ acc x, x ∈ l → P acc → ∃ acc', body acc x = Ok acc' ∧ P acc') →
  P acc → ∃ r, for_each body l acc = Ok r ∧ P r.
Proof.
  revert acc. induction l as [|x l IH]; intros acc Hstep Hacc; simpl.
  - eauto.
  - destruct (Hstep acc x) as (acc' & -> & Hacc'); [apply list_elem_of_here|done|].
    simpl. apply IH; [|done].
    intros ????; apply Hstep; [by apply list_elem_of_further|done].
Qed.

Lemma for_each_never_raises {A S} (body : S → A → result S) l acc e :
  (∀ acc x, body acc x ≠ Raise e) → for_each body l acc ≠ Raise e.
Proof.
  intros Hbody. revert acc. induction l as [|x l IH]; intros acc; simpl; [done|].
  intros [H|(acc' & _ & H)]%bind_Raise; [by eapply Hbody|by eapply IH].
Qed.

Lemma od_get_set k k' v d :
  od_get k (od_set k' v d) = if decide (k = k') then Some v else od_get k d.
Proof.
  induction d as [|[k1 v1] d IH]; simpl.
  - by destruct (decide (k = k')).
  - destruct (decide (k' = k1)) as [->|Hk1]; simpl.
    + by destruct (decide (k = k1)).
    + destruct (decide (k = k1)) as [->|?].
      * by rewrite decide_False by done.
      * done.
Qed.

Lemma od_set_keys k v d :
  (od_set k v d).*1 = if decide (k ∈ d.*1) then d.*1 else d.*1 ++ [k].
Proof.
  induction d as [|[k1 v1] d IH]; [done|]. cbn [od_set].
  destruct (decide (k = k1)) as [->|Hne]; rewrite !fmap_cons; cbn [fst].
  - by rewrite decide_True by apply list_elem_of_here.
  - rewrite IH. destruct (decide (k ∈ d.*1)) as [Hin|Hnin].
    + by rewrite decide_True by by apply list_elem_of_further.
    + rewrite decide_False; [done|]. by intros [?|?]%elem_of_cons.
Qed.

Lemma od_set_NoDup k v d : NoDup d.*1 → NoDup (od_set k v d).*1.
Proof.
  intros Hd. rewrite od_set_keys. destruct (decide (k ∈ d.*1)); [done|].
  apply NoDup_app. split; [done|]. split; [|apply NoDup_singleton].
  by intros x Hx ->%list_elem_of_singleton.
Qed.

Lemma od_get_None k (d : odict) : k ∉ d.*1 → od_get k d = None.
Proof.
  induction d as [|[k1 v1] d IH]; [done|]. rewrite fmap_cons. cbn [fst od_get].
  intros [Hne Hnin]%not_elem_of_cons. by rewrite decide_False, IH.
Qed.

Lemma od_update_NoDup dst src : NoDup dst.*1 → NoDup (od_update dst src).*1.
Proof.
  unfold od_update. revert dst.
  induction src as [|[k v] src IH]; intros dst Hdst; [done|].
  cbn [foldl]. by apply IH, od_set_NoDup.
Qed.

(** [od_update] is last-write-wins: the keys of [src] take [src]'s values,
    every other key keeps the value it had in [dst]. *)
Lemma od_get_update k dst src :
  NoDup src.*1 →
  od_get k (od_update dst src) =
    match od_get k src with
    | Some v => Some v
    | None => od_get k dst
    end.
Proof.
  unfold od_update. revert dst.
  induction src as [|[k1 v1] src IH]; intros dst Hsrc; [done|].
  rewrite fmap_cons in Hsrc. apply NoDup_cons in Hsrc as [Hk1 Hsrc].
  cbn [foldl od_get fst snd]. rewrite IH by done.
  rewrite od_get_set. destruct (decide (k = k1)) as [->|?]; [|done].
  by rewrite od_get_None.
Qed.

(** ** Graph assembly *)

(** Nothing in the classifier or in the directionality code raises
    [EmptyOverpassResponse]. *)
Ltac crunch_raise :=
  repeat (simpl; first [done | case_match]).

Lemma _convert_node_not_empty s element :
  _convert_node s element ≠ Raise EmptyOverpassResponse.
Proof. unfold _convert_node, getitem, element_tags. crunch_raise. Qed.

Lemma _convert_path_not_empty s element :
  _convert_path s element ≠ Raise EmptyOverpassResponse.
Proof. unfold _convert_path, getitem, element_tags. crunch_raise. Qed.

Lemma _parse_osm_nodes_paths_not_empty s osm_data :
  _parse_osm_nodes_paths s osm_data ≠ Raise EmptyOverpassResponse.
Proof.
  apply for_each_never_raises. intros [nodes paths] element.
  unfold _parse_osm_nodes_paths_body.
  intros [H|(ty & _ & H)]%bind_Raise; [by unfold getitem in H; case_match|].
  destruct (eq_str ty "node").
  { apply bind_Raise in H as [H|(key & _ & H)].
    - unfold element_key, getitem in H. revert H. crunch_raise.
    - apply bind_Raise in H as [H|(node & _ & H)]; [|done].
      by apply _convert_node_not_empty in H. }
  destruct (eq_str ty "way"); [|done].
  apply bind_Raise in H as [H|(key & _ & H)].
  - unfold element_key, getitem in H. revert H. crunch_raise.
  - apply bind_Raise in H as [H|(node & _ & H)]; [|done].
    by apply _convert_path_not_empty in H.
Qed.

Lemma _add_path_not_empty s G data one_way :
  _add_path s G data one_way ≠ Raise EmptyOverpassResponse.
Proof. unfold _add_path, getitem. crunch_raise. Qed.

Lemma _add_paths_body_not_empty s bidirectional G data :
  _add_paths_body s bidirectional G data ≠ Raise EmptyOverpassResponse.
Proof.
  unfold _add_paths_body.
  destruct (all_oneway s); [apply _add_path_not_empty|].
  destruct (tagged_oneway data && negb bidirectional).
  { intros [H|(data' & _ & H)]%bind_Raise; [|by apply _add_path_not_empty in H].
    destruct (tagged_reverse data); [|done].
    unfold reverse_nodes, getitem in H. revert H. crunch_raise. }
  destruct (tagged_roundabout data && negb bidirectional);
    apply _add_path_not_empty.
Qed.

Lemma _add_paths_not_empty s G paths bidirectional :
  _add_paths s G paths bidirectional ≠ Raise EmptyOverpassResponse.
Proof.
  apply for_each_never_raises. intros G' data.
  intros [H|(r & _ & H)]%bind_Raise; [|done].
  by apply _add_paths_body_not_empty in H.
Qed.

(** The dicts the classifier returns have no repeated key. *)
Lemma _parse_osm_nodes_paths_NoDup s osm_data nodes paths :
  _parse_osm_nodes_paths s osm_data = Ok (nodes, paths) →
  NoDup nodes.*1 ∧ NoDup paths.*1.
Proof.
  intros H.
  apply (for_each_invariant (λ acc : odict * odict,
                               NoDup acc.1.*1 ∧ NoDup acc.2.*1)) in H;
    [done| |by split; apply NoDup_nil].
  clear. intros [nodes paths] element acc' _ [Hn Hp] Hbody.
  unfold _parse_osm_nodes_paths_body in Hbody.
  apply bind_Ok in Hbody as (ty & _ & Hbody).
  destruct (eq_str ty "node").
  { apply bind_Ok in Hbody as (key & _ & Hbody).
    apply bind_Ok in Hbody as (node & _ & [= <-]).
    split; [by apply od_set_NoDup|done]. }
  destruct (eq_str ty "way").
  { apply bind_Ok in Hbody as (key & _ & Hbody).
    apply bind_Ok in Hbody as (path & _ & [= <-]).
    split; [done|by apply od_set_NoDup]. }
  by injection Hbody as <-.
Qed.

(** Existing nodes keep their attributes when edges are added. *)
Lemma touch_node_lookup n (nodes : gmap Z pydict) k d :
  nodes !! k = Some d → touch_node n nodes !! k = Some d.
Proof.
  intros H. unfold touch_node. destruct (nodes !! n) eqn:Hn; [done|].
  rewrite lookup_insert_ne; [done|congruence].
Qed.

Lemma add_edges_from_node G es attr k d :
  _node G !! k = Some d → _node (add_edges_from G es attr) !! k = Some d.
Proof.
  unfold add_edges_from. revert G.
  induction es as [|[u v] es IH]; intros G H; [done|].
  cbn [foldl]. apply IH. simpl. by do 2 apply touch_node_lookup.
Qed.

Lemma _add_path_node s G data one_way G' attr k d :
  _add_path s G data one_way = Ok (G', attr) →
  _node G !! k = Some d → _node G' !! k = Some d.
Proof.
  unfold _add_path. intros (path_nodes & _ & H)%bind_Ok Hk.
  destruct path_nodes; try done. injection H as <- _.
  destruct one_way; simpl; by repeat apply add_edges_from_node.
Qed.

Lemma _add_paths_body_node s bidirectional G data G' attr k d :
  _add_paths_body s bidirectional G data = Ok (G', attr) →
  _node G !! k = Some d → _node G' !! k = Some d.
Proof.
  unfold _add_paths_body.
  destruct (all_oneway s); [apply _add_path_node|].
  destruct (tagged_oneway data && negb bidirectional).
  { intros (data' & _ & H)%bind_Ok. by eapply _add_path_node. }
  destruct (tagged_roundabout data && negb bidirectional); apply _add_path_node.
Qed.

Lemma _add_paths_node s G paths bidirectional G' k d :
  _add_paths s G paths bidirectional = Ok G' →
  _node G !! k = Some d → _node G' !! k = Some d.
Proof.
  intros H Hk.
  apply (for_each_invariant (λ G, _node G !! k = Some d)) in H; [done| |done].
  intros G1 data G2 _ HG1 ([G3 attr] & Hbody & [= <-])%bind_Ok.
  by eapply _add_paths_body_node.
Qed.

(** A path built by [_convert_path] has a node list, unless a tag named
    'nodes' is allow-listed and overwrites it. *)
Lemma _convert_path_has_node_list s element path :
  "nodes" ∉ useful_tags_path s →
  _convert_path s element = Ok path → has_node_list path.
Proof.
  intros Hnot. unfold _convert_path.
  intros (id & _ & H)%bind_Ok. apply bind_Ok in H as (nodes & _ & H).
  destruct nodes as [| | | |l|]; try done.
  apply bind_Ok in H as (tags & _ & H). exists (reduce_nodes l).
  destruct tags as [tags|]; injection H as <-.
  - rewrite copy_useful_tags_lookup, decide_False by done.
    apply lookup_insert_eq.
  - apply lookup_insert_eq.
Qed.

Lemma od_set_Forall (P : pydict → Prop) k v d :
  Forall P d.*2 → P v → Forall P (od_set k v d).*2.
Proof.
  intros Hd Hv. induction d as [|[k1 v1] d IH]; [by repeat constructor|].
  rewrite fmap_cons in Hd. apply Forall_cons in Hd as [H1 Hd]. cbn [od_set].
  destruct (decide (k = k1)); rewrite fmap_cons; apply Forall_cons; auto.
Qed.

Lemma od_update_Forall (P : pydict → Prop) dst src :
  Forall P dst.*2 → Forall P src.*2 → Forall P (od_update dst src).*2.
Proof.
  unfold od_update. revert dst.
  induction src as [|[k v] src IH]; intros dst Hdst Hsrc; [done|].
  rewrite fmap_cons in Hsrc. apply Forall_cons in Hsrc as [Hv Hsrc].
  cbn [foldl]. apply IH; [|done]. by apply od_set_Forall.
Qed.

Lemma _parse_osm_nodes_paths_node_lists s osm_data nodes paths :
  "nodes" ∉ useful_tags_path s →
  _parse_osm_nodes_paths s osm_data = Ok (nodes, paths) →
  Forall has_node_list paths.*2.
Proof.
  intros Hnot H.
  apply (for_each_invariant (λ acc : odict * odict,
                               Forall has_node_list acc.2.*2)) in H;
    [done| |by constructor].
  clear nodes paths H. intros [nodes paths] element acc' _ Hp Hbody.
  unfold _parse_osm_nodes_paths_body in Hbody.
  apply bind_Ok in Hbody as (ty & _ & Hbody).
  destruct (eq_str ty "node").
  { apply bind_Ok in Hbody as (key & _ & Hbody).
    by apply bind_Ok in Hbody as (node & _ & [= <-]). }
  destruct (eq_str ty "way").
  { apply bind_Ok in Hbody as (key & _ & Hbody).
    apply bind_Ok in Hbody as (path & Hpath & [= <-]).
    apply od_set_Forall; [done|]. by eapply _convert_path_has_node_list. }
  by injection Hbody as <-.
Qed.

Lemma _add_paths_body_succeeds s bidirectional G data :
  has_node_list data → ∃ r, _add_paths_body s bidirectional G data = Ok r.
Proof.
  intros [ns Hns]. unfold _add_paths_body.
  assert (Hadd : ∀ one_way, ∃ r, _add_path s G data one_way = Ok r).
  { intros one_way.
    destruct (_add_path_runs s G data ns one_way Hns) as (G' & H & _); eauto. }
  destruct (all_oneway s); [done|].
  destruct (tagged_oneway data && negb bidirectional); [|by destruct (_ && _)].
  destruct (tagged_reverse data); [|apply Hadd].
  unfold reverse_nodes, getitem. rewrite Hns. simpl.
  destruct (_add_path_runs s G (<["nodes" := VNodes (reverse ns)]> data)
              (reverse ns) true) as (G' & H & _); [apply lookup_insert_eq|].
  eauto.
Qed.

Lemma _add_paths_succeeds s G paths bidirectional :
  Forall has_node_list paths.*2 → ∃ G', _add_paths s G paths bidirectional = Ok G'.
Proof.
  intros Hpaths. unfold _add_paths.
  destruct (for_each_succeeds (λ _, True)
              (λ G data, r ← _add_paths_body s bidirectional G data; Ok r.1)
              paths.*2 G) as (G' & H & _); [|done|by eauto].
  intros G1 data Hin _.
  rewrite Forall_forall in Hpaths.
  destruct (_add_paths_body_succeeds s bidirectional G1 data) as [r ->];
    [by apply Hpaths|]. by eexists.
Qed.

Section create_graph_facts.
Variable ts : string.
Variable __version__ : string.
Variable get_largest_component : MultiDiGraph → MultiDiGraph.
Variable add_edge_lengths : MultiDiGraph → MultiDiGraph.

Lemma merge_responses_not_empty s response_jsons :
  merge_responses s response_jsons ≠ Raise EmptyOverpassResponse.
Proof.
  apply for_each_never_raises. intros acc osm_data.
  intros [H|(temp & _ & H)]%bind_Raise; [|done].
  by apply _parse_osm_nodes_paths_not_empty in H.
Qed.

Lemma assemble_not_empty s response_jsons bidirectional :
  assemble ts __version__ s response_jsons bidirectional
    ≠ Raise EmptyOverpassResponse.
Proof.
  unfold assemble.
  intros [H|(merged & _ & H)]%bind_Raise.
  - by apply merge_responses_not_empty in H.
  - by apply _add_paths_not_empty in H.
Qed.

(** C7.  [_create_graph] raises [EmptyOverpassResponse] exactly when the
    concatenation of the responses' element lists is empty; it then
    returns no graph, whatever the other arguments are. *)
Theorem create_graph_empty_response s response_jsons retain_all bidirectional :
  (_create_graph ts __version__ get_largest_component add_edge_lengths
     s response_jsons retain_all bidirectional = Raise EmptyOverpassResponse
   ↔ all_elements response_jsons = [])
  ∧ (all_elements response_jsons = [] →
     ∀ G, _create_graph ts __version__ get_largest_component add_edge_lengths
            s response_jsons retain_all bidirectional ≠ Ok G).
Proof.
  unfold _create_graph.
  destruct (all_elements response_jsons) as [|element elements] eqn:Hel; simpl.
  - done.
  - split; [|done]. split; [|done].
    intros [H|(G & _ & H)]%bind_Raise; [|done].
    by apply assemble_not_empty in H.
Qed.
Lemma add_nodes_lookup G nodes k :
  NoDup nodes.*1 →
  (∀ k', k' ∈ nodes.*1 → _node G !! k' = None) →
  _node (add_nodes G nodes) !! k =
    match od_get k nodes with
    | Some d => Some d
    | None => _node G !! k
    end.
Proof.
  unfold add_nodes. revert G.
  induction nodes as [|[k1 d1] nodes IH]; intros G Hdup Hfresh; [done|].
  rewrite fmap_cons in Hdup, Hfresh. apply NoDup_cons in Hdup as [Hk1 Hdup].
  cbn [foldl od_get fst snd].
  assert (Hnode : _node (add_node G k1 d1) = <[k1 := d1]> (_node G)).
  { unfold add_node. simpl. by rewrite Hfresh by apply list_elem_of_here. }
  rewrite IH; [|done|].
  - rewrite Hnode. destruct (decide (k = k1)) as [->|Hne].
    + by rewrite od_get_None, lookup_insert_eq.
    + by rewrite lookup_insert_ne.
  - intros k' Hk'. rewrite Hnode, lookup_insert_ne.
    + by apply Hfresh, list_elem_of_further.
    + by intros ->.
Qed.

Lemma merge_responses_snoc s response_jsons osm_data :
  merge_responses s (response_jsons ++ [osm_data]) =
    merged ← merge_responses s response_jsons;
    temp ← _parse_osm_nodes_paths s osm_data;
    Ok (od_update merged.1 temp.1, od_update merged.2 temp.2).
Proof.
  unfold merge_responses. rewrite for_each_app.
  destruct (for_each _ response_jsons _) as [merged|e]; simpl; [|done].
  by destruct (_parse_osm_nodes_paths s osm_data).
Qed.

Lemma merge_responses_NoDup s response_jsons nodes paths :
  merge_responses s response_jsons = Ok (nodes, paths) →
  NoDup nodes.*1 ∧ NoDup paths.*1.
Proof.
  intros H.
  apply (for_each_invariant (λ acc : odict * odict,
                               NoDup acc.1.*1 ∧ NoDup acc.2.*1)) in H;
    [done| |by split; apply NoDup_nil].
  clear. intros acc osm_data acc' _ [Hn Hp] (temp & _ & [= <-])%bind_Ok.
  split; by apply od_update_NoDup.
Qed.

Lemma merge_responses_node_lists s response_jsons nodes paths :
  "nodes" ∉ useful_tags_path s →
  merge_responses s response_jsons = Ok (nodes, paths) →
  Forall has_node_list paths.*2.
Proof.
  intros Hnot H.
  apply (for_each_invariant (λ acc : odict * odict,
                               Forall has_node_list acc.2.*2)) in H;
    [done| |by constructor].
  clear nodes paths H.
  intros acc osm_data acc' _ Hp ([nt pt] & Htemp & [= <-])%bind_Ok.
  apply od_update_Forall; [done|].
  by eapply _parse_osm_nodes_paths_node_lists.
Qed.

(** The node dict of the assembled graph holds the merged node dicts. *)
Lemma assemble_node s response_jsons bidirectional nodes paths G k d :
  merge_responses s response_jsons = Ok (nodes, paths) →
  od_get k nodes = Some d →
  assemble ts __version__ s response_jsons bidirectional = Ok G →
  _node G !! k = Some d.
Proof.
  intros Hmerge Hk. unfold assemble. rewrite Hmerge. simpl. intros Hadd.
  eapply _add_paths_node; [exact Hadd|].
  rewrite add_nodes_lookup, Hk; [done| |done].
  by apply merge_responses_NoDup in Hmerge as [? _].
Qed.

Lemma assemble_succeeds s response_jsons bidirectional nodes paths :
  "nodes" ∉ useful_tags_path s →
  merge_responses s response_jsons = Ok (nodes, paths) →
  ∃ G, assemble ts __version__ s response_jsons bidirectional = Ok G.
Proof.
  intros Hnot Hmerge. unfold assemble. rewrite Hmerge. simpl.
  apply _add_paths_succeeds. by eapply merge_responses_node_lists.
Qed.

Lemma _create_graph_retain_all s response_jsons bidirectional G :
  _create_graph ts __version__ get_largest_component add_edge_lengths
    s response_jsons true bidirectional = Ok G →
  ∃ G0, assemble ts __version__ s response_jsons bidirectional = Ok G0
        ∧ (G = G0 ∨ G = add_edge_lengths G0).
Proof.
  unfold _create_graph. destruct (_ <? _)%nat; [done|].
  intros (G0 & HG0 & [= <-])%bind_Ok. exists G0. split; [done|].
  simpl. destruct (_ <? _)%nat; auto.
Qed.

(** The last of two responses decides the record of a node both define. *)
Lemma last_response_wins s A B nA pA nB pB k b bidirectional :
  _parse_osm_nodes_paths s A = Ok (nA, pA) →
  _parse_osm_nodes_paths s B = Ok (nB, pB) →
  od_get k nB = Some b →
  (∀ G, _node (add_edge_lengths G) = _node G) →
  (∃ nodes paths,
      merge_responses s [A; B] = Ok (nodes, paths) ∧ od_get k nodes = Some b)
  ∧ (∀ G, assemble ts __version__ s [A; B] bidirectional = Ok G →
          _node G !! k = Some b)
  ∧ (∀ G, _create_graph ts __version__ get_largest_component add_edge_lengths
            s [A; B] true bidirectional = Ok G →
          _node G !! k = Some b)
  ∧ ("nodes" ∉ useful_tags_path s →
     ∃ G, assemble ts __version__ s [A; B] bidirectional = Ok G).
Proof.
  intros HA HB Hb Hlen.
  assert (Hmerge : merge_responses s [A; B] =
                     Ok (od_update (od_update [] nA) nB,
                         od_update (od_update [] pA) pB)).
  { unfold merge_responses. simpl. rewrite HA. simpl. by rewrite HB. }
  assert (Hget : od_get k (od_update (od_update [] nA) nB) = Some b).
  { rewrite od_get_update, Hb; [done|].
    by apply _parse_osm_nodes_paths_NoDup in HB as [? _]. }
  split; [by eauto|].
  split; [by intros G; eapply assemble_node|].
  split; [|by intros ?; eapply assemble_succeeds].
  intros G HG.
  apply _create_graph_retain_all in HG as (G0 & HG0 & [-> | ->]);
    rewrite ?Hlen; by eapply assemble_node.
Qed.

(** C8.  Merging is last-write-wins per id in batch order.  Appending a
    response [B] to the merged responses gives every id that [B] defines
    [B]'s record and leaves every other id as it was.  So when [A] and [B]
    both define node [k], with records [a] and [b], merging [A, B] gives
    node [k] the record [b] and merging [B, A] gives it [a], in the merged
    dict and in the node dict of the assembled graph (also in the graph
    [_create_graph] returns with [retain_all], the length pass leaving nodes
    alone); with different records the two merges differ. *)
Theorem merge_last_write_wins s A B nA pA nB pB k a b bidirectional :
  _parse_osm_nodes_paths s A = Ok (nA, pA) →
  _parse_osm_nodes_paths s B = Ok (nB, pB) →
  od_get k nA = Some a →
  od_get k nB = Some b →
  (∀ G, _node (add_edge_lengths G) = _node G) →
  (∀ response_jsons nodes paths,
      merge_responses s response_jsons = Ok (nodes, paths) →
      ∃ nodes' paths',
        merge_responses s (response_jsons ++ [B]) = Ok (nodes', paths')
        ∧ ∀ k', od_get k' nodes' = match od_get k' nB with
                                   | Some v => Some v
                                   | None => od_get k' nodes
                                   end)
  ∧ (∃ nodes paths,
        merge_responses s [A; B] = Ok (nodes, paths) ∧ od_get k nodes = Some b)
  ∧ (∃ nodes paths,
        merge_responses s [B; A] = Ok (nodes, paths) ∧ od_get k nodes = Some a)
  ∧ (∀ G, assemble ts __version__ s [A; B] bidirectional = Ok G →
          _node G !! k = Some b)
  ∧ (∀ G, assemble ts __version__ s [B; A] bidirectional = Ok G →
          _node G !! k = Some a)
  ∧ (∀ G, _create_graph ts __version__ get_largest_component add_edge_lengths
            s [A; B] true bidirectional = Ok G →
          _node G !! k = Some b)
  ∧ (∀ G, _create_graph ts __version__ get_largest_component add_edge_lengths
            s [B; A] true bidirectional = Ok G →
          _node G !! k = Some a)
  ∧ ("nodes" ∉ useful_tags_path s →
     ∃ G1 G2, assemble ts __version__ s [A; B] bidirectional = Ok G1
              ∧ assemble ts __version__ s [B; A] bidirectional = Ok G2)
  ∧ (a ≠ b → merge_responses s [A; B] ≠ merge_responses s [B; A]).
Proof.
  intros HA HB Ha Hb Hlen.
  destruct (last_response_wins s A B nA pA nB pB k b bidirectional)
    as (HAB & HGAB & HCAB & HokAB); [done..|].
  destruct (last_response_wins s B A nB pB nA pA k a bidirectional)
    as (HBA & HGBA & HCBA & HokBA); [done..|].
  split.
  { intros rs nodes paths Hrs. rewrite merge_responses_snoc, Hrs. simpl.
    rewrite HB. simpl. do 2 eexists. split; [reflexivity|].
    intros k'. apply od_get_update.
    by apply _parse_osm_nodes_paths_NoDup in HB as [? _]. }
  do 6 (split; [done|]). split.
  - intros Hnot. destruct (HokAB Hnot) as [G1 ?], (HokBA Hnot) as [G2 ?]. eauto.
  - intros Hne Heq.
    destruct HAB as (n1 & p1 & H1 & Hk1), HBA as (n2 & p2 & H2 & Hk2).
    congruence.
Qed.
End create_graph_facts.

Lemma merge_last_write_wins_witness :
  (∃ nodes paths,
      merge_responses settings_osm [response_A; response_B] = Ok (nodes, paths)
      ∧ od_get 42 nodes = Some (record_42 "traffic_signals"))
  ∧ (∃ nodes paths,
        merge_responses settings_osm [response_B; response_A] = Ok (nodes, paths)
        ∧ od_get 42 nodes = Some (record_42 "crossing"))
  ∧ (∀ G, assemble "2020-05-01 12:00:00" "0.13" settings_osm
            [response_A; response_B] false = Ok G →
          _node G !! 42 = Some (record_42 "traffic_signals"))
  ∧ (∀ G, assemble "2020-05-01 12:00:00" "0.13" settings_osm
            [response_B; response_A] false = Ok G →
          _node G !! 42 = Some (record_42 "crossing"))
  ∧ ∃ G1 G2,
      assemble "2020-05-01 12:00:00" "0.13" settings_osm
        [response_A; response_B] false = Ok G1
      ∧ assemble "2020-05-01 12:00:00" "0.13" settings_osm
          [response_B; response_A] false = Ok G2.
Proof.
  destruct (merge_last_write_wins "2020-05-01 12:00:00" "0.13" (λ G, G) (λ G, G)
              settings_osm response_A response_B
              [(42, record_42 "crossing")] []
              [(42, record_42 "traffic_signals")] []
              42 (record_42 "crossing") (record_42 "traffic_signals") false)
    as (_ & HAB & HBA & HGAB & HGBA & _ & _ & Hok & _);
    [reflexivity | reflexivity | reflexivity | reflexivity | reflexivity |].
  split; [exact HAB|]. split; [exact HBA|].
  split; [exact HGAB|]. split; [exact HGBA|].
  apply Hok. vm_compute. intros H.
  repeat (inversion H as [|??? H']; clear H; rename H' into H).
Defined.

(** ** The XML normalizer *)

(** C9 fails on the code.  In [doc_way_relation] the way has no tag of its
    own, but the relation after it has one.  [self._element] still refers to
    the way when the relation's [tag] child is reported, so the tag lands on
    the way: the classifier gives the path a 'name' that the hand-written
    equivalent, which has the way as the document states it, does not have. *)
Theorem relation_tag_lands_on_last_way
    (py_float : string → option spec_float) :
  (r ← _overpass_json_from_file decimal_int py_float doc_way_relation;
   _parse_osm_nodes_paths settings_osm r) =
    Ok ([], [(1, <["name" := VStr "Bus 5"]>
                   (<["nodes" := VNodes [1; 2]]> (<["osmid" := VInt 1]> ∅)))])
  ∧ (r ← equivalent_json decimal_int py_float doc_way_relation;
     _parse_osm_nodes_paths settings_osm r) =
      Ok ([], [(1, <["nodes" := VNodes [1; 2]]> (<["osmid" := VInt 1]> ∅))])
  ∧ (r ← _overpass_json_from_file decimal_int py_float doc_way_relation;
     _parse_osm_nodes_paths settings_osm r) ≠
    (r ← equivalent_json decimal_int py_float doc_way_relation;
     _parse_osm_nodes_paths settings_osm r).
Proof.
  assert (H1 : (r ← _overpass_json_from_file decimal_int py_float doc_way_relation;
                _parse_osm_nodes_paths settings_osm r) =
               Ok ([], [(1, <["name" := VStr "Bus 5"]>
                              (<["nodes" := VNodes [1; 2]]>
                                 (<["osmid" := VInt 1]> ∅)))]))
    by (vm_compute; reflexivity).
  assert (H2 : (r ← equivalent_json decimal_int py_float doc_way_relation;
                _parse_osm_nodes_paths settings_osm r) =
               Ok ([], [(1, <["nodes" := VNodes [1; 2]]>
                              (<["osmid" := VInt 1]> ∅))]))
    by (vm_compute; reflexivity).
  split; [exact H1|]. split; [exact H2|].
  rewrite H1, H2. intros H.
  assert (Hname : Some (VStr "Bus 5") = (None : option value)); [|discriminate Hname].
  apply (f_equal (λ r : result (odict * odict),
                    match r with
                    | Ok (_, (_, path) :: _) => path !! "name"
                    | _ => None
                    end)) in H.
  exact H.
Qed.

(** On plain documents the normalizer and the hand-written batch agree. *)

Lemma xml_children_ind (P : xml → Prop) :
  (∀ name attrs children, Forall P children → P (XElement name attrs children)) →
  ∀ x, P x.
Proof.
  intros Hstep. fix IH 1. intros [name attrs children]. apply Hstep.
  induction children as [|c children IHc]; constructor; [apply IH|exact IHc].
Qed.

Ltac in_list :=
  repeat first [apply list_elem_of_here | apply list_elem_of_further].

Lemma bind_Ok_r {A} (m : result A) : m ≫= Ok = m.
Proof. by destruct m. Qed.

Section sax_facts.
Variable py_int : string → option Z.
Variable py_float : string → option spec_float.

Lemma startElement_other h name attrs :
  name ∉ ["osm"; "node"; "way"; "tag"; "nd"] →
  startElement py_int py_float h name attrs = Ok h.
Proof.
  intros Hname. unfold startElement.
  rewrite !bool_decide_eq_false_2; [done|intros ->; apply Hname; in_list..].
Qed.

Lemma endElement_other h name :
  name ≠ "node" → name ≠ "way" → endElement h name = h.
Proof.
  intros Hnode Hway. unfold endElement.
  by rewrite !bool_decide_eq_false_2.
Qed.

Lemma inert_children_events children h :
  Forall (λ c, ∀ h, inert c = true →
               for_each (handle py_int py_float) (sax_events c) h = Ok h) children →
  forallb inert children = true →
  for_each (handle py_int py_float) (flat_map sax_events children) h = Ok h.
Proof.
  induction 1 as [|c children Hc _ IH]; [done|]. simpl.
  intros [Hic Hich]%andb_prop. rewrite for_each_app, Hc by done. by apply IH.
Qed.

Lemma inert_events x h :
  inert x = true → for_each (handle py_int py_float) (sax_events x) h = Ok h.
Proof.
  revert h. induction x as [name attrs children IH] using xml_children_ind.
  intros h. cbn [inert sax_events].
  intros [Hname Hchildren]%andb_prop.
  apply negb_true_iff, bool_decide_eq_false in Hname.
  cbn [for_each handle]. rewrite startElement_other by done. simpl.
  rewrite for_each_app, inert_children_events by done. simpl.
  rewrite endElement_other; [done|intros ->; apply Hname; in_list..].
Qed.

Lemma child_events c h :
  child_of_element c = true →
  for_each (handle py_int py_float) (sax_events c) h =
    startElement py_int py_float h (xml_name c) (xml_attrs c).
Proof.
  destruct c as [name attrs children]. unfold child_of_element.
  cbn [xml_name xml_attrs xml_children sax_events for_each handle].
  intros [Hname Hchildren]%andb_prop.
  apply negb_true_iff, bool_decide_eq_false in Hname.
  destruct (startElement py_int py_float h name attrs) as [h1|e]; [|done].
  simpl. rewrite for_each_app, inert_children_events; [|by apply Forall_forall; intros; apply inert_events|done].
  simpl. rewrite endElement_other; [done|intros ->; apply Hname; in_list..].
Qed.

Lemma store_last loc (heap0 : list pydict) el el' m oe :
  loc = length heap0 →
  store {| _element := Some loc; heap := heap0 ++ [el];
           object_meta := m; object_elements := oe |} loc el' =
    {| _element := Some loc; heap := heap0 ++ [el'];
       object_meta := m; object_elements := oe |}.
Proof.
  intros ->. unfold store. simpl. f_equal.
  rewrite insert_app_r_alt by done. by rewrite Nat.sub_diag.
Qed.

Lemma current_field_last (heap0 : list pydict) el m oe field v :
  el !! field = Some v →
  current_field {| _element := Some (length heap0); heap := heap0 ++ [el];
                   object_meta := m; object_elements := oe |} field =
    Ok (length heap0, el, v).
Proof.
  intros Hv. unfold current_field, getitem. simpl.
  rewrite list_lookup_middle by done. by rewrite Hv.
Qed.

Lemma own_tags_step_tag t c :
  xml_name c = "tag" →
  own_tags_step t c =
    k ← getattr (xml_attrs c) "k"; v ← getattr (xml_attrs c) "v"; Ok (<[k := v]> t).
Proof. intros H. unfold own_tags_step. by rewrite bool_decide_eq_true_2. Qed.

Lemma own_tags_step_other t c : xml_name c ≠ "tag" → own_tags_step t c = Ok t.
Proof. intros H. unfold own_tags_step. by rewrite bool_decide_eq_false_2. Qed.

Lemma own_refs_step_nd l c :
  xml_name c = "nd" →
  own_refs_step py_int l c =
    ref ← getattr (xml_attrs c) "ref";
    match py_int ref with
    | Some r => Ok (l ++ [r])
    | None => Raise ValueError
    end.
Proof. intros H. unfold own_refs_step. by rewrite bool_decide_eq_true_2. Qed.

Lemma own_refs_step_other l c :
  xml_name c ≠ "nd" → own_refs_step py_int l c = Ok l.
Proof. intros H. unfold own_refs_step. by rewrite bool_decide_eq_false_2. Qed.

(** The events of the children of a [node] or [way] update the element in
    progress with its own tags and references. *)
Lemma element_children_events children :
  forallb child_of_element children = true →
  ∀ (heap0 : list pydict) (el : pydict) t ns m oe h',
    el !! "tags" = Some (VTags t) →
    el !! "nodes" = Some (VNodes ns) →
    for_each (handle py_int py_float) (flat_map sax_events children)
      {| _element := Some (length heap0); heap := heap0 ++ [el];
         object_meta := m; object_elements := oe |} = Ok h'
    ↔ ∃ t' ns',
        for_each own_tags_step children t = Ok t'
        ∧ for_each (own_refs_step py_int) children ns = Ok ns'
        ∧ h' = {| _element := Some (length heap0);
                  heap := heap0 ++ [<["nodes" := VNodes ns']>
                                      (<["tags" := VTags t']> el)];
                  object_meta := m; object_elements := oe |}.
Proof.
  induction children as [|c children IH]; intros Hplain heap0 el t ns m oe h' Ht Hns.
  - simpl.
    assert (Hel : <["nodes" := VNodes ns]> (<["tags" := VTags t]> el) = el).
    { rewrite (insert_id el "tags") by done. by apply insert_id. }
    split.
    + intros [= <-]. exists t, ns. by rewrite Hel.
    + intros (t' & ns' & [= <-] & [= <-] & ->). by rewrite Hel.
  - cbn [forallb] in Hplain. apply andb_prop in Hplain as [Hc Hplain].
    cbn [flat_map]. rewrite for_each_app, child_events by done.
    change (for_each own_tags_step (c :: children) t)
      with (own_tags_step t c ≫= for_each own_tags_step children).
    change (for_each (own_refs_step py_int) (c :: children) ns)
      with (own_refs_step py_int ns c ≫= for_each (own_refs_step py_int) children).
    pose proof Hc as Hc'. unfold child_of_element in Hc'.
    apply andb_prop in Hc' as [Hname _].
    apply negb_true_iff, bool_decide_eq_false in Hname.
    destruct (decide (xml_name c = "tag")) as [Htag|Htag];
      [|destruct (decide (xml_name c = "nd")) as [Hnd|Hnd]].
    + (* a tag child *)
      rewrite (own_tags_step_tag t c Htag), (own_refs_step_other ns c)
        by by rewrite Htag.
      rewrite Htag. unfold startElement.
      rewrite (bool_decide_eq_false_2 ("tag" = "osm")) by done.
      rewrite (bool_decide_eq_false_2 ("tag" = "node")) by done.
      rewrite (bool_decide_eq_false_2 ("tag" = "way")) by done.
      rewrite (bool_decide_eq_true_2 ("tag" = "tag")) by done.
      cbn [orb]. rewrite (current_field_last _ _ _ _ _ _ Ht).
      cbn [mbind result_bind].
      destruct (getattr (xml_attrs c) "k") as [k|e]; cbn [mbind result_bind];
        [|split; [done|by intros (? & ? & ? & _)]].
      destruct (getattr (xml_attrs c) "v") as [v|e]; cbn [mbind result_bind];
        [|split; [done|by intros (? & ? & ? & _)]].
      rewrite store_last by done.
      rewrite (IH Hplain heap0 _ (<[k := v]> t) ns);
        [|apply lookup_insert_eq|by rewrite lookup_insert_ne].
      assert (Hel : ∀ t' ns',
                 <["nodes" := VNodes ns']>
                   (<["tags" := VTags t']> (<["tags" := VTags (<[k := v]> t)]> el)) =
                 <["nodes" := VNodes ns']> (<["tags" := VTags t']> el)).
      { intros. by rewrite insert_insert_eq. }
      by setoid_rewrite Hel.
    + (* an nd child *)
      rewrite (own_tags_step_other t c Htag), (own_refs_step_nd ns c Hnd).
      rewrite Hnd. unfold startElement.
      rewrite (bool_decide_eq_false_2 ("nd" = "osm")) by done.
      rewrite (bool_decide_eq_false_2 ("nd" = "node")) by done.
      rewrite (bool_decide_eq_false_2 ("nd" = "way")) by done.
      rewrite (bool_decide_eq_false_2 ("nd" = "tag")) by done.
      rewrite (bool_decide_eq_true_2 ("nd" = "nd")) by done.
      cbn [orb]. rewrite (current_field_last _ _ _ _ _ _ Hns).
      cbn [mbind result_bind].
      destruct (getattr (xml_attrs c) "ref") as [ref|e]; cbn [mbind result_bind];
        [|split; [done|by intros (? & ? & _ & ? & _)]].
      destruct (py_int ref) as [r|]; cbn [mbind result_bind];
        [|split; [done|by intros (? & ? & _ & ? & _)]].
      rewrite store_last by done.
      rewrite (IH Hplain heap0 _ t (ns ++ [r]));
        [|by rewrite lookup_insert_ne|apply lookup_insert_eq].
      assert (Hel : ∀ t' ns',
                 <["nodes" := VNodes ns']>
                   (<["tags" := VTags t']> (<["nodes" := VNodes (ns ++ [r])]> el)) =
                 <["nodes" := VNodes ns']> (<["tags" := VTags t']> el)).
      { intros. rewrite (insert_insert_ne _ "tags" "nodes") by done.
        by rewrite insert_insert_eq. }
      by setoid_rewrite Hel.
    + (* any other child *)
      rewrite (own_tags_step_other t c Htag), (own_refs_step_other ns c Hnd).
      rewrite startElement_other.
      * cbn [mbind result_bind]. by apply IH.
      * intros Hin. apply Hname.
        repeat (apply elem_of_cons in Hin as [Hin|Hin]; [rewrite Hin; in_list|]);
          try done.
        by apply elem_of_nil in Hin.
Qed.

Lemma update_converted_lookup {A} (conv : string → option A) (inj : A → value)
    keys attrs (el el' : pydict) k :
  update_converted conv inj keys attrs el = Ok el' →
  k ∉ keys → el' !! k = el !! k.
Proof.
  intros H Hk.
  apply (for_each_invariant (λ d : pydict, d !! k = el !! k)) in H; [done| |done].
  intros d key d' Hkey Hd Hstep.
  destruct (attrs !! key); [|by injection Hstep as <-].
  destruct (conv s); [|done]. injection Hstep as <-.
  rewrite lookup_insert_ne; [done|]. by intros ->.
Qed.

Lemma new_element_fields name attrs el :
  new_element py_int py_float name attrs = Ok el →
  el !! "tags" = Some (VTags ∅) ∧ el !! "nodes" = Some (VNodes []).
Proof.
  unfold new_element. destruct (_ || _); [done|].
  intros (el1 & H1 & H2)%bind_Ok.
  split.
  - rewrite (update_converted_lookup _ _ _ _ _ _ "tags" H2),
      (update_converted_lookup _ _ _ _ _ _ "tags" H1).
    + rewrite lookup_insert_ne by done. apply lookup_insert_eq.
    + by intros Hin; repeat (apply elem_of_cons in Hin as [?|Hin]; [done|]);
        apply elem_of_nil in Hin.
    + by intros Hin; repeat (apply elem_of_cons in Hin as [?|Hin]; [done|]);
        apply elem_of_nil in Hin.
  - rewrite (update_converted_lookup _ _ _ _ _ _ "nodes" H2),
      (update_converted_lookup _ _ _ _ _ _ "nodes" H1).
    + rewrite !lookup_insert_ne by done. apply lookup_insert_eq.
    + by intros Hin; repeat (apply elem_of_cons in Hin as [?|Hin]; [done|]);
        apply elem_of_nil in Hin.
    + by intros Hin; repeat (apply elem_of_cons in Hin as [?|Hin]; [done|]);
        apply elem_of_nil in Hin.
Qed.

(** A [node] or [way] child of the root leaves one new element, the one
    the hand-written batch has for it; any other child leaves no trace. *)
Lemma plain_child_events c cur hp m oe h' :
  plain_child c = true →
  for_each (handle py_int py_float) (sax_events c)
    {| _element := cur; heap := hp; object_meta := m; object_elements := oe |}
    = Ok h'
  ↔ if bool_decide (xml_name c = "node") || bool_decide (xml_name c = "way")
    then ∃ el, equivalent_element py_int py_float c = Ok el
               ∧ h' = {| _element := Some (length hp); heap := hp ++ [el];
                         object_meta := m;
                         object_elements := oe ++ [Some (length hp)] |}
    else h' = {| _element := cur; heap := hp; object_meta := m;
                 object_elements := oe |}.
Proof.
  unfold plain_child.
  destruct (bool_decide (xml_name c = "node") || bool_decide (xml_name c = "way"))
    eqn:Hname.
  - intros Hchildren. destruct c as [name attrs children].
    cbn [xml_name xml_children] in *.
    unfold equivalent_element. cbn [xml_name xml_attrs xml_children].
    cbn [sax_events for_each handle]. unfold startElement.
    assert (Hosm : bool_decide (name = "osm") = false).
    { apply bool_decide_eq_false_2. intros ->. done. }
    rewrite Hosm, Hname.
    destruct (new_element py_int py_float name attrs) as [el0|e] eqn:Hnew;
      cbn [mbind result_bind]; [|split; [done|by intros (? & ? & _)]].
    apply new_element_fields in Hnew as [Htags Hnodes].
    rewrite for_each_app. split.
    + intros (h2 & Hh2 & Hend)%bind_Ok.
      apply (element_children_events children Hchildren hp el0 ∅ [] m oe h2
               Htags Hnodes) in Hh2 as (t' & ns' & Ht' & Hns' & ->).
      unfold own_tags, own_refs. rewrite Ht', Hns'. cbn [mbind result_bind].
      eexists. split; [reflexivity|].
      cbn [for_each handle mbind result_bind] in Hend. injection Hend as <-.
      unfold endElement. by rewrite Hname.
    + intros (el & Hel & ->).
      apply bind_Ok in Hel as (t' & Ht' & Hel).
      apply bind_Ok in Hel as (ns' & Hns' & [= <-]).
      apply bind_Ok. eexists. split.
      * apply (element_children_events children Hchildren hp el0 ∅ [] m oe _
                 Htags Hnodes). by exists t', ns'.
      * cbn [for_each handle mbind result_bind]. unfold endElement.
        by rewrite Hname.
  - intros Hinert. rewrite inert_events by done.
    split; [by intros [= <-]|by intros ->].
Qed.

Lemma equivalent_step_unfold els c :
  equivalent_step py_int py_float els c =
    if bool_decide (xml_name c = "node") || bool_decide (xml_name c = "way")
    then el ← equivalent_element py_int py_float c; Ok (els ++ [el])
    else Ok els.
Proof. reflexivity. Qed.

Lemma deref_extend (hp : list pydict) oe els el :
  mapM (λ r : option nat, r ≫= (hp !!.)) oe = Some els →
  mapM (λ r : option nat, r ≫= ((hp ++ [el]) !!.)) (oe ++ [Some (length hp)])
    = Some (els ++ [el]).
Proof.
  intros H%mapM_Some. apply mapM_Some, Forall2_app.
  - eapply Forall2_impl; [exact H|]. intros [loc|] el'; simpl; [|done].
    intros Hloc. rewrite lookup_app_l; [done|]. by eapply lookup_lt_Some.
  - repeat constructor. simpl. by apply list_lookup_middle.
Qed.

(** The children of the root, one by one: the elements reachable from
    [self.object['elements']] are those of the hand-written batch. *)
Lemma plain_children_events children :
  forallb plain_child children = true →
  ∀ cur hp m oe els0 els,
    mapM (λ r : option nat, r ≫= (hp !!.)) oe = Some els0 →
    (∃ h', for_each (handle py_int py_float) (flat_map sax_events children)
             {| _element := cur; heap := hp; object_meta := m;
                object_elements := oe |} = Ok h'
           ∧ mapM (λ r : option nat, r ≫= (heap h' !!.)) (object_elements h')
               = Some els)
    ↔ for_each (equivalent_step py_int py_float) children els0 = Ok els.
Proof.
  induction children as [|c children IH];
    intros Hplain cur hp m oe els0 els Hderef.
  - simpl. split.
    + intros (h' & [= <-] & Hels). simpl in Hels. congruence.
    + intros [= <-]. eexists. split; [reflexivity|done].
  - cbn [forallb] in Hplain. apply andb_prop in Hplain as [Hc Hplain].
    cbn [flat_map]. 
    change (for_each (equivalent_step py_int py_float) (c :: children) els0)
      with (equivalent_step py_int py_float els0 c
              ≫= for_each (equivalent_step py_int py_float) children).
    rewrite (equivalent_step_unfold els0 c).
    split.
    + intros (h' & Hrun & Hels). rewrite for_each_app in Hrun.
      apply bind_Ok in Hrun as (h1 & Hh1 & Hrun).
      apply (plain_child_events c cur hp m oe h1 Hc) in Hh1.
      destruct (_ || _).
      * destruct Hh1 as (el & -> & ->). cbn [mbind result_bind].
        apply (IH Hplain (Some (length hp)) (hp ++ [el]) m
                 (oe ++ [Some (length hp)]) (els0 ++ [el]) els);
          [by apply deref_extend|].
        by exists h'.
      * subst h1. apply (IH Hplain cur hp m oe els0 els Hderef). by exists h'.
    + intros Hrun.
      destruct (bool_decide (xml_name c = "node") || bool_decide (xml_name c = "way"))
        eqn:Hname.
      * apply bind_Ok in Hrun as (els1 & Hel & Hrun).
        apply bind_Ok in Hel as (el & Hel & [= <-]).
        apply (IH Hplain (Some (length hp)) (hp ++ [el]) m
                 (oe ++ [Some (length hp)]) (els0 ++ [el]) els) in Hrun
          as (h' & Hrun & Hels); [|by apply deref_extend].
        exists h'. split; [|done]. rewrite for_each_app. apply bind_Ok.
        eexists. split; [|exact Hrun].
        apply plain_child_events; [done|]. rewrite Hname. eauto.
      * cbn [mbind result_bind] in Hrun.
        apply (IH Hplain cur hp m oe els0 els Hderef) in Hrun
          as (h' & Hrun & Hels).
        exists h'. split; [|done]. rewrite for_each_app. apply bind_Ok.
        eexists. split; [|exact Hrun].
        apply plain_child_events; [done|]. by rewrite Hname.
Qed.

(** On a plain document, [_overpass_json_from_file] returns a batch exactly
    when the batch written by hand exists, and the two have the same element
    list, hence the same classification. *)
Theorem normalizer_matches_equivalent_json doc els :
  plain_document doc = true →
  (∃ r, _overpass_json_from_file py_int py_float doc = Ok r
        ∧ resp_elements r = els)
  ↔ (∃ r, equivalent_json py_int py_float doc = Ok r ∧ resp_elements r = els).
Proof.
  destruct doc as [name attrs children]. unfold plain_document.
  cbn [xml_name xml_children]. intros [Hname Hplain]%andb_prop.
  apply bool_decide_eq_true in Hname as ->.
  unfold _overpass_json_from_file, equivalent_json.
  cbn [xml_children sax_events for_each handle]. unfold startElement.
  rewrite (bool_decide_eq_true_2 ("osm" = "osm")) by done.
  cbn [mbind result_bind __init__ _element heap object_meta object_elements].
  rewrite for_each_app.
  pose proof (plain_children_events children Hplain None []
                (filter (λ kv : string * string,
                           kv.1 = "version" ∨ kv.1 = "generator") attrs ∪ ∅)
                [] [] els eq_refl) as Hchildren.
  split.
  - intros (r & (h & Hrun & Hobj)%bind_Ok & Hels).
    apply bind_Ok in Hrun as (h1 & Hh1 & Hend).
    cbn [for_each handle mbind result_bind] in Hend.
    rewrite endElement_other in Hend by done. injection Hend as <-.
    unfold handler_object in Hobj.
    destruct (mapM _ (object_elements h1)) as [els'|] eqn:Hderef; [|done].
    injection Hobj as <-. simpl in Hels. subst els'.
    destruct Hchildren as [Hchildren _]. rewrite Hchildren by eauto.
    eexists. split; [reflexivity|done].
  - intros (r & (els' & Hrun & [= <-])%bind_Ok & Hels). simpl in Hels.
    subst els'. apply Hchildren in Hrun as (h' & Hrun & Hderef).
    rewrite Hrun. cbn [for_each handle mbind result_bind].
    rewrite endElement_other by done. unfold handler_object.
    rewrite Hderef. eexists. split; [reflexivity|done].
Qed.

(** Hence the classifier gives the same maps on both. *)
Corollary plain_document_same_classification s doc r r' :
  plain_document doc = true →
  _overpass_json_from_file py_int py_float doc = Ok r →
  equivalent_json py_int py_float doc = Ok r' →
  _parse_osm_nodes_paths s r = _parse_osm_nodes_paths s r'.
Proof.
  intros Hplain Hr Hr'.
  destruct (proj1 (normalizer_matches_equivalent_json doc (resp_elements r) Hplain))
    as (r'' & Hr'' & Hels); [by eauto|].
  unfold _parse_osm_nodes_paths. congruence.
Qed.
End sax_facts.

Example plain_document_example (py_float : string → option spec_float) :
  plain_document doc_plain = true
  ∧ plain_document doc_way_relation = false
  ∧ (r ← _overpass_json_from_file decimal_int py_float doc_plain;
     _parse_osm_nodes_paths settings_osm r) =
      Ok ([], [(1, <["oneway" := VStr "yes"]>
                     (<["highway" := VStr "residential"]>
                        (<["nodes" := VNodes [1; 2]]> (<["osmid" := VInt 1]> ∅))))])
  ∧ (r ← equivalent_json decimal_int py_float doc_plain;
     _parse_osm_nodes_paths settings_osm r) =
      (r ← _overpass_json_from_file decimal_int py_float doc_plain;
       _parse_osm_nodes_paths settings_osm r).
Proof. repeat split; vm_compute; reflexivity. Qed.

(** * Further properties of the code *)

(** ** The path reducer, continued *)

Lemma singletons_runs l :
  no_adjacent_dups l → maximal_runs ((λ x, (x, [x])) <$> l) l.
Proof.
  intros Hl. split; [|split].
  - induction l as [|x l IH]; [done|]. rewrite fmap_cons. cbn [fmap list_fmap].
    simpl. f_equal. apply IH. destruct l; [done|]. by destruct Hl.
  - apply Forall_fmap, Forall_forall. intros x _. simpl. by repeat constructor.
  - rewrite <- list_fmap_compose.
    replace (fst ∘ (λ x : Z, (x, [x]))) with (@id Z) by done.
    by rewrite list_fmap_id.
Qed.

Lemma reduce_nodes_fixed l : no_adjacent_dups l → reduce_nodes l = l.
Proof.
  intros Hl. unfold reduce_nodes.
  rewrite <- (maximal_runs_unique _ l (singletons_runs l Hl)).
  rewrite <- list_fmap_compose.
  replace (fst ∘ (λ x : Z, (x, [x]))) with (@id Z) by done.
  by rewrite list_fmap_id.
Qed.

Lemma reduce_nodes_no_adjacent_dups l : no_adjacent_dups (reduce_nodes l).
Proof. apply groupby_runs. Qed.

(** X1.  Reducing twice is reducing once, and the lists the reducer leaves
    alone are exactly those without two equal neighbours. *)
Theorem reduce_nodes_idempotent (l : list Z) :
  reduce_nodes (reduce_nodes l) = reduce_nodes l
  ∧ (reduce_nodes l = l ↔ no_adjacent_dups l).
Proof.
  split.
  - apply reduce_nodes_fixed, reduce_nodes_no_adjacent_dups.
  - split; [|apply reduce_nodes_fixed].
    intros <-. apply reduce_nodes_no_adjacent_dups.
Qed.

Lemma groupby_from_last k g l :
  last (groupby_from k g l).*1 = last (k :: l).
Proof.
  revert k g. induction l as [|x l IH]; intros k g; [done|]. cbn [groupby_from].
  destruct (decide (x = k)) as [->|Hne].
  - by rewrite IH.
  - specialize (IH x [x]).
    destruct (groupby_from_head x [x] l) as (g' & gs & Hhd).
    rewrite Hhd in IH |- *. exact IH.
Qed.

(** X2.  The reducer keeps the first and the last reference of a way, never
    lengthens the list, and gives the empty list only for the empty list. *)
Theorem reduce_nodes_endpoints (l : list Z) :
  head (reduce_nodes l) = head l
  ∧ last (reduce_nodes l) = last l
  ∧ (length (reduce_nodes l) ≤ length l)%nat
  ∧ (reduce_nodes l = [] ↔ l = []).
Proof.
  unfold reduce_nodes. split; [|split; [|split]].
  - destruct l as [|x l]; [done|]. simpl.
    by destruct (groupby_from_head x [x] l) as (g' & gs & ->).
  - destruct l as [|x l]; [done|]. apply groupby_from_last.
  - apply sublist_length, maximal_runs_sublist, groupby_runs.
  - destruct l as [|x l]; [done|]. simpl.
    by destruct (groupby_from_head x [x] l) as (g' & gs & ->).
Qed.

(** ** Directionality, continued *)

(** X3.  With [all_oneway] off and [bidirectional] false, a path tagged
    [junction=roundabout] that has no recognized 'oneway' value adds exactly
    one run, in stored node order, every edge carrying [oneway = True]. *)
Theorem roundabout_single_forward_run s G (data : pydict) ns :
  all_oneway s = false →
  tagged_oneway data = false →
  data !! "junction" = Some (VStr "roundabout") →
  data !! "nodes" = Some (VNodes ns) →
  ∃ G' attr,
    _add_paths_body s false G data = Ok (G', attr)
    ∧ edge_view <$> edges G' = (edge_view <$> edges G) ++ run (path_edges ns) attr
    ∧ attr !! "oneway" = Some (VBool true)
    ∧ attr !! "junction" = Some (VStr "roundabout").
Proof.
  intros Hall Htag Hjunction Hnodes. unfold _add_paths_body.
  rewrite Hall, Htag. unfold tagged_roundabout. rewrite Hjunction. simpl.
  destruct (_add_path_runs s G data ns true Hnodes) as (G' & Hrun & Hedges).
  rewrite Hall in Hrun, Hedges. simpl in Hrun, Hedges.
  rewrite app_nil_r in Hedges.
  exists G'. eexists. split; [exact Hrun|]. split; [exact Hedges|].
  split; [apply lookup_insert_eq|].
  by rewrite lookup_insert_ne, lookup_delete_ne.
Qed.

Lemma roundabout_single_forward_run_witness :
  ∃ G' attr,
    _add_paths_body settings_osm false graph_nil
      (<["junction" := VStr "roundabout"]> path_123) = Ok (G', attr)
    ∧ edge_view <$> edges G' = [(1, 2, attr); (2, 3, attr)]
    ∧ attr !! "oneway" = Some (VBool true)
    ∧ attr !! "junction" = Some (VStr "roundabout").
Proof.
  apply (roundabout_single_forward_run settings_osm graph_nil
           (<["junction" := VStr "roundabout"]> path_123) [1; 2; 3]);
    reflexivity.
Defined.

(** X4.  With [all_oneway] off and [bidirectional] false, a path whose raw
    'oneway' value is "yes", "true", "1" or "F" adds exactly one run, in
    stored node order, every edge carrying [oneway = True]. *)
Theorem forward_oneway_single_run s G (data : pydict) ow ns :
  all_oneway s = false →
  ow ∈ ["yes"; "true"; "1"; "F"] →
  data !! "oneway" = Some (VStr ow) →
  data !! "nodes" = Some (VNodes ns) →
  ∃ G' attr,
    _add_paths_body s false G data = Ok (G', attr)
    ∧ edge_view <$> edges G' = (edge_view <$> edges G) ++ run (path_edges ns) attr
    ∧ attr !! "oneway" = Some (VBool true).
Proof.
  intros Hall How Hraw Hnodes. unfold _add_paths_body. rewrite Hall.
  rewrite (tagged_oneway_recognized data ow Hraw).
  assert (Hrec : bool_decide (ow ∈ osm_oneway_values) = true
                 ∧ tagged_reverse data = false).
  { unfold tagged_reverse. rewrite Hraw.
    repeat (apply elem_of_cons in How as [->|How]; [by split|]).
    by apply elem_of_nil in How. }
  destruct Hrec as [-> ->]. simpl.
  destruct (_add_path_runs s G data ns true Hnodes) as (G' & Hrun & Hedges).
  rewrite Hall in Hrun, Hedges. simpl in Hrun, Hedges.
  rewrite app_nil_r in Hedges.
  exists G'. eexists. split; [exact Hrun|]. split; [exact Hedges|].
  apply lookup_insert_eq.
Qed.

Lemma forward_oneway_single_run_witness :
  ∃ G' attr,
    _add_paths_body settings_osm false graph_nil (path_123_oneway "F") =
      Ok (G', attr)
    ∧ edge_view <$> edges G' = [(1, 2, attr); (2, 3, attr)]
    ∧ attr !! "oneway" = Some (VBool true).
Proof.
  apply (forward_oneway_single_run settings_osm graph_nil
           (path_123_oneway "F") "F" [1; 2; 3]);
    [reflexivity | in_list | reflexivity | reflexivity].
Defined.

Lemma path_edges_short ns : (length ns ≤ 1)%nat → path_edges ns = [].
Proof. destruct ns as [|x [|y ns]]; simpl; [done|done|lia]. Qed.

Lemma path_edges_cons x y ns :
  path_edges (x :: y :: ns) = (x, y) :: path_edges (y :: ns).
Proof. done. Qed.

Lemma path_edges_length ns : length (path_edges ns) = (length ns - 1)%nat.
Proof.
  induction ns as [|x [|y ns] IH]; [done|done|].
  rewrite path_edges_cons. cbn [length] in *. lia.
Qed.

Lemma path_edges_snoc ns x y :
  path_edges (ns ++ [x; y]) = path_edges (ns ++ [x]) ++ [(x, y)].
Proof.
  induction ns as [|a [|b ns] IH]; [done|done|].
  change ((a :: b :: ns) ++ [x; y]) with (a :: b :: (ns ++ [x; y])).
  change ((a :: b :: ns) ++ [x]) with (a :: b :: (ns ++ [x])).
  rewrite !path_edges_cons. cbn [app]. f_equal. exact IH.
Qed.

(** X5.  A path with fewer than two node references leaves the graph exactly
    as it was, edges and nodes, in every branch of [_add_paths]; so does a
    way all of whose references are the same node, once reduced. *)
Theorem short_path_adds_nothing s bidirectional G (data : pydict) ns :
  data !! "nodes" = Some (VNodes ns) →
  (length ns ≤ 1)%nat →
  (∃ attr, _add_paths_body s bidirectional G data = Ok (G, attr))
  ∧ ∀ x n, reduce_nodes (replicate n x) = replicate (n `min` 1) x.
Proof.
  intros Hnodes Hlen. split.
  - assert (Hadd : ∀ (d : pydict) ns' one_way,
               d !! "nodes" = Some (VNodes ns') → (length ns' ≤ 1)%nat →
               ∃ attr, _add_path s G d one_way = Ok (G, attr)).
    { intros d ns' one_way Hd Hns'. unfold _add_path, getitem. rewrite Hd. simpl.
      rewrite (path_edges_short ns' Hns'). simpl.
      destruct G. destruct one_way; simpl; by eexists. }
    unfold _add_paths_body.
    destruct (all_oneway s); [by eapply Hadd|].
    destruct (tagged_oneway data && negb bidirectional).
    + destruct (tagged_reverse data); [|by eapply Hadd].
      unfold reverse_nodes, getitem. rewrite Hnodes. simpl.
      eapply Hadd; [apply lookup_insert_eq|]. by rewrite length_reverse.
    + destruct (tagged_roundabout data && negb bidirectional); by eapply Hadd.
  - intros x n. destruct n as [|n]; [done|]. simpl.
    assert (H : ∀ g, groupby_from x g (replicate n x) = [(x, g ++ replicate n x)]).
    { induction n as [|n IH]; intros g; simpl; [by rewrite app_nil_r|].
      rewrite decide_True by done. rewrite IH. by rewrite <- app_assoc. }
    unfold reduce_nodes. simpl. by rewrite H, Nat.min_0_r.
Qed.

Lemma short_path_adds_nothing_witness :
  (∃ attr,
      _add_paths_body settings_osm false graph_nil
        (<["nodes" := VNodes (reduce_nodes [5; 5; 5])]> path_123) =
        Ok (graph_nil, attr))
  ∧ ∀ x n, reduce_nodes (replicate n x) = replicate (n `min` 1) x.
Proof.
  apply (short_path_adds_nothing settings_osm false graph_nil
           (<["nodes" := VNodes (reduce_nodes [5; 5; 5])]> path_123) [5]);
    [reflexivity | simpl; lia].
Defined.

(** X6.  [_add_path] adds one edge per pair of consecutive references, and
    as many again when the path is not one-way: the edge count grows by
    [len(nodes) - 1], doubled for a two-way path. *)
Theorem _add_path_edge_count s G (data : pydict) ns one_way :
  data !! "nodes" = Some (VNodes ns) →
  ∃ G' attr,
    _add_path s G data one_way = Ok (G', attr)
    ∧ length (edges G') =
        (length (edges G)
         + (length ns - 1) * (if one_way then 1 else 2))%nat.
Proof.
  intros Hnodes.
  destruct (_add_path_runs s G data ns one_way Hnodes) as (G' & Hrun & Hedges).
  exists G'. eexists. split; [exact Hrun|].
  apply (f_equal length) in Hedges.
  rewrite !length_app, !length_fmap in Hedges. rewrite Hedges.
  unfold run, opposite_direction.
  destruct one_way; rewrite ?length_fmap, path_edges_length; simpl; lia.
Qed.

Lemma _add_path_edge_count_witness :
  ∃ G' attr,
    _add_path settings_osm graph_nil path_123 false = Ok (G', attr)
    ∧ length (edges G') = (length (edges graph_nil) + (3 - 1) * 2)%nat.
Proof.
  apply (_add_path_edge_count settings_osm graph_nil path_123 [1; 2; 3] false).
  reflexivity.
Defined.

(** X7.  Reversing the node list swaps every edge and reverses their order:
    the run of a way tagged [oneway=-1] consists of the same edges as the
    second run of a two-way path over the same nodes, in the opposite
    order. *)
Theorem path_edges_reverse (ns : list Z) :
  path_edges (reverse ns) = reverse (opposite_direction (path_edges ns)).
Proof.
  induction ns as [|x [|y ns] IH]; [done|done|].
  transitivity (path_edges (reverse (y :: ns)) ++ [(y, x)]).
  - rewrite (reverse_cons (y :: ns) x), (reverse_cons ns y), <- app_assoc.
    cbn [app]. apply path_edges_snoc.
  - rewrite IH, path_edges_cons. unfold opposite_direction.
    by rewrite fmap_cons, reverse_cons.
Qed.

(** ** The element classifier, continued *)

Lemma od_set_set k v v' d : od_set k v (od_set k v' d) = od_set k v d.
Proof.
  induction d as [|[k1 v1] d IH]; simpl.
  - by rewrite decide_True.
  - destruct (decide (k = k1)) as [->|Hne]; simpl.
    + by rewrite decide_True.
    + by rewrite decide_False, IH.
Qed.

Lemma od_set_comm k v k2 v2 d :
  k ≠ k2 → k ∈ d.*1 →
  od_set k v (od_set k2 v2 d) = od_set k2 v2 (od_set k v d).
Proof.
  intros Hne. induction d as [|[a b] d IH]; [by intros ?%elem_of_nil|].
  rewrite fmap_cons. cbn [fst od_set]. intros Hin.
  destruct (decide (k = a)) as [->|Hka].
  - rewrite (decide_False (P := k2 = a)) by done. cbn [od_set].
    rewrite decide_True by done. by rewrite decide_False by done.
  - destruct (decide (k2 = a)) as [->|Hk2a]; cbn [od_set].
    + rewrite decide_False by done. by rewrite decide_True by done.
    + rewrite !decide_False by done. f_equal. apply IH.
      by apply elem_of_cons in Hin as [?|?].
Qed.

Lemma od_set_elem k v d : k ∈ (od_set k v d).*1.
Proof.
  rewrite od_set_keys. destruct (decide (k ∈ d.*1)); [done|].
  apply elem_of_app. right. apply list_elem_of_here.
Qed.

Lemma od_set_elem_mono k k' v d : k ∈ d.*1 → k ∈ (od_set k' v d).*1.
Proof.
  intros H. rewrite od_set_keys. destruct (decide (k' ∈ d.*1)); [done|].
  apply elem_of_app. by left.
Qed.

Lemma od_update_set_in k v dst src :
  k ∉ src.*1 → k ∈ dst.*1 →
  od_set k v (od_update dst src) = od_update (od_set k v dst) src.
Proof.
  unfold od_update. revert dst.
  induction src as [|[k2 v2] src IH]; intros dst Hsrc Hdst; [done|].
  rewrite fmap_cons in Hsrc. apply not_elem_of_cons in Hsrc as [Hne Hsrc].
  cbn [foldl fst snd]. rewrite IH by (done || by apply od_set_elem_mono).
  by rewrite od_set_comm.
Qed.

Lemma od_update_set k v dst src :
  NoDup src.*1 →
  od_update dst (od_set k v src) = od_set k v (od_update dst src).
Proof.
  revert dst. induction src as [|[k1 v1] src IH]; intros dst Hdup; [done|].
  rewrite fmap_cons in Hdup. apply NoDup_cons in Hdup as [Hk1 Hdup].
  cbn [od_set]. destruct (decide (k = k1)) as [->|Hne].
  - unfold od_update at 1 2. cbn [foldl fst snd].
    fold (od_update (od_set k1 v dst) src).
    fold (od_update (od_set k1 v1 dst) src).
    rewrite od_update_set_in by (done || apply od_set_elem).
    by rewrite od_set_set.
  - unfold od_update at 1 2. cbn [foldl fst snd].
    fold (od_update (od_set k1 v1 dst) (od_set k v src)).
    fold (od_update (od_set k1 v1 dst) src).
    by apply IH.
Qed.

Lemma for_each_snoc {A S} (body : S → A → result S) l x acc :
  for_each body (l ++ [x]) acc = acc' ← for_each body l acc; body acc' x.
Proof.
  rewrite for_each_app. destruct (for_each body l acc) as [acc'|e]; [|done].
  simpl. apply bind_Ok_r.
Qed.

(** One step of the classifier, seen from a dict that already has entries:
    the step does to [od_update acc temp] what it does to [temp]. *)
Lemma _parse_osm_nodes_paths_body_update s (acc temp : odict * odict) element :
  NoDup temp.1.*1 → NoDup temp.2.*1 →
  (temp' ← _parse_osm_nodes_paths_body s temp element;
   Ok (od_update acc.1 temp'.1, od_update acc.2 temp'.2)) =
  _parse_osm_nodes_paths_body s
    (od_update acc.1 temp.1, od_update acc.2 temp.2) element.
Proof.
  intros Hn Hp. destruct temp as [nodes paths]. cbn [fst snd] in *.
  unfold _parse_osm_nodes_paths_body.
  destruct (getitem element "type") as [ty|e]; [|done]. cbn [mbind result_bind].
  destruct (eq_str ty "node").
  { destruct (element_key element) as [key|e]; [|done]. cbn [mbind result_bind].
    destruct (_convert_node s element) as [node|e]; [|done].
    cbn [mbind result_bind fst snd]. by rewrite od_update_set. }
  destruct (eq_str ty "way"); [|done].
  destruct (element_key element) as [key|e]; [|done]. cbn [mbind result_bind].
  destruct (_convert_path s element) as [path|e]; [|done].
  cbn [mbind result_bind fst snd]. by rewrite od_update_set.
Qed.

Lemma _parse_osm_nodes_paths_body_NoDup s acc element acc' :
  NoDup acc.1.*1 ∧ NoDup acc.2.*1 →
  _parse_osm_nodes_paths_body s acc element = Ok acc' →
  NoDup acc'.1.*1 ∧ NoDup acc'.2.*1.
Proof.
  destruct acc as [nodes paths]. intros [Hn Hp] Hbody.
  unfold _parse_osm_nodes_paths_body in Hbody.
  apply bind_Ok in Hbody as (ty & _ & Hbody).
  destruct (eq_str ty "node").
  { apply bind_Ok in Hbody as (key & _ & Hbody).
    apply bind_Ok in Hbody as (node & _ & [= <-]).
    split; [by apply od_set_NoDup|done]. }
  destruct (eq_str ty "way").
  { apply bind_Ok in Hbody as (key & _ & Hbody).
    apply bind_Ok in Hbody as (path & _ & [= <-]).
    split; [done|by apply od_set_NoDup]. }
  by injection Hbody as <-.
Qed.

Lemma classify_from s (acc : odict * odict) elements :
  (temp ← for_each (_parse_osm_nodes_paths_body s) elements ([], []);
   Ok (od_update acc.1 temp.1, od_update acc.2 temp.2)) =
  for_each (_parse_osm_nodes_paths_body s) elements acc.
Proof.
  induction elements as [|element elements IH] using rev_ind.
  - by destruct acc.
  - rewrite !for_each_snoc, <- IH.
    destruct (for_each _ elements ([], [])) as [temp|e] eqn:Htemp; [|done].
    cbn [mbind result_bind].
    apply (for_each_invariant (λ acc : odict * odict,
                                 NoDup acc.1.*1 ∧ NoDup acc.2.*1)) in Htemp
      as [Hn Hp]; [|by intros; eapply _parse_osm_nodes_paths_body_NoDup
                   |by split; apply NoDup_nil].
    by apply _parse_osm_nodes_paths_body_update.
Qed.

Lemma body_node s nodes paths element :
  is_kind "node" element = true →
  _parse_osm_nodes_paths_body s (nodes, paths) element =
    key ← element_key element;
    node ← _convert_node s element;
    Ok (od_set key node nodes, paths).
Proof.
  unfold is_kind, _parse_osm_nodes_paths_body, getitem.
  destruct (element !! "type") as [ty|]; [|done]. simpl. by intros ->.
Qed.

Lemma body_way s nodes paths element :
  is_kind "node" element = false →
  is_kind "way" element = true →
  _parse_osm_nodes_paths_body s (nodes, paths) element =
    key ← element_key element;
    path ← _convert_path s element;
    Ok (nodes, od_set key path paths).
Proof.
  unfold is_kind, _parse_osm_nodes_paths_body, getitem.
  destruct (element !! "type") as [ty|]; [|done]. simpl. by intros -> ->.
Qed.

Lemma body_other s acc element :
  is_Some (element !! "type") →
  is_kind "node" element = false →
  is_kind "way" element = false →
  _parse_osm_nodes_paths_body s acc element = Ok acc.
Proof.
  unfold is_kind, _parse_osm_nodes_paths_body, getitem. destruct acc.
  intros [ty ->]. simpl. by intros -> ->.
Qed.

(** X8.  The classifier looks only at nodes and ways: an element of any
    other type (a relation, say) can be dropped from the response without
    changing the result, errors included. *)
Theorem classifier_skips_other_types s meta l1 element l2 :
  is_Some (element !! "type") →
  is_kind "node" element = false →
  is_kind "way" element = false →
  _parse_osm_nodes_paths s
    {| resp_meta := meta; resp_elements := l1 ++ element :: l2 |} =
  _parse_osm_nodes_paths s {| resp_meta := meta; resp_elements := l1 ++ l2 |}.
Proof.
  intros Hty Hnode Hway. unfold _parse_osm_nodes_paths. simpl.
  rewrite !for_each_app.
  destruct (for_each _ l1 _) as [acc|e]; [|done]. simpl.
  by rewrite body_other.
Qed.

Lemma classifier_skips_other_types_witness :
  _parse_osm_nodes_paths settings_osm
    {| resp_meta := ∅;
       resp_elements := [node_42 "crossing"] ++ {["type" := VStr "relation"]}
                        :: [way_7] |} =
  _parse_osm_nodes_paths settings_osm
    {| resp_meta := ∅; resp_elements := [node_42 "crossing"] ++ [way_7] |}.
Proof.
  apply (classifier_skips_other_types settings_osm ∅ [node_42 "crossing"]
           {["type" := VStr "relation"]} [way_7]);
    [by eexists | reflexivity | reflexivity].
Defined.

Lemma for_each_prefix_invariant {A S} (P : list A → S → Prop)
    (body : S → A → result S) l acc r :
  P [] acc →
  (∀ pre x a a', P pre a → body a x = Ok a' → P (pre ++ [x]) a') →
  for_each body l acc = Ok r → P l r.
Proof.
  intros Hacc Hstep. revert r. induction l as [|x l IH] using rev_ind; intros r.
  - by intros [= <-].
  - rewrite for_each_snoc. intros (a & Ha & Hx)%bind_Ok. eauto.
Qed.

Lemma snoc_split {A} (pre : list A) x l1 e l2 :
  pre ++ [x] = l1 ++ e :: l2 →
  (l2 = [] ∧ pre = l1 ∧ x = e) ∨ ∃ l2', l2 = l2' ++ [x] ∧ pre = l1 ++ e :: l2'.
Proof.
  destruct l2 as [|y l2 _] using rev_ind.
  - intros [-> ->]%app_inj_tail. by left.
  - rewrite app_comm_cons, app_assoc. intros [-> ->]%app_inj_tail.
    right. by exists l2.
Qed.

(** What one step does to the two dicts, kind by kind. *)
Lemma body_cases s nodes paths element nodes' paths' :
  _parse_osm_nodes_paths_body s (nodes, paths) element = Ok (nodes', paths') →
  (is_kind "node" element = true
   ∧ ∃ key node, element_key element = Ok key ∧ _convert_node s element = Ok node
                 ∧ nodes' = od_set key node nodes ∧ paths' = paths)
  ∨ (is_kind "node" element = false ∧ is_kind "way" element = true
     ∧ ∃ key path, element_key element = Ok key ∧ _convert_path s element = Ok path
                   ∧ nodes' = nodes ∧ paths' = od_set key path paths)
  ∨ (is_kind "node" element = false ∧ is_kind "way" element = false
     ∧ nodes' = nodes ∧ paths' = paths).
Proof.
  intros Hbody.
  destruct (is_kind "node" element) eqn:Hnode;
    [|destruct (is_kind "way" element) eqn:Hway].
  - left. split; [done|]. rewrite body_node in Hbody by done.
    apply bind_Ok in Hbody as (key & Hkey & Hbody).
    apply bind_Ok in Hbody as (node & Hconv & [= <- <-]). by exists key, node.
  - right. left. do 2 (split; [done|]). rewrite body_way in Hbody by done.
    apply bind_Ok in Hbody as (key & Hkey & Hbody).
    apply bind_Ok in Hbody as (path & Hconv & [= <- <-]). by exists key, path.
  - right. right. do 2 (split; [done|]).
    unfold _parse_osm_nodes_paths_body in Hbody.
    apply bind_Ok in Hbody as (ty & Hty & Hbody).
    unfold is_kind, getitem in *. destruct (element !! "type"); [|done].
    injection Hty as ->. rewrite Hnode, Hway in Hbody. by injection Hbody.
Qed.

Lemma is_kind_way_not_node element :
  is_kind "way" element = true → is_kind "node" element = false.
Proof.
  unfold is_kind, eq_str. destruct (element !! "type") as [[]|]; try done.
  intros ->%bool_decide_eq_true. done.
Qed.

Section keyed.
(** One of the two dicts of the classifier: the elements of [kind] set
    their key in [proj acc], the others leave it alone. *)
Variable s : settings.
Variable kind : string.
Variable conv : pydict → result pydict.
Variable proj : odict * odict → odict.
Hypothesis proj_step : ∀ acc x acc',
  _parse_osm_nodes_paths_body s acc x = Ok acc' →
  (is_kind kind x = true
   ∧ ∃ key v, element_key x = Ok key ∧ conv x = Ok v
              ∧ proj acc' = od_set key v (proj acc))
  ∨ (is_kind kind x = false ∧ proj acc' = proj acc).
Hypothesis proj_init : proj ([], []) = [].

Lemma keyed_keys elements r k :
  for_each (_parse_osm_nodes_paths_body s) elements ([], []) = Ok r →
  k ∈ (proj r).*1
  ↔ ∃ e, e ∈ elements ∧ is_kind kind e = true ∧ element_key e = Ok k.
Proof.
  intros Hrun.
  refine (for_each_prefix_invariant
            (λ pre acc, k ∈ (proj acc).*1
                        ↔ ∃ e, e ∈ pre ∧ is_kind kind e = true
                               ∧ element_key e = Ok k)
            _ elements ([], []) r _ _ Hrun).
  - rewrite proj_init. split; [by intros ?%elem_of_nil|].
    by intros (e & ?%elem_of_nil & _).
  - intros pre x a a' IH Hx.
    apply proj_step in Hx as [(Hkind & key & v & Hkey & _ & ->)|(Hkind & ->)].
    + rewrite od_set_keys. split.
      * intros Hin.
        assert (k ∈ (proj a).*1 ∨ k = key) as [Hk| ->].
        { destruct (decide (key ∈ (proj a).*1)); [by left|].
          apply elem_of_app in Hin as [?|?%list_elem_of_singleton]; auto. }
        -- apply IH in Hk as (e & He & ?). exists e. split; [|done].
           apply elem_of_app. by left.
        -- exists x. split; [|done]. apply elem_of_app. right. in_list.
      * intros (e & [He| ->%list_elem_of_singleton]%elem_of_app & Hk & Hkey').
        -- assert (k ∈ (proj a).*1) by (apply IH; eauto).
           destruct (decide (key ∈ (proj a).*1)); [done|].
           apply elem_of_app. by left.
        -- assert (k = key) as -> by congruence.
           destruct (decide (key ∈ (proj a).*1)); [done|].
           apply elem_of_app. right. in_list.
    + rewrite IH. split.
      * intros (e & He & ?). exists e. split; [|done]. apply elem_of_app. by left.
      * intros (e & [He| ->%list_elem_of_singleton]%elem_of_app & Hk & Hkey');
          [by eauto|congruence].
Qed.

Lemma keyed_last elements r l1 e l2 k :
  for_each (_parse_osm_nodes_paths_body s) elements ([], []) = Ok r →
  elements = l1 ++ e :: l2 →
  is_kind kind e = true →
  element_key e = Ok k →
  (∀ e', e' ∈ l2 → is_kind kind e' = true → element_key e' ≠ Ok k) →
  ∃ v, conv e = Ok v ∧ od_get k (proj r) = Some v.
Proof.
  intros Hrun. revert l1 e l2 k.
  refine (for_each_prefix_invariant
           (λ pre acc, ∀ l1 e l2 k,
              pre = l1 ++ e :: l2 → is_kind kind e = true →
              element_key e = Ok k →
              (∀ e', e' ∈ l2 → is_kind kind e' = true → element_key e' ≠ Ok k) →
              ∃ v, conv e = Ok v ∧ od_get k (proj acc) = Some v)
           _ elements ([], []) r _ _ Hrun).
  - intros l1 e l2 k H. by destruct l1.
  - intros pre x a a' IH Hx l1 e l2 k Hsplit Hkind Hkey Hlater.
    apply snoc_split in Hsplit as [(-> & -> & ->)|(l2' & -> & ->)].
    + apply proj_step in Hx as [(_ & key & v & Hkey' & Hconv & ->)|(? & _)];
        [|congruence].
      assert (key = k) as -> by congruence.
      exists v. split; [done|]. by rewrite od_get_set, decide_True.
    + destruct (IH l1 e l2' k eq_refl Hkind Hkey) as (v & Hconv & Hget).
      { intros e' He'. apply Hlater, elem_of_app. by left. }
      exists v. split; [done|].
      apply proj_step in Hx as [(Hkx & key & v' & Hkey' & _ & ->)|(_ & ->)];
        [|done].
      rewrite od_get_set, decide_False; [done|]. intros ->.
      eapply (Hlater x); [|done..]. apply elem_of_app. right. in_list.
Qed.
End keyed.

(** X9.  Within one response the classifier's node dict has as keys exactly
    the ids of the node elements, each once, and holds for each id the
    conversion of the last node element with that id; likewise the path
    dict for the way elements. *)
Theorem classifier_last_element_wins s osm_data nodes paths :
  _parse_osm_nodes_paths s osm_data = Ok (nodes, paths) →
  NoDup nodes.*1 ∧ NoDup paths.*1
  ∧ (∀ k, k ∈ nodes.*1
          ↔ ∃ e, e ∈ resp_elements osm_data ∧ is_kind "node" e = true
                 ∧ element_key e = Ok k)
  ∧ (∀ k, k ∈ paths.*1
          ↔ ∃ e, e ∈ resp_elements osm_data ∧ is_kind "way" e = true
                 ∧ element_key e = Ok k)
  ∧ (∀ l1 e l2 k,
        resp_elements osm_data = l1 ++ e :: l2 →
        is_kind "node" e = true → element_key e = Ok k →
        (∀ e', e' ∈ l2 → is_kind "node" e' = true → element_key e' ≠ Ok k) →
        ∃ node, _convert_node s e = Ok node ∧ od_get k nodes = Some node)
  ∧ (∀ l1 e l2 k,
        resp_elements osm_data = l1 ++ e :: l2 →
        is_kind "way" e = true → element_key e = Ok k →
        (∀ e', e' ∈ l2 → is_kind "way" e' = true → element_key e' ≠ Ok k) →
        ∃ path, _convert_path s e = Ok path ∧ od_get k paths = Some path).
Proof.
  intros Hparse.
  assert (Hn : ∀ acc x acc',
             _parse_osm_nodes_paths_body s acc x = Ok acc' →
             (is_kind "node" x = true
              ∧ ∃ key v, element_key x = Ok key ∧ _convert_node s x = Ok v
                         ∧ acc'.1 = od_set key v acc.1)
             ∨ (is_kind "node" x = false ∧ acc'.1 = acc.1)).
  { intros [n p] x [n' p'] Hx.
    apply body_cases in Hx
      as [(? & key & v & ? & ? & -> & ->)
         |[(? & ? & key & v & ? & ? & -> & ->)|(? & ? & -> & ->)]];
      [left; split; [done|]; by exists key, v|by right..]. }
  assert (Hw : ∀ acc x acc',
             _parse_osm_nodes_paths_body s acc x = Ok acc' →
             (is_kind "way" x = true
              ∧ ∃ key v, element_key x = Ok key ∧ _convert_path s x = Ok v
                         ∧ acc'.2 = od_set key v acc.2)
             ∨ (is_kind "way" x = false ∧ acc'.2 = acc.2)).
  { intros [n p] x [n' p'] Hx.
    apply body_cases in Hx
      as [(Hk & key & v & ? & ? & -> & ->)
         |[(? & ? & key & v & ? & ? & -> & ->)|(? & ? & -> & ->)]].
    - right. split; [|done].
      destruct (is_kind "way" x) eqn:E; [|done].
      apply is_kind_way_not_node in E. congruence.
    - left. split; [done|]. by exists key, v.
    - by right. }
  pose proof (_parse_osm_nodes_paths_NoDup _ _ _ _ Hparse) as [Hdn Hdp].
  unfold _parse_osm_nodes_paths in Hparse.
  split; [done|]. split; [done|]. split; [|split; [|split]].
  - intros k. apply (keyed_keys s "node" (_convert_node s) fst Hn eq_refl _ _ k Hparse).
  - intros k. apply (keyed_keys s "way" (_convert_path s) snd Hw eq_refl _ _ k Hparse).
  - intros l1 e l2 k.
    apply (keyed_last s "node" (_convert_node s) fst Hn _ _ l1 e l2 k Hparse).
  - intros l1 e l2 k.
    apply (keyed_last s "way" (_convert_path s) snd Hw _ _ l1 e l2 k Hparse).
Qed.

Lemma classifier_last_element_wins_witness :
  ∃ node,
    _convert_node settings_osm (node_42 "traffic_signals") = Ok node
    ∧ od_get 42 [(42, record_42 "traffic_signals")] = Some node.
Proof.
  destruct (classifier_last_element_wins settings_osm
              {| resp_meta := ∅;
                 resp_elements := [node_42 "crossing"; node_42 "traffic_signals"] |}
              [(42, record_42 "traffic_signals")] [] eq_refl)
    as (_ & _ & _ & _ & Hlast & _).
  apply (Hlast [node_42 "crossing"] (node_42 "traffic_signals") [] 42);
    [reflexivity | reflexivity | reflexivity |].
  by intros e' ?%elem_of_nil.
Defined.

(** ** Graph assembly, continued *)

Lemma missing_key_body s acc element k :
  missing_key element = Some k →
  _parse_osm_nodes_paths_body s acc element = Raise (KeyError k).
Proof.
  unfold missing_key. destruct acc as [nodes paths].
  destruct (element !! "type") as [ty|] eqn:Hty.
  2:{ intros [= <-]. unfold _parse_osm_nodes_paths_body, getitem. by rewrite Hty. }
  destruct (is_kind "node" element) eqn:Hnode.
  { rewrite body_node by done. unfold element_key, _convert_node, getitem.
    destruct (element !! "id") as [[]|]; try done; [|by intros [= <-]].
    cbn [mbind result_bind]. case_bool_decide as Hlat.
    { intros [= <-]. by rewrite Hlat. }
    case_bool_decide as Hlon; [|done]. intros [= <-].
    destruct (element !! "lat"); [|done]. by rewrite Hlon. }
  destruct (is_kind "way" element) eqn:Hway; [|done].
  rewrite body_way by done. unfold element_key, _convert_path, getitem.
  destruct (element !! "id") as [[]|]; try done; [|by intros [= <-]].
  cbn [mbind result_bind]. case_bool_decide as Hnodes; [|done].
  intros [= <-]. by rewrite Hnodes.
Qed.

Lemma well_shaped_body s acc element :
  well_shaped element = true →
  ∃ acc', _parse_osm_nodes_paths_body s acc element = Ok acc'.
Proof.
  unfold well_shaped. destruct acc as [nodes paths].
  destruct (element !! "type") as [ty|] eqn:Hty; [|done].
  assert (Htags : tags_ok element = true → ∃ ot, element_tags element = Ok ot).
  { unfold tags_ok, element_tags. destruct (element !! "tags") as [[]|]; by eauto. }
  destruct (is_kind "node" element) eqn:Hnode.
  { intros (((Hid & [lat Hlat]%bool_decide_eq_true)%andb_prop
             & [lon Hlon]%bool_decide_eq_true)%andb_prop
            & [ot Hot]%Htags)%andb_prop.
    rewrite body_node by done. unfold has_int in Hid.
    unfold element_key, _convert_node, getitem.
    destruct (element !! "id") as [[]|]; try done.
    rewrite Hlat, Hlon. cbn [mbind result_bind]. rewrite Hot.
    cbn [mbind result_bind]. destruct ot; by eexists. }
  destruct (is_kind "way" element) eqn:Hway.
  2:{ intros _. rewrite body_other; by eauto. }
  intros ((Hid & Hrefs)%andb_prop & [ot Hot]%Htags)%andb_prop.
  rewrite body_way by done. unfold has_int in Hid. unfold has_node_refs in Hrefs.
  unfold element_key, _convert_path, getitem.
  destruct (element !! "id") as [[]|]; try done.
  destruct (element !! "nodes") as [[]|]; try done.
  cbn [mbind result_bind]. rewrite Hot.
  cbn [mbind result_bind]. destruct ot; by eexists.
Qed.

Lemma well_shaped_classified s elements acc :
  Forall (λ e, well_shaped e = true) elements →
  ∃ r, for_each (_parse_osm_nodes_paths_body s) elements acc = Ok r.
Proof.
  intros Hall.
  destruct (for_each_succeeds (λ _, True) (_parse_osm_nodes_paths_body s)
              elements acc) as (r & Hr & _); [|done|by eauto].
  intros a x Hx _. rewrite Forall_forall in Hall.
  destruct (well_shaped_body s a x (Hall x Hx)) as [a' ->]. by eauto.
Qed.

(** X10.  When the elements before it are of the Overpass shape, the first
    element that lacks a key the classifier reads makes it raise [KeyError]
    for that key: 'type'; then, for a node, 'id', 'lat', 'lon' in this
    order; for a way, 'id', then 'nodes'. *)
Theorem classifier_missing_key s meta l1 element l2 k :
  Forall (λ e, well_shaped e = true) l1 →
  missing_key element = Some k →
  _parse_osm_nodes_paths s
    {| resp_meta := meta; resp_elements := l1 ++ element :: l2 |} =
    Raise (KeyError k).
Proof.
  intros Hl1 Hmissing. unfold _parse_osm_nodes_paths. simpl.
  rewrite for_each_app.
  destruct (well_shaped_classified s l1 ([], []) Hl1) as [acc ->]. simpl.
  by rewrite (missing_key_body s acc element k Hmissing).
Qed.

Lemma classifier_missing_key_witness :
  _parse_osm_nodes_paths settings_osm
    {| resp_meta := ∅;
       resp_elements := [way_7] ++ delete "lat" (delete "lon" (node_42 "crossing"))
                        :: [node_42 "crossing"] |} =
    Raise (KeyError "lat").
Proof.
  apply (classifier_missing_key settings_osm ∅ [way_7]
           (delete "lat" (delete "lon" (node_42 "crossing")))
           [node_42 "crossing"] "lat");
    [by repeat constructor | reflexivity].
Defined.

Lemma merge_responses_joined s response_jsons :
  merge_responses s response_jsons =
    _parse_osm_nodes_paths s (joined response_jsons).
Proof.
  unfold _parse_osm_nodes_paths, joined. cbn [resp_elements].
  induction response_jsons as [|r rs IH] using rev_ind; [done|].
  rewrite merge_responses_snoc, IH, fmap_app, concat_app, for_each_app.
  cbn [fmap list_fmap concat]. rewrite app_nil_r.
  destruct (for_each _ (concat _) _) as [merged|e]; [|done].
  cbn [mbind result_bind]. apply classify_from.
Qed.

Lemma touch_node_mono n (nodes : gmap Z pydict) k :
  is_Some (nodes !! k) → is_Some (touch_node n nodes !! k).
Proof. intros [d Hd]. exists d. by apply touch_node_lookup. Qed.

Lemma touch_node_self n (nodes : gmap Z pydict) :
  is_Some (touch_node n nodes !! n).
Proof.
  unfold touch_node. destruct (nodes !! n) eqn:Hn; [by rewrite Hn|].
  rewrite lookup_insert_eq. by eexists.
Qed.

Lemma touch_node_cases n (nodes : gmap Z pydict) k :
  touch_node n nodes !! k = nodes !! k
  ∨ (nodes !! k = None ∧ touch_node n nodes !! k = Some ∅).
Proof.
  unfold touch_node. destruct (nodes !! n) eqn:Hn; [by left|].
  destruct (decide (n = k)) as [->|Hne].
  - right. by rewrite lookup_insert_eq.
  - left. by rewrite lookup_insert_ne.
Qed.

(** A property of graphs that adding an edge keeps is kept by every loop
    that only adds edges. *)
Lemma add_edges_from_preserves (P : MultiDiGraph → Prop) G es attr :
  (∀ G u v a, P G → P (add_edge G u v a)) →
  P G → P (add_edges_from G es attr).
Proof.
  intros Hadd. unfold add_edges_from. revert G.
  induction es as [|[u v] es IH]; intros G HG; [done|].
  cbn [foldl]. by apply IH, Hadd.
Qed.

Lemma _add_path_preserves (P : MultiDiGraph → Prop) s G data one_way G' attr :
  (∀ G u v a, P G → P (add_edge G u v a)) →
  P G → _add_path s G data one_way = Ok (G', attr) → P G'.
Proof.
  intros Hadd HG. unfold _add_path. intros (path_nodes & _ & H)%bind_Ok.
  destruct path_nodes; try done. injection H as <- _.
  destruct one_way; simpl; by repeat apply add_edges_from_preserves.
Qed.

Lemma _add_paths_body_preserves (P : MultiDiGraph → Prop) s b G data G' attr :
  (∀ G u v a, P G → P (add_edge G u v a)) →
  P G → _add_paths_body s b G data = Ok (G', attr) → P G'.
Proof.
  intros Hadd HG. unfold _add_paths_body.
  destruct (all_oneway s); [by apply _add_path_preserves|].
  destruct (tagged_oneway data && negb b).
  { intros (data' & _ & H)%bind_Ok. by eapply _add_path_preserves. }
  destruct (tagged_roundabout data && negb b); by apply _add_path_preserves.
Qed.

Lemma _add_paths_preserves (P : MultiDiGraph → Prop) s G paths b G' :
  (∀ G u v a, P G → P (add_edge G u v a)) →
  P G → _add_paths s G paths b = Ok G' → P G'.
Proof.
  intros Hadd HG H.
  apply (for_each_invariant P) in H; [done| |done].
  intros G1 data G2 _ HG1 ([G3 attr] & Hbody & [= <-])%bind_Ok.
  by eapply _add_paths_body_preserves.
Qed.

Lemma add_nodes_preserves (P : MultiDiGraph → Prop) G nodes :
  (∀ G n a, P G → P (add_node G n a)) → P G → P (add_nodes G nodes).
Proof.
  intros Hadd. unfold add_nodes. revert G.
  induction nodes as [|[k d] nodes IH]; intros G HG; [done|].
  cbn [foldl]. by apply IH, Hadd.
Qed.





Lemma add_nodes_edges G nodes : edges (add_nodes G nodes) = edges G.
Proof.
  apply (add_nodes_preserves (λ G', edges G' = edges G)); [|done].
  by intros G' n a <-.
Qed.

Lemma joined_singleton response_jsons :
  joined [joined response_jsons] = joined response_jsons.
Proof. unfold joined. simpl. by rewrite app_nil_r. Qed.

Section create_graph_more.
Variable ts : string.
Variable __version__ : string.
Variable get_largest_component : MultiDiGraph → MultiDiGraph.
Variable add_edge_lengths : MultiDiGraph → MultiDiGraph.

Lemma assemble_preserves (P : MultiDiGraph → Prop) s response_jsons b G :
  P (empty_graph ts __version__ s) →
  (∀ G n a, P G → P (add_node G n a)) →
  (∀ G u v a, P G → P (add_edge G u v a)) →
  assemble ts __version__ s response_jsons b = Ok G → P G.
Proof.
  intros Hempty Hnode Hedge. unfold assemble.
  intros (merged & _ & Hadd)%bind_Ok.
  eapply _add_paths_preserves; [exact Hedge| |exact Hadd].
  by apply add_nodes_preserves.
Qed.

(** X11.  Where one response ends and the next begins does not matter: the
    merge of the responses is the classification of their concatenated
    element lists, and [_create_graph] gives the same result, errors
    included, on the responses and on one response holding all their
    elements in order. *)
Theorem create_graph_joined s response_jsons retain_all bidirectional :
  merge_responses s response_jsons =
    _parse_osm_nodes_paths s (joined response_jsons)
  ∧ _create_graph ts __version__ get_largest_component add_edge_lengths
      s response_jsons retain_all bidirectional =
    _create_graph ts __version__ get_largest_component add_edge_lengths
      s [joined response_jsons] retain_all bidirectional.
Proof.
  split; [apply merge_responses_joined|].
  unfold _create_graph, assemble, all_elements.
  rewrite (merge_responses_joined s [joined response_jsons]), joined_singleton.
  rewrite merge_responses_joined.
  cbn [fmap list_fmap concat joined resp_elements]. by rewrite app_nil_r.
Qed.


(** X13.  Elements that are neither nodes nor ways still count as data: a
    response made of such elements only (relations, say) does not raise
    [EmptyOverpassResponse]; with [retain_all] the result is the graph
    without nodes and edges that carries only the three graph
    attributes. *)
Theorem create_graph_other_types_only s response_jsons bidirectional :
  all_elements response_jsons ≠ [] →
  Forall (λ e, is_Some (e !! "type") ∧ is_kind "node" e = false
               ∧ is_kind "way" e = false) (all_elements response_jsons) →
  _create_graph ts __version__ get_largest_component add_edge_lengths
    s response_jsons true bidirectional = Ok (empty_graph ts __version__ s).
Proof.
  intros Hne Hother. unfold _create_graph.
  destruct (all_elements response_jsons) as [|e els] eqn:Hels; [done|].
  cbn [length Nat.ltb Nat.leb].
  assert (Hmerge : merge_responses s response_jsons = Ok ([], [])).
  { rewrite merge_responses_joined. unfold _parse_osm_nodes_paths, joined.
    cbn [resp_elements]. unfold all_elements in Hels. rewrite Hels.
    clear Hels Hne. generalize (@nil (Z * pydict), @nil (Z * pydict)).
    induction Hother as [|x l (Hty & Hn & Hw) _ IH]; intros acc; [done|].
    cbn [for_each]. rewrite body_other by done. apply IH. }
  unfold assemble. rewrite Hmerge. by cbn.
Qed.


(** X15.  In the assembled graph a node that some node element describes
    carries exactly its merged record; any other node of the graph was
    brought in by a way that refers to it and has no attribute at all, in
    particular no coordinates.  The nodes of the graph are the ids of the
    merged node elements and the endpoints of the edges. *)
Theorem assembled_graph_nodes s response_jsons bidirectional nodes paths G :
  merge_responses s response_jsons = Ok (nodes, paths) →
  assemble ts __version__ s response_jsons bidirectional = Ok G →
  (∀ k, _node G !! k = od_get k nodes
        ∨ (od_get k nodes = None ∧ _node G !! k = Some ∅))
  ∧ (∀ k, is_Some (_node G !! k)
          ↔ k ∈ nodes.*1 ∨ ∃ e, e ∈ edges G ∧ (e_u e = k ∨ e_v e = k)).
Proof.
  intros Hmerge. unfold assemble. rewrite Hmerge. cbn [mbind result_bind fst snd].
  intros Hadd.
  pose proof (merge_responses_NoDup _ _ _ _ Hmerge) as [Hdup _].
  assert (Hstart : ∀ k, _node (add_nodes (empty_graph ts __version__ s) nodes) !! k
                        = od_get k nodes).
  { intros k. rewrite add_nodes_lookup; [|done|done].
    simpl. rewrite lookup_empty. by destruct (od_get k nodes). }
  assert (Hin : ∀ k, is_Some (od_get k nodes) ↔ k ∈ nodes.*1).
  { intros k. clear. induction nodes as [|[k1 d1] l IH]; simpl.
    - split; [by intros [? ?]|by intros ?%elem_of_nil].
    - destruct (decide (k = k1)) as [->|Hne].
      + split; [intros _; apply list_elem_of_here|by eauto].
      + rewrite IH, elem_of_cons. split; [by right|by intros [?|?]]. }
  split.
  - eapply (_add_paths_preserves
              (λ G, ∀ k, _node G !! k = od_get k nodes
                         ∨ (od_get k nodes = None ∧ _node G !! k = Some ∅)));
      [|by left|exact Hadd].
    intros G' u v a HG' k. simpl.
    destruct (touch_node_cases v (touch_node u (_node G')) k) as [->|[Hv ->]],
      (touch_node_cases u (_node G') k) as [Hu|[Hu Hu']];
      rewrite ?Hu; try apply HG'.
    + right. split; [|done]. destruct (HG' k) as [H|[H _]]; congruence.
    + right. split; [|done]. rewrite Hu in Hv.
      destruct (HG' k) as [H|[H _]]; congruence.
    + congruence.
  - eapply (_add_paths_preserves
              (λ G, ∀ k, is_Some (_node G !! k)
                         ↔ k ∈ nodes.*1
                           ∨ ∃ e, e ∈ edges G ∧ (e_u e = k ∨ e_v e = k)));
      [| |exact Hadd].
    + intros G' u v a HG' k. simpl. split.
      * intros Hk.
        destruct (decide (k = u)) as [->|Hku];
          [right; eexists; split; [apply elem_of_app; right; in_list|by left]|].
        destruct (decide (k = v)) as [->|Hkv];
          [right; eexists; split; [apply elem_of_app; right; in_list|by right]|].
        assert (is_Some (_node G' !! k)) as [?|(e & He & Hek)]%HG'.
        { unfold touch_node in Hk.
          repeat (case_match; rewrite ?lookup_insert_ne in Hk by done);
            done. }
        -- by left.
        -- right. exists e. split; [|done]. apply elem_of_app. by left.
      * intros [Hk|(e & [He| ->%list_elem_of_singleton]%elem_of_app & Hek)].
        -- do 2 apply touch_node_mono. apply HG'. by left.
        -- do 2 apply touch_node_mono. apply HG'. right. by exists e.
        -- simpl in Hek. destruct Hek as [<-|<-].
           ++ apply touch_node_mono, touch_node_self.
           ++ apply touch_node_self.
    + intros k. rewrite Hstart, Hin, add_nodes_edges. simpl. split; [by left|].
      intros [?|(e & ?%elem_of_nil & _)]; done.
Qed.

(** X16.  The assembled graph carries the three graph attributes set when
    the graph is created, and nothing in the assembly changes them:
    'created_date', 'created_with' ("OSMnx " and the version) and 'crs'
    (the default CRS of the settings). *)
Theorem assembled_graph_metadata s response_jsons bidirectional G :
  assemble ts __version__ s response_jsons bidirectional = Ok G →
  graph G !! "created_date" = Some (VStr ts)
  ∧ graph G !! "created_with" = Some (VStr ("OSMnx " +:+ __version__))
  ∧ graph G !! "crs" = Some (VStr (default_crs s))
  ∧ dom (graph G) = {["created_date"; "created_with"; "crs"]}.
Proof.
  intros HG.
  assert (Hgraph : graph G = graph (empty_graph ts __version__ s)).
  { eapply (assemble_preserves
              (λ G, graph G = graph (empty_graph ts __version__ s)));
      [done|by intros G' n a|by intros G' u v a|exact HG]. }
  rewrite Hgraph. simpl.
  split; [by simplify_map_eq|]. split; [by simplify_map_eq|].
  split; [by simplify_map_eq|].
  rewrite !dom_insert_L, dom_empty_L. set_solver.
Qed.
End create_graph_more.


Lemma create_graph_other_types_only_witness :
  _create_graph "2020-05-01 12:00:00" "0.13" (λ G, G) (λ G, G)
    settings_osm [response_relation] true false =
    Ok (empty_graph "2020-05-01 12:00:00" "0.13" settings_osm).
Proof.
  apply (create_graph_other_types_only "2020-05-01 12:00:00" "0.13"
           (λ G, G) (λ G, G) settings_osm [response_relation] false).
  - done.
  - repeat constructor. by eexists.
Defined.


Lemma assembled_graph_nodes_witness :
  ∃ G, assemble "2020-05-01 12:00:00" "0.13" settings_osm [response_42_7] false
       = Ok G
       ∧ (∀ k, _node G !! k = od_get k [(42, record_42 "crossing")]
               ∨ (od_get k [(42, record_42 "crossing")] = None
                  ∧ _node G !! k = Some ∅))
       ∧ (∀ k, is_Some (_node G !! k)
               ↔ k ∈ [(42, record_42 "crossing")].*1
                 ∨ ∃ e, e ∈ edges G ∧ (e_u e = k ∨ e_v e = k)).
Proof.
  eexists. split; [reflexivity|].
  apply (assembled_graph_nodes "2020-05-01 12:00:00" "0.13" settings_osm
           [response_42_7] false [(42, record_42 "crossing")]
           [(7, <["oneway" := VStr "yes"]>
                  (<["highway" := VStr "residential"]>
                     (<["nodes" := VNodes [1; 2]]> (<["osmid" := VInt 7]> ∅))))]);
    reflexivity.
Defined.

Lemma assembled_graph_metadata_witness :
  ∃ G, assemble "2020-05-01 12:00:00" "0.13" settings_osm [response_42_7] false
       = Ok G
       ∧ graph G !! "created_date" = Some (VStr "2020-05-01 12:00:00")
       ∧ graph G !! "created_with" = Some (VStr ("OSMnx " +:+ "0.13"))
       ∧ graph G !! "crs" = Some (VStr (default_crs settings_osm))
       ∧ dom (graph G) = {["created_date"; "created_with"; "crs"]}.
Proof.
  eexists. split; [reflexivity|].
  apply (assembled_graph_metadata "2020-05-01 12:00:00" "0.13" settings_osm
           [response_42_7] false).
  reflexivity.
Defined.

(** The graph of [response_42_7] in full: node 42 with its record, the
    nodes 1 and 2 of the way without attributes, one edge. *)
Example assemble_example :
  assemble "2020-05-01 12:00:00" "0.13" settings_osm [response_42_7] false =
    Ok {| graph := graph (empty_graph "2020-05-01 12:00:00" "0.13" settings_osm);
          _node := <[1 := ∅]> (<[2 := ∅]> (<[42 := record_42 "crossing"]> ∅));
          edges := [{| e_u := 1; e_v := 2; e_key := 0;
                       e_attr := <["oneway" := VBool true]>
                                   (<["highway" := VStr "residential"]>
                                      (<["osmid" := VInt 7]> ∅)) |}] |}.
Proof. reflexivity. Qed.

(** ** The XML normalizer, continued *)

Section sax_more.
Variable py_int : string → option Z.
Variable py_float : string → option spec_float.

(** X17.  On a plain document (no [tag] or [nd] outside a [node] or [way],
    no element nested in another element's place) the normalizer returns a
    batch exactly when the batch written by hand for the document exists;
    the two have the same elements in the same order, and so the same
    classification. *)
Theorem plain_document_normalized doc :
  plain_document doc = true →
  (∀ els,
      (∃ r, _overpass_json_from_file py_int py_float doc = Ok r
            ∧ resp_elements r = els)
      ↔ (∃ r, equivalent_json py_int py_float doc = Ok r
              ∧ resp_elements r = els))
  ∧ (∀ s r r',
        _overpass_json_from_file py_int py_float doc = Ok r →
        equivalent_json py_int py_float doc = Ok r' →
        _parse_osm_nodes_paths s r = _parse_osm_nodes_paths s r').
Proof.
  intros Hplain. split.
  - intros els. by apply normalizer_matches_equivalent_json.
  - intros s r r'. by apply plain_document_same_classification.
Qed.

Lemma inert_prefix_events pre h :
  forallb inert pre = true →
  for_each (handle py_int py_float) (flat_map sax_events pre) h = Ok h.
Proof.
  intros Hpre. apply inert_children_events; [|done].
  apply Forall_forall. intros c _ h'. apply inert_events.
Qed.

(** X18.  A [tag] or [nd] met before the first [node] or [way] makes the
    normalizer raise [TypeError]: [self._element] is still [None].  This is
    what happens to a file whose first elements are relations or
    changesets with tags. *)
Theorem tag_before_first_element root_attrs pre name attrs pre' t tattrs
    tchildren rest rest' :
  forallb inert pre = true →
  name ∉ ["osm"; "node"; "way"; "tag"; "nd"] →
  forallb inert pre' = true →
  t = "tag" ∨ t = "nd" →
  _overpass_json_from_file py_int py_float
    (XElement "osm" root_attrs
       (pre ++ XElement name attrs (pre' ++ XElement t tattrs tchildren :: rest)
            :: rest')) = Raise TypeError.
Proof.
  intros Hpre Hname Hpre' Ht. unfold _overpass_json_from_file.
  cbn [sax_events for_each handle]. unfold startElement at 1.
  rewrite (bool_decide_eq_true_2 ("osm" = "osm")) by done.
  cbn [mbind result_bind].
  rewrite flat_map_app, <- app_assoc, for_each_app, inert_prefix_events by done.
  cbn [mbind result_bind flat_map sax_events].
  rewrite <- !app_assoc. cbn [app for_each handle].
  rewrite startElement_other by done. cbn [mbind result_bind].
  rewrite flat_map_app, <- !app_assoc, for_each_app, inert_prefix_events by done.
  cbn [mbind result_bind flat_map sax_events app for_each handle].
  destruct Ht as [-> | ->]; reflexivity.
Qed.

End sax_more.

Lemma tag_before_first_element_witness :
  _overpass_json_from_file decimal_int (λ _, None)
    (XElement "osm" ∅
       ([XElement "bounds" ∅ []]
          ++ XElement "relation" {["id" := "9"]}
               ([XElement "member" {["type" := "way"; "ref" := "1"]} []]
                  ++ XElement "tag" {["k" := "name"; "v" := "Bus 5"]} [] :: [])
          :: [XElement "way" {["id" := "1"]} []])) = Raise TypeError.
Proof.
  apply (tag_before_first_element decimal_int (λ _, None) ∅
           [XElement "bounds" ∅ []] "relation" {["id" := "9"]}
           [XElement "member" {["type" := "way"; "ref" := "1"]} []]
           "tag" {["k" := "name"; "v" := "Bus 5"]} [] []
           [XElement "way" {["id" := "1"]} []]).
  - reflexivity.
  - vm_compute. intros H.
    repeat (inversion H as [|??? H']; clear H; rename H' into H).
  - reflexivity.
  - by left.
Defined.

Lemma plain_document_normalized_witness :
  (∀ els,
      (∃ r, _overpass_json_from_file decimal_int (λ _, None) doc_plain = Ok r
            ∧ resp_elements r = els)
      ↔ (∃ r, equivalent_json decimal_int (λ _, None) doc_plain = Ok r
              ∧ resp_elements r = els))
  ∧ (∀ s r r',
        _overpass_json_from_file decimal_int (λ _, None) doc_plain = Ok r →
        equivalent_json decimal_int (λ _, None) doc_plain = Ok r' →
        _parse_osm_nodes_paths s r = _parse_osm_nodes_paths s r').
Proof.
  apply (plain_document_normalized decimal_int (λ _, None) doc_plain).
  reflexivity.
Defined.

Lemma update_converted_result {A} (conv : string → option A) (inj : A → value)
    keys attrs (el el' : pydict) :
  update_converted conv inj keys attrs el = Ok el' →
  (∀ k sv, k ∈ keys → attrs !! k = Some sv → is_Some (conv sv))
  ∧ ∀ k, el' !! k =
      if decide (k ∈ keys)
      then match attrs !! k with
           | Some sv => inj <$> conv sv
           | None => el !! k
           end
      else el !! k.
Proof.
  unfold update_converted. revert el.
  induction keys as [|key keys IH]; intros el.
  - intros [= <-]. split; [by intros ?? ?%elem_of_nil|done].
  - cbn [for_each]. intros (el1 & Hstep & Hrest)%bind_Ok.
    apply IH in Hrest as [Hok Hlook].
    assert (Hkey : (∀ sv, attrs !! key = Some sv → is_Some (conv sv))
                   ∧ ∀ k, el1 !! k =
                       if decide (k = key)
                       then match attrs !! k with
                            | Some sv => inj <$> conv sv
                            | None => el !! k
                            end
                       else el !! k).
    { destruct (attrs !! key) as [sv|] eqn:Hsv.
      - destruct (conv sv) as [a|] eqn:Ha; [|done]. injection Hstep as <-.
        split; [by intros ? [= <-]; eauto|]. intros k.
        destruct (decide (k = key)) as [->|Hne].
        + by rewrite lookup_insert_eq, Hsv, Ha.
        + by rewrite lookup_insert_ne.
      - injection Hstep as <-. split; [done|]. intros k.
        destruct (decide (k = key)) as [->|Hne]; [by rewrite Hsv|done]. }
    destruct Hkey as [Hkey Hel1]. split.
    + intros k sv [->|Hin]%elem_of_cons; [apply Hkey|by apply Hok].
    + intros k. rewrite Hlook, Hel1.
      destruct (decide (k = key)) as [->|Hne].
      * rewrite (decide_True (P := key ∈ key :: keys)) by apply list_elem_of_here.
        destruct (decide (key ∈ keys)); [|done]. by destruct (attrs !! key).
      * destruct (decide (k ∈ keys)) as [Hin|Hnin].
        -- by rewrite decide_True by by apply list_elem_of_further.
        -- rewrite decide_False; [done|]. by intros [?|?]%elem_of_cons.
Qed.

Lemma update_converted_succeeds {A} (conv : string → option A) (inj : A → value)
    keys attrs (el : pydict) :
  (∀ k sv, k ∈ keys → attrs !! k = Some sv → is_Some (conv sv)) →
  ∃ el', update_converted conv inj keys attrs el = Ok el'.
Proof.
  intros Hok.
  destruct (for_each_succeeds (λ _ : pydict, True)
              (λ (el : pydict) k,
                 match attrs !! k with
                 | None => Ok el
                 | Some sv => match conv sv with
                              | Some a => Ok (<[k := inj a]> el)
                              | None => Raise ValueError
                              end
                 end) keys el) as (el' & H & _); [|done|by eauto].
  intros d k Hk _. destruct (attrs !! k) as [sv|] eqn:Hsv; [|by eauto].
  destruct (Hok k sv Hk Hsv) as [a ->]. by eauto.
Qed.

Lemma reserved_attributes (attrs : gmap string string) :
  bool_decide (is_Some (attrs !! "type"))
  || bool_decide (is_Some (attrs !! "tags"))
  || bool_decide (is_Some (attrs !! "nodes")) = false
  ↔ attrs !! "type" = None ∧ attrs !! "tags" = None ∧ attrs !! "nodes" = None.
Proof.
  rewrite !orb_false_iff, !bool_decide_eq_false, <- !eq_None_not_Some. tauto.
Qed.

Section new_element_facts.
Variable py_int : string → option Z.
Variable py_float : string → option spec_float.

(** X19.  The element the normalizer opens for a [node] or [way] holds the
    tag name under 'type', an empty tag dict and an empty reference list;
    'lat' and 'lon' as floats; 'id', 'uid', 'version' and 'changeset' as
    ints; every other attribute as the string it was.  It is opened exactly
    when no attribute is named 'type', 'tags' or 'nodes' and each of these
    six attributes, when present, converts. *)
Theorem new_element_conversion name attrs :
  ((∃ el, new_element py_int py_float name attrs = Ok el)
   ↔ attrs !! "type" = None ∧ attrs !! "tags" = None ∧ attrs !! "nodes" = None
     ∧ (∀ k sv, k ∈ ["lat"; "lon"] → attrs !! k = Some sv → is_Some (py_float sv))
     ∧ (∀ k sv, k ∈ ["id"; "uid"; "version"; "changeset"] →
                attrs !! k = Some sv → is_Some (py_int sv)))
  ∧ ∀ el,
      new_element py_int py_float name attrs = Ok el →
      el !! "type" = Some (VStr name)
      ∧ el !! "tags" = Some (VTags ∅)
      ∧ el !! "nodes" = Some (VNodes [])
      ∧ (∀ k, k ∈ ["lat"; "lon"] →
              el !! k = VFloat <$> (attrs !! k ≫= py_float))
      ∧ (∀ k, k ∈ ["id"; "uid"; "version"; "changeset"] →
              el !! k = VInt <$> (attrs !! k ≫= py_int))
      ∧ (∀ k, k ∉ ["type"; "tags"; "nodes"; "lat"; "lon";
                   "id"; "uid"; "version"; "changeset"] →
              el !! k = VStr <$> attrs !! k).
Proof.
  set (base := <["type" := VStr name]>
                 (<["tags" := VTags ∅]>
                    (<["nodes" := VNodes []]> (VStr <$> attrs)))).
  assert (Hnew : ∀ el,
             new_element py_int py_float name attrs = Ok el →
             (attrs !! "type" = None ∧ attrs !! "tags" = None
              ∧ attrs !! "nodes" = None)
             ∧ ∃ el1,
                 update_converted py_float VFloat ["lat"; "lon"] attrs base = Ok el1
                 ∧ update_converted py_int VInt
                     ["id"; "uid"; "version"; "changeset"] attrs el1 = Ok el).
  { intros el. unfold new_element. fold base.
    destruct (_ || _) eqn:Hres; [done|]. apply reserved_attributes in Hres.
    intros (el1 & H1 & H2)%bind_Ok. by eauto. }
  split; [split|].
  - intros [el (Hres & el1 & [Hf _]%update_converted_result
                & [Hi _]%update_converted_result)%Hnew].
    by destruct Hres as (? & ? & ?).
  - intros (Hty & Htags & Hnodes & Hf & Hi). unfold new_element. fold base.
    rewrite (proj2 (reserved_attributes attrs)) by done.
    destruct (update_converted_succeeds py_float VFloat ["lat"; "lon"] attrs
                base Hf) as [el1 ->].
    cbn [mbind result_bind]. by apply update_converted_succeeds.
  - intros el ((Hty & Htags & Hnodes) & el1 & [_ Hf]%update_converted_result
               & [Hok Hi]%update_converted_result)%Hnew.
    assert (Hbase : ∀ k, k ≠ "type" → k ≠ "tags" → k ≠ "nodes" →
                         base !! k = VStr <$> attrs !! k).
    { intros k ???. unfold base. rewrite !lookup_insert_ne by congruence.
      by rewrite lookup_fmap. }
    split; [|split; [|split; [|split; [|split]]]].
    + rewrite Hi, Hf. simpl. unfold base. apply lookup_insert_eq.
    + rewrite Hi, Hf. simpl. unfold base.
      rewrite lookup_insert_ne by done. apply lookup_insert_eq.
    + rewrite Hi, Hf. simpl. unfold base.
      rewrite !lookup_insert_ne by done. apply lookup_insert_eq.
    + intros k Hk. rewrite Hi, Hf.
      rewrite (decide_True (P := k ∈ ["lat"; "lon"])) by done.
      rewrite decide_False.
      2:{ repeat (apply elem_of_cons in Hk as [->|Hk];
                  [intros H; by repeat (apply elem_of_cons in H as [?|H]; [done|]);
                                apply elem_of_nil in H|]).
          by apply elem_of_nil in Hk. }
      destruct (attrs !! k) as [sv|] eqn:Hsv; [done|].
      rewrite Hbase, Hsv; [done|..];
        repeat (apply elem_of_cons in Hk as [->|Hk]; [done|]);
        by apply elem_of_nil in Hk.
    + intros k Hk. rewrite Hi.
      rewrite (decide_True (P := k ∈ ["id"; "uid"; "version"; "changeset"])) by done.
      destruct (attrs !! k) as [sv|] eqn:Hsv; [done|].
      rewrite Hf, decide_False.
      2:{ repeat (apply elem_of_cons in Hk as [->|Hk];
                  [intros H; by repeat (apply elem_of_cons in H as [?|H]; [done|]);
                                apply elem_of_nil in H|]).
          by apply elem_of_nil in Hk. }
      rewrite Hbase, Hsv; [done|..];
        repeat (apply elem_of_cons in Hk as [->|Hk]; [done|]);
        by apply elem_of_nil in Hk.
    + intros k Hk. rewrite Hi, Hf, !decide_False.
      * apply Hbase; intros ->; apply Hk; in_list.
      * intros H. apply Hk.
        repeat (apply elem_of_cons in H as [->|H]; [in_list|]).
        by apply elem_of_nil in H.
      * intros H. apply Hk.
        repeat (apply elem_of_cons in H as [->|H]; [in_list|]).
        by apply elem_of_nil in H.
Qed.
End new_element_facts.

(** ** [graph_from_file] *)

Lemma update_converted_not_empty {A} (conv : string → option A) (inj : A → value)
    keys attrs el :
  update_converted conv inj keys attrs el ≠ Raise EmptyOverpassResponse.
Proof.
  apply for_each_never_raises. intros d k. by repeat case_match.
Qed.

Section graph_from_file_facts.
Variable ts : string.
Variable __version__ : string.
Variable get_largest_component : MultiDiGraph → MultiDiGraph.
Variable add_edge_lengths : MultiDiGraph → MultiDiGraph.
Variable py_int : string → option Z.
Variable py_float : string → option spec_float.
Variable simplify_graph : MultiDiGraph → MultiDiGraph.

Lemma handle_not_empty h ev :
  handle py_int py_float h ev ≠ Raise EmptyOverpassResponse.
Proof.
  destruct ev as [name attrs|name]; [|done]. cbn [handle]. unfold startElement.
  destruct (bool_decide (name = "osm")); [done|].
  destruct (_ || _).
  { intros [H|(el & _ & H)]%bind_Raise; [|done].
    unfold new_element in H. destruct (_ || _); [done|].
    apply bind_Raise in H as [H|(el1 & _ & H)];
      by apply update_converted_not_empty in H. }
  destruct (bool_decide (name = "tag")).
  { unfold current_field, getitem, getattr. by repeat (simpl; case_match). }
  destruct (bool_decide (name = "nd")); [|done].
  unfold current_field, getitem, getattr. by repeat (simpl; case_match).
Qed.

Lemma _overpass_json_from_file_not_empty doc :
  _overpass_json_from_file py_int py_float doc ≠ Raise EmptyOverpassResponse.
Proof.
  unfold _overpass_json_from_file.
  intros [H|(h & _ & H)]%bind_Raise.
  - revert H. apply for_each_never_raises, handle_not_empty.
  - unfold handler_object in H. by destruct (mapM _ _).
Qed.

(** X20.  [graph_from_file] raises [EmptyOverpassResponse] exactly when the
    normalizer gets through the file and has found no [node] and no [way];
    a plain document whose root has no [node] or [way] child (only
    relations, say) is such a file.  The same relations given as JSON
    elements would not raise. *)
Theorem graph_from_file_empty s doc bidirectional simplify retain_all :
  (graph_from_file ts __version__ get_largest_component add_edge_lengths
     py_int py_float simplify_graph s doc bidirectional simplify retain_all
   = Raise EmptyOverpassResponse
   ↔ ∃ r, _overpass_json_from_file py_int py_float doc = Ok r
          ∧ resp_elements r = [])
  ∧ (plain_document doc = true →
     Forall (λ c, xml_name c ≠ "node" ∧ xml_name c ≠ "way") (xml_children doc) →
     graph_from_file ts __version__ get_largest_component add_edge_lengths
       py_int py_float simplify_graph s doc bidirectional simplify retain_all
     = Raise EmptyOverpassResponse).
Proof.
  assert (Hiff :
    graph_from_file ts __version__ get_largest_component add_edge_lengths
      py_int py_float simplify_graph s doc bidirectional simplify retain_all
    = Raise EmptyOverpassResponse
    ↔ ∃ r, _overpass_json_from_file py_int py_float doc = Ok r
           ∧ resp_elements r = []).
  { unfold graph_from_file. split.
    - intros [H|(r & Hr & H)]%bind_Raise;
        [by apply _overpass_json_from_file_not_empty in H|].
      exists r. split; [done|].
      apply bind_Raise in H as [H|(G & _ & H)]; [|done].
      unfold _create_graph, all_elements in H. simpl in H.
      rewrite app_nil_r in H. destruct (resp_elements r); [done|].
      simpl in H. apply bind_Raise in H as [H|(G & _ & H)]; [|done].
      by apply assemble_not_empty in H.
    - intros (r & -> & Hels). cbn [mbind result_bind].
      unfold _create_graph, all_elements. simpl. by rewrite app_nil_r, Hels. }
  split; [exact Hiff|].
  intros Hplain Hchildren. apply Hiff.
  apply (normalizer_matches_equivalent_json py_int py_float doc [] Hplain).
  unfold equivalent_json.
  assert (Hnone : ∀ els,
            for_each (equivalent_step py_int py_float) (xml_children doc) els
            = Ok els).
  { induction Hchildren as [|c cs [Hn Hw] _ IH]; intros els; [done|].
    cbn [for_each]. rewrite equivalent_step_unfold.
    rewrite !bool_decide_eq_false_2 by done. apply IH. }
  rewrite Hnone. by eexists.
Qed.
End graph_from_file_facts.

Lemma graph_from_file_empty_witness :
  graph_from_file "2020-05-01 12:00:00" "0.13" (λ G, G) (λ G, G)
    decimal_int (λ _, None) (λ G, G) settings_osm
    (XElement "osm" ∅
       [XElement "relation" {["id" := "9"]}
          [XElement "member" {["type" := "way"; "ref" := "1"]} []]])
    false true false = Raise EmptyOverpassResponse.
Proof.
  apply (graph_from_file_empty "2020-05-01 12:00:00" "0.13" (λ G, G) (λ G, G)
           decimal_int (λ _, None) (λ G, G) settings_osm
           (XElement "osm" ∅
              [XElement "relation" {["id" := "9"]}
                 [XElement "member" {["type" := "way"; "ref" := "1"]} []]])
           false true false).
  - reflexivity.
  - by repeat constructor.
Defined.

(** ** [_osm_net_download] *)

Lemma call_bind_Done {E A B} (x : E + A) (f : A → outcome E B) b :
  call x ≫= f = Done b ↔ ∃ a, x = inr a ∧ f a = Done b.
Proof.
  destruct x as [e|a]; cbn.
  - split; [done|]. by intros (? & ? & _).
  - split; [by eexists|]. by intros (? & [= <-] & ?).
Qed.

Lemma call_bind_own {E A B} (x : E + A) (f : A → outcome E B) :
  call x ≫= f = Failed InsufficientNetworkQueryArguments
  → ∃ a, f a = Failed InsufficientNetworkQueryArguments.
Proof. destruct x as [e|a]; cbn; [done|by eexists]. Qed.

Section osm_net_download_facts.
Variable geometry : Type.
Variable crs : Type.
Variable E : Type.
Variable Polygon : list (spec_float * spec_float) → geometry.
Variable project_geometry : geometry → E + geometry * crs.
Variable project_geometry_to_latlong : geometry → crs → E + geometry * crs.
Variable _consolidate_subdivide_geometry : geometry → spec_float → E + geometry.
Variable geoms : geometry → list geometry.
Variable bounds : geometry → spec_float * spec_float * spec_float * spec_float.
Variable _get_polygons_coordinates : geometry → E + list string.
Variable _get_osm_filter : string → E + string.
Variable overpass_request : string → Z → E + response.
Variable default_overpass_query_settings_format : Z → string → E + string.
Variable format_6f : spec_float → string.
Variable str_int : Z → string.

Lemma request_each_Done timeout queries acc rs :
  request_each E overpass_request timeout queries acc = Done rs
  ↔ ∃ new, rs = acc ++ new
           ∧ Forall2 (λ q r, overpass_request q timeout = inr r) queries new.
Proof.
  revert acc. induction queries as [|q queries IH]; intros acc; cbn [request_each].
  - split.
    + intros [= <-]. exists []. by rewrite app_nil_r.
    + intros (new & -> & H). apply Forall2_nil_inv_l in H as ->.
      by rewrite app_nil_r.
  - destruct (overpass_request q timeout) as [e|r] eqn:Hq; cbn.
    + split; [done|]. intros (new & _ & H).
      apply Forall2_cons_inv_l in H as (r & ? & Hr & _). congruence.
    + rewrite IH. split.
      * intros (new & -> & Hnew). exists (r :: new).
        rewrite <- app_assoc. split; [done|]. by constructor.
      * intros (new & -> & H).
        apply Forall2_cons_inv_l in H as (r' & new' & Hr & Hnew & ->).
        assert (r' = r) as -> by congruence.
        exists new'. by rewrite <- app_assoc.
Qed.

Lemma request_each_not_own timeout queries acc :
  request_each E overpass_request timeout queries acc
    ≠ Failed InsufficientNetworkQueryArguments.
Proof.
  revert acc. induction queries as [|q queries IH]; intros acc; [done|].
  cbn [request_each]. destruct (overpass_request q timeout); cbn; [done|apply IH].
Qed.

Lemma request_each_first_failure timeout answered q e rest acc rs :
  Forall2 (λ q r, overpass_request q timeout = inr r) answered rs →
  overpass_request q timeout = inl e →
  request_each E overpass_request timeout (answered ++ q :: rest) acc
    = Failed (Collaborator e).
Proof.
  intros Hanswered Hq. revert acc.
  induction Hanswered as [|q' r qs rs Hq' _ IH]; intros acc; cbn [app request_each].
  - by rewrite Hq.
  - rewrite Hq'. cbn. apply IH.
Qed.

(** X21.  [_osm_net_download] reaches its own [raise
    InsufficientNetworkQueryArguments] exactly when no polygon is given and
    at least one of north, south, east and west is missing, whatever the
    collaborators return or raise. *)
Theorem osm_net_download_insufficient polygon north south east west
    network_type timeout memory max_query_area_size infrastructure
    custom_filter custom_settings :
  _osm_net_download geometry crs E Polygon project_geometry
    project_geometry_to_latlong _consolidate_subdivide_geometry geoms bounds
    _get_polygons_coordinates _get_osm_filter overpass_request
    default_overpass_query_settings_format format_6f str_int
    polygon north south east west network_type timeout memory
    max_query_area_size infrastructure custom_filter custom_settings
    = Failed InsufficientNetworkQueryArguments
  ↔ polygon = None
    ∧ (north = None ∨ south = None ∨ east = None ∨ west = None).
Proof.
  unfold _osm_net_download. split.
  - destruct polygon as [p|], north as [n|], south as [so|], east as [ea|],
      west as [w|]; cbn [bool_decide negb orb]; try (intros _; by auto).
    all: rewrite ?(bool_decide_eq_true_2 (is_Some (Some p))) by by eexists.
    all: rewrite ?(bool_decide_eq_false_2 (is_Some (@None geometry)))
      by by intros [? ?].
    all: rewrite ?bool_decide_eq_true_2 by done.
    all: rewrite ?bool_decide_eq_false_2 by done.
    all: cbn [negb orb]; try (intros _; by auto).
    all: intros H.
    all: destruct (truthy custom_filter);
      [|apply call_bind_own in H as [? H]];
      cbn [mbind outcome_bind] in H;
      (destruct (truthy custom_settings);
       [|apply call_bind_own in H as [? H]]);
      cbn [mbind outcome_bind] in H.
    all: apply call_bind_own in H as [[? ?] H].
    all: apply call_bind_own in H as [? H].
    all: apply call_bind_own in H as [[? ?] H].
    all: try apply call_bind_own in H as [? H].
    all: by apply request_each_not_own in H.
  - intros [-> Hmissing].
    rewrite (bool_decide_eq_false_2 (is_Some None)) by by intros [? ?].
    destruct north, south, east, west; cbn; try done.
    by destruct Hmissing as [?|[?|[?|?]]].
Qed.

(** X22.  When north, south, east and west are all given, a polygon passed
    along with them is ignored.  With no custom filter and no custom
    settings, once the filter of the network type is found, the settings
    template is filled in (with [[maxsize:n]] for a memory of n, with
    nothing for none) and the bounding box is projected and subdivided,
    [_osm_net_download] returns exactly the answers to one request per
    piece, in order; the query of a piece is
    [settings;(infrastructure filter(south,west,north,east);>;);out;] with
    the bounds of the piece. *)
Theorem osm_net_download_by_bbox polygon north south east west network_type
    timeout memory max_query_area_size infrastructure custom_filter
    custom_settings osm_filter overpass_settings geometry_proj crs_proj gpcs
    geometry' crs' rs :
  truthy custom_filter = false →
  _get_osm_filter network_type = inr osm_filter →
  truthy custom_settings = false →
  default_overpass_query_settings_format timeout
    match memory with
    | None => EmptyString
    | Some memory => "[maxsize:" +:+ str_int memory +:+ "]"
    end = inr overpass_settings →
  project_geometry
    (Polygon [(west, south); (east, south); (east, north); (west, north)])
    = inr (geometry_proj, crs_proj) →
  _consolidate_subdivide_geometry geometry_proj max_query_area_size = inr gpcs →
  project_geometry_to_latlong gpcs crs_proj = inr (geometry', crs') →
  _osm_net_download geometry crs E Polygon project_geometry
    project_geometry_to_latlong _consolidate_subdivide_geometry geoms bounds
    _get_polygons_coordinates _get_osm_filter overpass_request
    default_overpass_query_settings_format format_6f str_int
    polygon (Some north) (Some south) (Some east) (Some west)
    network_type timeout memory max_query_area_size infrastructure
    custom_filter custom_settings = Done rs
  ↔ Forall2
      (λ poly r,
         overpass_request
           (let '(west, south, east, north) := bounds poly in
            overpass_settings +:+ ";(" +:+ infrastructure +:+ osm_filter +:+ "("
              +:+ format_6f south +:+ "," +:+ format_6f west +:+ ","
              +:+ format_6f north +:+ "," +:+ format_6f east +:+ ");>;);out;")
           timeout = inr r)
      (geoms geometry') rs.
Proof.
  intros Hcf Hfilter Hcs Hsettings Hproj Hsub Hback. unfold _osm_net_download.
  replace (negb (bool_decide (is_Some polygon) || _)) with false
    by (cbn; by rewrite orb_true_r).
  rewrite Hcf, Hfilter. cbn [call mbind outcome_bind].
  rewrite Hcs, Hsettings. cbn [call mbind outcome_bind].
  rewrite Hproj. cbn [call mbind outcome_bind].
  rewrite Hsub. cbn [call mbind outcome_bind].
  rewrite Hback. cbn [call mbind outcome_bind].
  rewrite request_each_Done. cbn [app].
  split.
  - intros (new & -> & H). by apply Forall2_fmap_l in H.
  - intros H. exists rs. split; [done|]. by apply Forall2_fmap_l.
Qed.

(** X23.  Queried by polygon, once the polygon is projected, subdivided and
    turned into coordinate strings, [_osm_net_download] returns exactly the
    answers to one request per coordinate string, in order; with a
    non-empty custom filter and non-empty custom settings the query of a
    coordinate string [c] is
    [settings;(infrastructure filter (poly:"c");>;);out;], and neither the
    filter of the network type nor the settings template is looked up. *)
Theorem osm_net_download_by_polygon polygon north south east west network_type
    timeout memory max_query_area_size infrastructure a f b cs
    geometry_proj crs_proj gpcs geometry' crs' polygon_coord_strs rs :
  north = None ∨ south = None ∨ east = None ∨ west = None →
  project_geometry polygon = inr (geometry_proj, crs_proj) →
  _consolidate_subdivide_geometry geometry_proj max_query_area_size = inr gpcs →
  project_geometry_to_latlong gpcs crs_proj = inr (geometry', crs') →
  _get_polygons_coordinates geometry' = inr polygon_coord_strs →
  _osm_net_download geometry crs E Polygon project_geometry
    project_geometry_to_latlong _consolidate_subdivide_geometry geoms bounds
    _get_polygons_coordinates _get_osm_filter overpass_request
    default_overpass_query_settings_format format_6f str_int
    (Some polygon) north south east west network_type timeout memory
    max_query_area_size infrastructure (Some (String a f)) (Some (String b cs))
    = Done rs
  ↔ Forall2
      (λ c r,
         overpass_request
           (String b cs +:+ ";(" +:+ infrastructure +:+ String a f +:+ "(poly:"
              +:+ dquote +:+ c +:+ dquote +:+ ");>;);out;") timeout = inr r)
      polygon_coord_strs rs.
Proof.
  intros Hmissing Hproj Hsub Hback Hcoords. unfold _osm_net_download.
  rewrite (bool_decide_eq_true_2 (is_Some (Some polygon))) by by eexists.
  cbn [orb negb truthy default mbind outcome_bind].
  destruct north, south, east, west;
    try (by destruct Hmissing as [?|[?|[?|?]]]).
  all: rewrite Hproj; cbn [call mbind outcome_bind].
  all: rewrite Hsub; cbn [call mbind outcome_bind].
  all: rewrite Hback; cbn [call mbind outcome_bind].
  all: rewrite Hcoords; cbn [call mbind outcome_bind].
  all: rewrite request_each_Done; cbn [app].
  all: split;
    [intros (new & -> & H); by apply Forall2_fmap_l in H
    |intros H; exists rs; split; [done|by apply Forall2_fmap_l]].
Qed.

(** X24.  Queried by polygon, the first request that fails ends the
    download with its exception: the answers collected so far are not
    returned. *)
Theorem osm_net_download_first_failure polygon north south east west
    network_type timeout memory max_query_area_size infrastructure a f b cs
    geometry_proj crs_proj gpcs geometry' crs' answered c rest rs e :
  north = None ∨ south = None ∨ east = None ∨ west = None →
  project_geometry polygon = inr (geometry_proj, crs_proj) →
  _consolidate_subdivide_geometry geometry_proj max_query_area_size = inr gpcs →
  project_geometry_to_latlong gpcs crs_proj = inr (geometry', crs') →
  _get_polygons_coordinates geometry' = inr (answered ++ c :: rest) →
  Forall2
    (λ c r,
       overpass_request
         (poly_query (String b cs) infrastructure (String a f) c) timeout
       = inr r)
    answered rs →
  overpass_request (poly_query (String b cs) infrastructure (String a f) c)
    timeout = inl e →
  _osm_net_download geometry crs E Polygon project_geometry
    project_geometry_to_latlong _consolidate_subdivide_geometry geoms bounds
    _get_polygons_coordinates _get_osm_filter overpass_request
    default_overpass_query_settings_format format_6f str_int
    (Some polygon) north south east west network_type timeout memory
    max_query_area_size infrastructure (Some (String a f)) (Some (String b cs))
    = Failed (Collaborator e).
Proof.
  intros Hmissing Hproj Hsub Hback Hcoords Hanswered Hc.
  unfold _osm_net_download.
  rewrite (bool_decide_eq_true_2 (is_Some (Some polygon))) by by eexists.
  cbn [orb negb truthy default mbind outcome_bind].
  destruct north, south, east, west;
    try (by destruct Hmissing as [?|[?|[?|?]]]).
  all: rewrite Hproj; cbn [call mbind outcome_bind].
  all: rewrite Hsub; cbn [call mbind outcome_bind].
  all: rewrite Hback; cbn [call mbind outcome_bind].
  all: rewrite Hcoords; cbn [call mbind outcome_bind].
  all: rewrite fmap_app, fmap_cons.
  all: eapply request_each_first_failure; [|exact Hc].
  all: apply Forall2_fmap_l, Hanswered.
Qed.
End osm_net_download_facts.

Lemma osm_net_download_by_bbox_witness :
  flat_download (λ _ _, inr response_A) (Some ["a"; "b"])
    (Some (S754_zero false)) (Some (S754_zero false)) (Some (S754_zero false))
    (Some (S754_zero false)) "drive" 180 (Some 1024) (S754_zero false) "way"
    None None
  = Done [response_A].
Proof.
  apply (osm_net_download_by_bbox (list string) unit string
           (λ _, ["bbox"]) (λ g, inr (g, ())) (λ g _, inr (g, ())) (λ g _, inr g)
           (λ g, (λ c, [c]) <$> g)
           (λ _, (S754_zero false, S754_zero false, S754_zero false,
                  S754_zero false))
           (λ g, inr g)
           (λ network_type,
              if String.eqb network_type "drive" then inr "[drive]"
              else inl "unknown network type")
           (λ _ _, inr response_A)
           (λ _ maxsize, inr ("[out:json]" +:+ maxsize))
           (λ _, "0.000000") (λ _, "0")
           (Some ["a"; "b"]) (S754_zero false) (S754_zero false)
           (S754_zero false) (S754_zero false) "drive" 180 (Some 1024)
           (S754_zero false) "way" None None "[drive]" "[out:json][maxsize:0]"
           ["bbox"] () ["bbox"] ["bbox"] () [response_A]).
  - reflexivity.
  - reflexivity.
  - reflexivity.
  - reflexivity.
  - reflexivity.
  - reflexivity.
  - reflexivity.
  - repeat constructor.
Defined.

Lemma osm_net_download_by_polygon_witness :
  flat_download (λ _ _, inr response_A) (Some ["a"; "b"]) None None None None
    "drive" 180 None (S754_zero false) "way" (Some "[drive]") (Some "[out:json]")
  = Done [response_A; response_A].
Proof.
  apply (osm_net_download_by_polygon (list string) unit string
           (λ _, ["bbox"]) (λ g, inr (g, ())) (λ g _, inr (g, ())) (λ g _, inr g)
           (λ g, (λ c, [c]) <$> g)
           (λ _, (S754_zero false, S754_zero false, S754_zero false,
                  S754_zero false))
           (λ g, inr g)
           (λ network_type,
              if String.eqb network_type "drive" then inr "[drive]"
              else inl "unknown network type")
           (λ _ _, inr response_A)
           (λ _ maxsize, inr ("[out:json]" +:+ maxsize))
           (λ _, "0.000000") (λ _, "0")
           ["a"; "b"] None None None None "drive" 180 None (S754_zero false)
           "way" (Ascii.ascii_of_nat 91) "drive]" (Ascii.ascii_of_nat 91) "out:json]"
           ["a"; "b"] () ["a"; "b"] ["a"; "b"] () ["a"; "b"]
           [response_A; response_A]).
  - by left.
  - reflexivity.
  - reflexivity.
  - reflexivity.
  - reflexivity.
  - repeat constructor.
Defined.

Lemma osm_net_download_first_failure_witness :
  flat_download answers_but_b (Some ["a"; "b"; "c"]) None None None None
    "drive" 180 None (S754_zero false) "way" (Some "[drive]") (Some "[out:json]")
  = Failed (Collaborator "server error").
Proof.
  apply (osm_net_download_first_failure (list string) unit string
           (λ _, ["bbox"]) (λ g, inr (g, ())) (λ g _, inr (g, ())) (λ g _, inr g)
           (λ g, (λ c, [c]) <$> g)
           (λ _, (S754_zero false, S754_zero false, S754_zero false,
                  S754_zero false))
           (λ g, inr g)
           (λ network_type,
              if String.eqb network_type "drive" then inr "[drive]"
              else inl "unknown network type")
           answers_but_b
           (λ _ maxsize, inr ("[out:json]" +:+ maxsize))
           (λ _, "0.000000") (λ _, "0")
           ["a"; "b"; "c"] None None None None "drive" 180 None (S754_zero false)
           "way" (Ascii.ascii_of_nat 91) "drive]" (Ascii.ascii_of_nat 91) "out:json]"
           ["a"; "b"; "c"] () ["a"; "b"; "c"] ["a"; "b"; "c"] ()
           ["a"] "b" ["c"] [response_A] "server error").
  - by left.
  - reflexivity.
  - reflexivity.
  - reflexivity.
  - reflexivity.
  - repeat constructor.
  - reflexivity.
Defined.
